(** * Request resolvers and group handlers of coderd

    A shallow embedding of
      - [coderd/httpmw/groupparam.go]         (the Group Resolver),
      - [coderd/httpmw/organizationparam.go]  (the Organization and the
        Organization Member Resolver),
      - [enterprise/coderd/groups.go]         (the group handlers),
    together with the parts of [google/uuid], [context], [chi] and
    [net/http] these files rely on. *)

From Stdlib Require Import Strings.Byte Strings.Ascii Strings.String NArith.
From Stdlib Require Import List.
From stdpp Require Import base option list countable vector gmap strings.

Open Scope string_scope.

(** ** Bytes *)

#[global] Instance byte_eq_dec : EqDecision byte := Byte.byte_eq_dec.

Definition byte_of_N (n : N) : byte := default x00 (Byte.of_N n).

#[global] Instance byte_countable : Countable byte.
Proof.
  refine (inj_countable' Byte.to_N byte_of_N _).
  intros b. unfold byte_of_N. by rewrite Byte.of_to_N.
Defined.

(** ** github.com/google/uuid *)

Module uuid.

(** [type UUID [16]byte] *)
Definition UUID : Type := vec byte 16.

(** [var Nil UUID]: the zero value of the array. *)
Definition Nil : UUID := vreplicate 16 x00.

(** [hex.Encode]: the digit table is "0123456789abcdef". *)
Definition hextable : string := "0123456789abcdef".

Definition hexdigit (n : N) : ascii :=
  default "0"%char (String.get (N.to_nat n) hextable).

(** [dst[j] = hextable[v>>4]] and [dst[j+1] = hextable[v&0x0f]] *)
Definition hexHi (v : byte) : ascii := hexdigit (N.shiftr (Byte.to_N v) 4).
Definition hexLo (v : byte) : ascii := hexdigit (N.land (Byte.to_N v) 15).

Definition encodeByte (v : byte) : list ascii := [hexHi v; hexLo v].

Definition hexEncode (bs : list byte) : list ascii := bs ≫= encodeByte.

(** [encodeHex]: 8-4-4-4-12 hexadecimal digits separated by dashes. *)
Definition encodeHex (u : UUID) : list ascii :=
  let bs := vec_to_list u in
  hexEncode (take 4 bs) ++ "-"%char ::
  hexEncode (take 2 (drop 4 bs)) ++ "-"%char ::
  hexEncode (take 2 (drop 6 bs)) ++ "-"%char ::
  hexEncode (take 2 (drop 8 bs)) ++ "-"%char ::
  hexEncode (drop 10 bs).

(** [func (uuid UUID) String() string] *)
Definition String (u : UUID) : string := string_of_list_ascii (encodeHex u).

(** [xvalues]: the value of a hexadecimal digit of either case; the Go
    table holds 255 for every other byte. *)
Definition xvalue (c : ascii) : option N :=
  let n := N_of_ascii c in
  if (48 <=? n)%N && (n <=? 57)%N then Some (n - 48)%N
  else if (97 <=? n)%N && (n <=? 102)%N then Some (n - 87)%N
  else if (65 <=? n)%N && (n <=? 70)%N then Some (n - 55)%N
  else None.

(** [func xtob(x1, x2 byte) (byte, bool)] *)
Definition xtob (x1 x2 : ascii) : option byte :=
  b1 ← xvalue x1; b2 ← xvalue x2;
  Some (byte_of_N (N.lor (N.shiftl b1 4) b2)).

(** [s[i]] on a string whose length has been checked. *)
Definition at_ (s : string) (i : nat) : ascii :=
  default "000"%char (String.get i s).

Definition xtobAt (s : string) (x : nat) : option byte :=
  xtob (at_ s x) (at_ s (x + 1)).

(** [strings.EqualFold] against a lower-case ASCII-letter pattern. *)
Definition lower (c : ascii) : ascii :=
  let n := N_of_ascii c in
  if (65 <=? n)%N && (n <=? 90)%N then ascii_of_N (n + 32) else c.

Fixpoint toLower (s : string) : string :=
  match s with
  | EmptyString => EmptyString
  | String.String c s' => String.String (lower c) (toLower s')
  end.

(** The loop over the sixteen digit-pair offsets of the canonical form. *)
Definition parseCanonical (s : string) : option UUID :=
  if bool_decide (at_ s 8 ≠ "-"%char ∨ at_ s 13 ≠ "-"%char ∨
                  at_ s 18 ≠ "-"%char ∨ at_ s 23 ≠ "-"%char)
  then None
  else
    v0 ← xtobAt s 0; v1 ← xtobAt s 2; v2 ← xtobAt s 4; v3 ← xtobAt s 6;
    v4 ← xtobAt s 9; v5 ← xtobAt s 11;
    v6 ← xtobAt s 14; v7 ← xtobAt s 16;
    v8 ← xtobAt s 19; v9 ← xtobAt s 21;
    v10 ← xtobAt s 24; v11 ← xtobAt s 26; v12 ← xtobAt s 28;
    v13 ← xtobAt s 30; v14 ← xtobAt s 32; v15 ← xtobAt s 34;
    Some [# v0; v1; v2; v3; v4; v5; v6; v7;
            v8; v9; v10; v11; v12; v13; v14; v15].

(** The 32-digit form without dashes: digit pair [i] sits at [2*i]. *)
Definition parseRaw (s : string) : option UUID :=
  v0 ← xtobAt s 0; v1 ← xtobAt s 2; v2 ← xtobAt s 4; v3 ← xtobAt s 6;
  v4 ← xtobAt s 8; v5 ← xtobAt s 10; v6 ← xtobAt s 12; v7 ← xtobAt s 14;
  v8 ← xtobAt s 16; v9 ← xtobAt s 18; v10 ← xtobAt s 20; v11 ← xtobAt s 22;
  v12 ← xtobAt s 24; v13 ← xtobAt s 26; v14 ← xtobAt s 28; v15 ← xtobAt s 30;
  Some [# v0; v1; v2; v3; v4; v5; v6; v7;
          v8; v9; v10; v11; v12; v13; v14; v15].

(** [func Parse(s string) (UUID, error)]; [None] stands for the error. *)
Definition Parse (s : string) : option UUID :=
  let n := String.length s in
  if bool_decide (n = 36) then parseCanonical s
  else if bool_decide (n = 36 + 9) then
    if bool_decide (toLower (substring 0 9 s) = "urn:uuid:")
    then parseCanonical (substring 9 36 s)
    else None
  else if bool_decide (n = 36 + 2) then parseCanonical (substring 1 37 s)
  else if bool_decide (n = 32) then parseRaw s
  else None.

(** [func MustParse(s string) UUID] panics where [Parse] fails; the left
    injection carries the panic message. *)
Definition MustParse (s : string) : string + UUID :=
  match Parse s with
  | Some u => inr u
  | None => inl ("uuid: Parse(" ++ s ++ "): invalid UUID")
  end.

End uuid.

Arguments uuid.hexHi : simpl never.
Arguments uuid.hexLo : simpl never.
Arguments uuid.xtob : simpl never.

(** ** database/sql, lib/pq and xerrors: error values *)

Inductive error : Type :=
  | ErrNoRows                                 (* [sql.ErrNoRows] *)
  | PqError (codeName : string)               (* [*pq.Error], by [Code.Name()] *)
  | NotAuthorizedError                        (* access denied by the store wrapper *)
  | errorString (msg : string)                (* [errors.New], [xerrors.Errorf] without [%w] *)
  | wrapError (msg : string) (err : error).   (* [xerrors.Errorf("msg: %w", err)] *)

(** [err.Error()] *)
Fixpoint Error (err : error) : string :=
  match err with
  | ErrNoRows => "sql: no rows in result set"
  | PqError codeName => "pq: " ++ codeName
  | NotAuthorizedError => "unauthorized"
  | errorString msg => msg
  | wrapError msg err' => msg ++ ": " ++ Error err'
  end.

(** [errors.Is(err, sql.ErrNoRows)]: follows the chain of wrapped errors. *)
Fixpoint Is_ErrNoRows (err : error) : bool :=
  match err with
  | ErrNoRows => true
  | wrapError _ err' => Is_ErrNoRows err'
  | _ => false
  end.

Inductive Result (A : Type) : Type :=
  | Ok (a : A)
  | Err (err : error).
Arguments Ok {A} a.
Arguments Err {A} err.

(** [time.Time], as seconds since the epoch. *)
Definition Time : Type := Z.

(** ** Package database: the rows the resolvers and handlers read.
    The struct declarations are generated code of package [database]; the
    fields kept are those the sources select. *)

Module database.

Module Organization.
Record t : Type := mk
  { ID : uuid.UUID; Name : string; IsDefault : bool }.
End Organization.

Module Group.
Record t : Type := mk
  { ID : uuid.UUID; Name : string; OrganizationID : uuid.UUID }.
End Group.

(** [AvatarURL] is the text of the column; where the column is nullable
    the handlers read its [String] part. *)
Module User.
Record t : Type := mk
  { ID : uuid.UUID; Email : string; Username : string;
    CreatedAt : Time; LastSeenAt : Time; Status : string;
    RBACRoles : list string; AvatarURL : string }.
End User.

Module OrganizationMember.
Record t : Type := mk
  { UserID : uuid.UUID; OrganizationID : uuid.UUID;
    CreatedAt : Time; UpdatedAt : Time; Roles : list string }.
End OrganizationMember.

(** The row type of the [OrganizationMembers] query: the membership row
    joined with columns of the user. *)
Module OrganizationMembersRow.
Record t : Type := mk
  { OrganizationMember : OrganizationMember.t;
    Username : string; AvatarURL : string; Name : string;
    Email : string; GlobalRoles : list string }.
End OrganizationMembersRow.

Module GroupMember.
Record t : Type := mk { UserID : uuid.UUID; GroupID : uuid.UUID }.
End GroupMember.

Module OrganizationMembersParams.
Record t : Type := mk { OrganizationID : uuid.UUID; UserID : uuid.UUID }.
End OrganizationMembersParams.

Module GetOrganizationMemberByUserIDParams.
Record t : Type := mk { OrganizationID : uuid.UUID; UserID : uuid.UUID }.
End GetOrganizationMemberByUserIDParams.

Module GetGroupByOrgAndNameParams.
Record t : Type := mk { OrganizationID : uuid.UUID; Name : string }.
End GetGroupByOrgAndNameParams.

Module UpdateGroupByIDParams.
Record t : Type := mk { ID : uuid.UUID; Name : string }.
End UpdateGroupByIDParams.

Module InsertGroupMemberParams.
Record t : Type := mk { GroupID : uuid.UUID; UserID : uuid.UUID }.
End InsertGroupMemberParams.

(** Modelled from the spec: [database.IsUniqueViolation] is declared elsewhere
    in the repository. A uniqueness violation is the driver error whose code
    is named unique_violation, found through any wrapping. *)
Fixpoint IsUniqueViolation (err : error) : bool :=
  match err with
  | PqError codeName => bool_decide (codeName = "unique_violation")
  | wrapError _ err' => IsUniqueViolation err'
  | _ => false
  end.

(** Modelled from the spec: [database.ExpectOne] is declared elsewhere in the
    repository. At most one match is expected: none is the no-rows condition,
    more than one an internal-consistency error. *)
Definition ExpectOne {A : Type} (ret : Result (list A)) : Result A :=
  match ret with
  | Err err => Err err
  | Ok [] => Err ErrNoRows
  | Ok [a] => Ok a
  | Ok _ => Err (errorString "too many rows returned, expected 1")
  end.

(** The operations of [database.Store] that the sources call. A query
    reads the state; a command yields the next state or fails without
    effect. Each distinguishes the no-rows condition from other failures
    through the [error] it returns. *)
Class Store (DB : Type) : Type :=
  { GetDefaultOrganization : DB → Result Organization.t;
    GetOrganizationByID : uuid.UUID → DB → Result Organization.t;
    GetOrganizationByName : string → DB → Result Organization.t;
    GetGroupByID : uuid.UUID → DB → Result Group.t;
    OrganizationMembers :
      OrganizationMembersParams.t → DB → Result (list OrganizationMembersRow.t);
    GetOrganizationMemberByUserID :
      GetOrganizationMemberByUserIDParams.t → DB → Result OrganizationMember.t;
    GetGroupByOrgAndName : GetGroupByOrgAndNameParams.t → DB → Result Group.t;
    GetGroupMembers : uuid.UUID → DB → Result (list User.t);
    UpdateGroupByID : UpdateGroupByIDParams.t → DB → Result (Group.t * DB);
    InsertGroupMember : InsertGroupMemberParams.t → DB → Result (unit * DB);
    DeleteGroupMember : uuid.UUID → DB → Result (unit * DB);
    DeleteGroupByID : uuid.UUID → DB → Result (unit * DB) }.

(** The store operations as they appear in a trace of calls. *)
Inductive Call : Type :=
  | CallGetDefaultOrganization
  | CallGetOrganizationByID (id : uuid.UUID)
  | CallGetOrganizationByName (name : string)
  | CallGetGroupByID (id : uuid.UUID)
  | CallOrganizationMembers (arg : OrganizationMembersParams.t)
  | CallGetOrganizationMemberByUserID (arg : GetOrganizationMemberByUserIDParams.t)
  | CallGetGroupByOrgAndName (arg : GetGroupByOrgAndNameParams.t)
  | CallGetGroupMembers (groupID : uuid.UUID)
  | CallInTx
  | CallUpdateGroupByID (arg : UpdateGroupByIDParams.t)
  | CallInsertGroupMember (arg : InsertGroupMemberParams.t)
  | CallDeleteGroupMember (userID : uuid.UUID)
  | CallDeleteGroupByID (id : uuid.UUID).

End database.

(** ** Package codersdk: the wire types *)

Module codersdk.

(** [codersdk.DefaultOrganization]: the reserved alias of the default
    organization (the name that is exactly "default"). *)
Definition DefaultOrganization : string := "default".

Module Response.
Record t : Type := mk
  { Message : string; Detail : string }.
End Response.

Module Role.
Record t : Type := mk
  { DisplayName : string; Name : string }.
End Role.

Module User.
Record t : Type := mk
  { ID : uuid.UUID; Email : string; CreatedAt : Time; LastSeenAt : Time;
    Username : string; Status : string; OrganizationIDs : list uuid.UUID;
    Roles : list Role.t; AvatarURL : string }.
End User.

Module Group.
Record t : Type := mk
  { ID : uuid.UUID; Name : string; OrganizationID : uuid.UUID;
    Members : list User.t }.
End Group.

Module PatchGroupRequest.
Record t : Type := mk
  { AddUsers : list string; RemoveUsers : list string; Name : string }.
End PatchGroupRequest.

End codersdk.

(** ** Package rbac: actions, objects and roles *)

Module rbac.

Inductive Action : Type :=
  | ActionCreate
  | ActionRead
  | ActionUpdate
  | ActionDelete.

(** What a handler hands to the authorization gate: a resolved group. *)
Inductive Object : Type :=
  | ObjectGroup (group : database.Group.t).

Module Role.
Record t : Type := mk
  { Name : string; DisplayName : string }.
End Role.

End rbac.

(** ** Package net/http: what a handler writes *)

Module http.

Definition StatusOK : nat := 200.
Definition StatusBadRequest : nat := 400.
Definition StatusNotFound : nat := 404.
Definition StatusConflict : nat := 409.
Definition StatusPreconditionFailed : nat := 412.
Definition StatusInternalServerError : nat := 500.

Inductive Payload : Type :=
  | JSONResponse (body : codersdk.Response.t)
  | JSONGroup (body : codersdk.Group.t)
  | PlainText (body : string).

Record Response : Type := mkResponse
  { StatusCode : nat; Body : Payload }.

Definition newline : string := String.String "010"%char "".

(** [http.NotFound(w, r)] is [http.Error(w, "404 page not found", 404)]:
    a plain-text body, the message followed by a newline. *)
Definition NotFound : Response :=
  {| StatusCode := StatusNotFound;
     Body := PlainText ("404 page not found" ++ newline) |}.

End http.

(** ** Package httpapi *)

Module httpapi.

(** [httpapi.Write(ctx, rw, status, response)]: the status and the
    response as a JSON body. *)
Definition Write (status : nat) (response : codersdk.Response.t) : http.Response :=
  {| http.StatusCode := status; http.Body := http.JSONResponse response |}.

(** [httpapi.Write] of a group. *)
Definition WriteGroup (status : nat) (response : codersdk.Group.t) : http.Response :=
  {| http.StatusCode := status; http.Body := http.JSONGroup response |}.

Definition message (msg : string) : codersdk.Response.t :=
  {| codersdk.Response.Message := msg; codersdk.Response.Detail := "" |}.

(** Modelled from the spec: [httpapi.ResourceNotFound] is declared elsewhere
    in the repository. It writes the one resource-not-found response, status
    404, used for true absence and for a denied access alike. *)
Definition ResourceNotFound : http.Response :=
  Write http.StatusNotFound
    (message "Resource not found or you do not have access to this resource").

(** Modelled from the spec: [httpapi.InternalServerError] is declared
    elsewhere in the repository. Status 500, the cause kept as detail. *)
Definition InternalServerError (err : error) : http.Response :=
  Write http.StatusInternalServerError
    {| codersdk.Response.Message := "An internal server error occurred.";
       codersdk.Response.Detail := Error err |}.

(** Modelled from the spec: [httpapi.Is404Error] is declared elsewhere in the
    repository. The not-found condition covers a resource that is absent and
    one the caller is denied access to. *)
Fixpoint Is404Error (err : error) : bool :=
  match err with
  | ErrNoRows => true
  | NotAuthorizedError => true
  | wrapError _ err' => Is404Error err'
  | _ => false
  end.

End httpapi.

(** ** Packages unicode/utf8 and strconv: the verb [%q] *)

Module utf8.

Definition RuneError : N := 65533.

(** A continuation byte. *)
Definition cont (b : N) : bool := (128 <=? b)%N && (b <=? 191)%N.

(** [func DecodeRuneInString(s string) (rune, int)]: the first rune of [s]
    and its width in bytes; [(RuneError, 1)] for an encoding that is not
    well formed, [(RuneError, 0)] for the empty string. The second byte is
    held to the accept range of the first. *)
Definition DecodeRuneInString (s : string) : N * nat :=
  let bytes := N_of_ascii <$> String.list_ascii_of_string s in
  match bytes with
  | [] => (RuneError, 0)
  | s0 :: rest =>
      if (s0 <? 128)%N then (s0, 1)
      else
        let '(sz, lo, hi) :=
          if (194 <=? s0)%N && (s0 <=? 223)%N then (2%nat, 128%N, 191%N)
          else if (s0 =? 224)%N then (3%nat, 160%N, 191%N)
          else if (s0 =? 237)%N then (3%nat, 128%N, 159%N)
          else if (225 <=? s0)%N && (s0 <=? 239)%N then (3%nat, 128%N, 191%N)
          else if (s0 =? 240)%N then (4%nat, 144%N, 191%N)
          else if (241 <=? s0)%N && (s0 <=? 243)%N then (4%nat, 128%N, 191%N)
          else if (s0 =? 244)%N then (4%nat, 128%N, 143%N)
          else (1%nat, 0%N, 0%N) in
        match sz, rest with
        | 2, s1 :: _ =>
            if (lo <=? s1)%N && (s1 <=? hi)%N
            then (((s0 - 192) * 64 + (s1 - 128))%N, 2)
            else (RuneError, 1)
        | 3, s1 :: s2 :: _ =>
            if (lo <=? s1)%N && (s1 <=? hi)%N && cont s2
            then (((s0 - 224) * 4096 + (s1 - 128) * 64 + (s2 - 128))%N, 3)
            else (RuneError, 1)
        | 4, s1 :: s2 :: s3 :: _ =>
            if (lo <=? s1)%N && (s1 <=? hi)%N && cont s2 && cont s3
            then (((s0 - 240) * 262144 + (s1 - 128) * 4096
                   + (s2 - 128) * 64 + (s3 - 128))%N, 4)
            else (RuneError, 1)
        | _, _ => (RuneError, 1)
        end
  end.

End utf8.

Module strconv.

Definition lowerhex (n : N) : ascii :=
  match n with
  | 0 => "0" | 1 => "1" | 2 => "2" | 3 => "3" | 4 => "4" | 5 => "5"
  | 6 => "6" | 7 => "7" | 8 => "8" | 9 => "9" | 10 => "a" | 11 => "b"
  | 12 => "c" | 13 => "d" | 14 => "e" | _ => "f"
  end%N%char.

Definition hex2 (b : N) : string :=
  String (lowerhex (b / 16)) (String (lowerhex (b mod 16)) "").

Definition hex4 (r : N) : string := hex2 (r / 256) ++ hex2 (r mod 256).

(** [func IsPrint(r rune) bool], exact through Latin-1. The tables that
    decide it beyond are not part of this development: a rune from U+0100
    on is taken as printable. *)
Definition IsPrint (r : N) : bool :=
  if (r <=? 255)%N then
    (32 <=? r)%N && (r <=? 126)%N
    || (161 <=? r)%N && (r <=? 255)%N && negb (r =? 173)%N
  else true.

Definition backslash : string := String "092"%char "".

(** [appendEscapedRune] with the double quote as the quote; [raw] is the
    encoding of the rune [r] as the string holds it. *)
Definition appendEscapedRune (r : N) (raw : string) : string :=
  if (r =? 34)%N || (r =? 92)%N then backslash ++ raw
  else if IsPrint r then raw
  else if (r =? 7)%N then backslash ++ "a"
  else if (r =? 8)%N then backslash ++ "b"
  else if (r =? 12)%N then backslash ++ "f"
  else if (r =? 10)%N then backslash ++ "n"
  else if (r =? 13)%N then backslash ++ "r"
  else if (r =? 9)%N then backslash ++ "t"
  else if (r =? 11)%N then backslash ++ "v"
  else if (r <? 32)%N || (r =? 127)%N then backslash ++ "x" ++ hex2 r
  else backslash ++ "u" ++ hex4 r.

(** The loop of [appendQuotedWith]: [skip] counts the bytes of [s] that
    belong to the rune written last. *)
Fixpoint quoted (skip : nat) (s : string) : string :=
  match s with
  | EmptyString => EmptyString
  | String c rest =>
      match skip with
      | S skip' => quoted skip' rest
      | O =>
          let '(r, width) := utf8.DecodeRuneInString s in
          if bool_decide (width = 1) && (r =? utf8.RuneError)%N then
            backslash ++ "x" ++ hex2 (N_of_ascii c) ++ quoted 0 rest
          else
            appendEscapedRune r (String.substring 0 width s)
            ++ quoted (width - 1) rest
      end
  end.

(** [func Quote(s string) string] *)
Definition Quote (s : string) : string :=
  String "034"%char (quoted 0 s ++ String "034"%char "").

End strconv.

(** [fmt.Sprintf("%q", s)] of a string is [strconv.Quote(s)]. *)
Definition Sprintf_q (s : string) : string := strconv.Quote s.

(** ** Package chi: the route context *)

Module chi.

(** [RouteParams]: the parallel slices [Keys] and [Values] grow together
    through [Add], one (key, value) entry per call. *)
Definition RouteParams : Type := list (string * string).

(** [func (s *RouteParams) Add(key, value string)] appends. *)
Definition Add (s : RouteParams) (key value : string) : RouteParams :=
  (s ++ [(key, value)])%list.

(** [func (x *Context) URLParam(key string) string]: scans from the last
    entry down to the first; the empty string when the key is absent. *)
Definition URLParam (s : RouteParams) (key : string) : string :=
  match List.find (λ kv, bool_decide (kv.1 = key)) (rev s) with
  | Some kv => kv.2
  | None => ""
  end.

End chi.

(** ** The world a request runs in: the store and the trace of calls *)

Record World (DB : Type) : Type := mkWorld
  { db : DB; calls : list database.Call }.
Arguments mkWorld {DB} db calls.
Arguments db {DB} w.
Arguments calls {DB} w.

Definition logCall {DB : Type} (c : database.Call) (w : World DB) : World DB :=
  {| db := db w; calls := (calls w ++ [c])%list |}.

(** A step of a handler either goes on with a value or leaves early with
    an [E]; both ways it threads the world. *)
Definition Step (DB E A : Type) : Type := World DB → (E + A) * World DB.

Definition ret {DB E A : Type} (a : A) : Step DB E A :=
  λ w, (inr a, w).

Definition leave {DB E A : Type} (e : E) : Step DB E A :=
  λ w, (inl e, w).

Definition bind {DB E A B : Type} (m : Step DB E A) (k : A → Step DB E B)
  : Step DB E B :=
  λ w, match m w with
       | (inl e, w') => (inl e, w')
       | (inr a, w') => k a w'
       end.

Notation "'let!' x ':=' m 'in' k" := (bind m (λ x, k))
  (at level 10, x name, m at level 100, k at level 200, only parsing).
Notation "'let!' ' pat ':=' m 'in' k" := (bind m (λ x, match x with pat => k end))
  (at level 10, pat pattern, m at level 100, k at level 200, only parsing).

(** [for _, x := range xs { body }] with an early return in the body. *)
Fixpoint forEach {DB E A : Type} (xs : list A) (body : A → Step DB E unit)
  : Step DB E unit :=
  match xs with
  | [] => ret tt
  | x :: xs' => let! _ := body x in forEach xs' body
  end.

(** A query reads the store; a command moves it on unless it fails. Both
    leave their mark in the trace. *)
Definition query {DB E A : Type} (c : database.Call) (q : DB → Result A)
  : Step DB E (Result A) :=
  λ w, (inr (q (db w)), logCall c w).

Definition command {DB E A : Type} (c : database.Call) (q : DB → Result (A * DB))
  : Step DB E (Result A) :=
  λ w, match q (db w) with
       | Ok (a, d) => (inr (Ok a), {| db := d; calls := (calls w ++ [c])%list |})
       | Err err => (inr (Err err), logCall c w)
       end.

(** What running a handler ends in: a response written, or a panic. *)
Inductive Outcome : Type :=
  | Written (resp : http.Response)
  | Panicked (msg : string).

(** What ends the function run inside a transaction early. *)
Inductive Abort : Type :=
  | Failed (err : error)
  | Panicking (msg : string).

Definition Exec (DB A : Type) : Type := Step DB Outcome A.
Definition Tx (DB A : Type) : Type := Step DB Abort A.

Definition reply {DB A : Type} (resp : http.Response) : Exec DB A :=
  leave (Written resp).

Definition panic {DB A : Type} (msg : string) : Exec DB A :=
  leave (Panicked msg).

(** Modelled from the spec: [InTx] is implemented by the store, elsewhere in
    the repository. The function runs in one all-or-nothing transaction: when
    it fails or panics the store is back in its state at the start of the
    transaction, otherwise its effects are committed. *)
Definition InTx {DB A : Type} (function : Tx DB A) : Exec DB (Result A) :=
  λ w, match function (logCall database.CallInTx w) with
       | (inr a, w') => (inr (Ok a), w')
       | (inl (Failed err), w') =>
           (inr (Err err), {| db := db w; calls := calls w' |})
       | (inl (Panicking msg), w') =>
           (inl (Panicked msg), {| db := db w; calls := calls w' |})
       end.

(** A lookup made outside the trace: it reads the store and either writes
    a response or yields a value. *)
Definition userOrResponse {DB A : Type} (f : DB → http.Response + A) : Exec DB A :=
  λ w, match f (db w) with
       | inl resp => (inl (Written resp), w)
       | inr a => (inr a, w)
       end.

(** ** Package httpmw *)

Module httpmw.

(** [OrganizationMember] is the database object plus the Username and
    Avatar URL. *)
Module OrganizationMember.
Record t : Type := mk
  { OrganizationMember : database.OrganizationMember.t;
    Username : string;
    AvatarURL : string }.
End OrganizationMember.

(** The context keys of the package and the values kept under them. *)
Inductive ContextKey : Type :=
  | organizationParamContextKey
  | organizationMemberParamContextKey
  | groupParamContextKey.

#[global] Instance ContextKey_eq_dec : EqDecision ContextKey.
Proof. solve_decision. Defined.

Inductive ContextValue : Type :=
  | ValueOrganization (organization : database.Organization.t)
  | ValueOrganizationMember (organizationMember : OrganizationMember.t)
  | ValueGroup (group : database.Group.t).

(** [context.Context]: the chain of values, the latest first. *)
Definition Context : Type := list (ContextKey * ContextValue).

(** [context.WithValue(ctx, key, val)] *)
Definition WithValue (ctx : Context) (key : ContextKey) (val : ContextValue)
  : Context :=
  (key, val) :: ctx.

(** [ctx.Value(key)]: the value of the nearest entry under the key. *)
Fixpoint Value (ctx : Context) (key : ContextKey) : option ContextValue :=
  match ctx with
  | [] => None
  | (k, v) :: parent => if decide (k = key) then Some v else Value parent key
  end.

Inductive RequestBody : Type :=
  | Undecodable (raw : string)
  | PatchGroupBody (req : codersdk.PatchGroupRequest.t).

(** [*http.Request]: its context, the route context that
    [chi.RouteContext] finds through it (one object for the whole request),
    the authenticated caller and the body. *)
Record Request : Type := mkRequest
  { Ctx : Context;
    URLParams : chi.RouteParams;
    Subject : string;
    Body : RequestBody }.

(** [r.WithContext(ctx)] *)
Definition WithContext (r : Request) (ctx : Context) : Request :=
  {| Ctx := ctx; URLParams := URLParams r; Subject := Subject r; Body := Body r |}.

(** [chi.RouteContext(ctx).URLParams.Add(key, value)], in place. *)
Definition URLParams_Add (r : Request) (key value : string) : Request :=
  {| Ctx := Ctx r; URLParams := chi.Add (URLParams r) key value;
     Subject := Subject r; Body := Body r |}.

(** [chi.URLParam(r, key)] *)
Definition URLParam (r : Request) (key : string) : string :=
  chi.URLParam (URLParams r) key.

(** [http.Handler] and the running of a handler body to its outcome. *)
Definition Handler (DB : Type) : Type := Request → World DB → Outcome * World DB.

Definition serve {DB : Type} (body : Exec DB Empty_set) : World DB → Outcome * World DB :=
  λ w, match body w with
       | (inl o, w') => (o, w')
       | (inr nothing, _) => match nothing with end
       end.

(** [next.ServeHTTP(rw, r)] *)
Definition ServeHTTP {DB A : Type} (next : Handler DB) (r : Request) : Exec DB A :=
  λ w, let '(o, w') := next r w in (inl o, w').

(** [GroupParam] returns the group extracted via the ExtraGroupParam
    middleware. *)
Definition GroupParam {DB : Type} (r : Request) : Exec DB database.Group.t :=
  match Value (Ctx r) groupParamContextKey with
  | Some (ValueGroup group) => ret group
  | _ => panic "developer error: group param middleware not provided"
  end.

(** [OrganizationParam] returns the organization from the
    ExtractOrganizationParam handler. *)
Definition OrganizationParam {DB : Type} (r : Request)
  : Exec DB database.Organization.t :=
  match Value (Ctx r) organizationParamContextKey with
  | Some (ValueOrganization organization) => ret organization
  | _ => panic "developer error: organization param middleware not provided"
  end.

(** [OrganizationMemberParam] returns the organization membership that
    allowed the query from the ExtractOrganizationParam handler. *)
Definition OrganizationMemberParam {DB : Type} (r : Request)
  : Exec DB OrganizationMember.t :=
  match Value (Ctx r) organizationMemberParamContextKey with
  | Some (ValueOrganizationMember organizationMember) => ret organizationMember
  | _ => panic "developer error: organization member param middleware not provided"
  end.

(** Modelled from the spec: [parseUUID] is declared elsewhere in the
    repository. The named path parameter must be provided and must parse as a
    UUID; either failure is a client error naming the parameter. *)
Definition parseUUID {DB : Type} (r : Request) (param : string) : Exec DB uuid.UUID :=
  let rawID := URLParam r param in
  if bool_decide (rawID = "") then
    reply (httpapi.Write http.StatusBadRequest
             (httpapi.message (Sprintf_q param ++ " must be provided.")))
  else
    match uuid.Parse rawID with
    | None =>
        reply (httpapi.Write http.StatusBadRequest
                 (httpapi.message ("Invalid UUID " ++ Sprintf_q param ++ ".")))
    | Some parsed => ret parsed
    end.

Section Resolvers.

Context {DB : Type} `{!database.Store DB}.

(** The resolution of the user path parameter lives elsewhere in the
    repository: it either writes a response or yields the user record. *)
Variable extractUserContext : Request → DB → http.Response + database.User.t.

(** [ExtractGroupParam] grabs a group from the "group" URL parameter. *)
Definition ExtractGroupParam (next : Handler DB) : Handler DB :=
  λ r, serve (
    let ctx := Ctx r in
    let! groupID := parseUUID r "group" in
    let! res := query (database.CallGetGroupByID groupID)
                      (database.GetGroupByID groupID) in
    match res with
    | Err err =>
        if Is_ErrNoRows err then reply httpapi.ResourceNotFound
        else reply (httpapi.Write http.StatusInternalServerError
                      {| codersdk.Response.Message := "Internal error fetching group.";
                         codersdk.Response.Detail := Error err |})
    | Ok group =>
        let ctx := WithValue ctx groupParamContextKey (ValueGroup group) in
        let r := URLParams_Add r "organization"
                   (uuid.String (database.Group.OrganizationID group)) in
        ServeHTTP next (WithContext r ctx)
    end).

(** [ExtractOrganizationParam] grabs an organization from the
    "organization" URL parameter. *)
Definition ExtractOrganizationParam (next : Handler DB) : Handler DB :=
  λ r, serve (
    let ctx := Ctx r in
    let arg := URLParam r "organization" in
    if bool_decide (arg = "") then
      reply (httpapi.Write http.StatusBadRequest
               (httpapi.message (Sprintf_q "organization" ++ " must be provided.")))
    else
      let! res :=
        if bool_decide (arg = codersdk.DefaultOrganization ∨ arg = uuid.String uuid.Nil)
        then query database.CallGetDefaultOrganization
                   database.GetDefaultOrganization
        else
          match uuid.Parse arg with
          | Some id => query (database.CallGetOrganizationByID id)
                             (database.GetOrganizationByID id)
          | None => query (database.CallGetOrganizationByName arg)
                          (database.GetOrganizationByName arg)
          end in
      match res with
      | Err dbErr =>
          if httpapi.Is404Error dbErr then reply httpapi.ResourceNotFound
          else reply (httpapi.Write http.StatusInternalServerError
                        {| codersdk.Response.Message :=
                             "Internal error fetching organization " ++ Sprintf_q arg ++ ".";
                           codersdk.Response.Detail := Error dbErr |})
      | Ok organization =>
          let ctx := WithValue ctx organizationParamContextKey
                       (ValueOrganization organization) in
          ServeHTTP next (WithContext r ctx)
      end).

(** [ExtractOrganizationMemberParam] grabs a user membership from the
    "organization" and "user" URL parameter. *)
Definition ExtractOrganizationMemberParam (next : Handler DB) : Handler DB :=
  λ r, serve (
    let ctx := Ctx r in
    let! user := userOrResponse (extractUserContext r) in
    let! organization := OrganizationParam r in
    let arg :=
      {| database.OrganizationMembersParams.OrganizationID :=
           database.Organization.ID organization;
         database.OrganizationMembersParams.UserID := database.User.ID user |} in
    let! rows := query (database.CallOrganizationMembers arg)
                       (database.OrganizationMembers arg) in
    match database.ExpectOne rows with
    | Err err =>
        if httpapi.Is404Error err then reply httpapi.ResourceNotFound
        else reply (httpapi.Write http.StatusInternalServerError
                      {| codersdk.Response.Message :=
                           "Internal error fetching organization member.";
                         codersdk.Response.Detail := Error err |})
    | Ok organizationMember =>
        let ctx := WithValue ctx organizationMemberParamContextKey
           (ValueOrganizationMember
              {| OrganizationMember.OrganizationMember :=
                   database.OrganizationMembersRow.OrganizationMember organizationMember;
                 OrganizationMember.Username := database.User.Username user;
                 OrganizationMember.AvatarURL := database.User.AvatarURL user |}) in
        ServeHTTP next (WithContext r ctx)
    end).

End Resolvers.

End httpmw.

(** ** Package coderd: the group handlers *)

Module coderd.

(** [api.Authorize(r, action, object)]: the authorization gate, an opaque
    decision on the caller of the request, the action and the object. *)
Record API : Type := mkAPI
  { Authorize : httpmw.Request → rbac.Action → rbac.Object → bool }.

Definition convertRole (role : rbac.Role.t) : codersdk.Role.t :=
  {| codersdk.Role.DisplayName := rbac.Role.DisplayName role;
     codersdk.Role.Name := rbac.Role.Name role |}.

Section Handlers.

Context {DB : Type} `{!database.Store DB}.

(** [database.AllUsersGroup], the reserved group name, is declared elsewhere
    in the repository. *)
Variable AllUsersGroup : string.

(** [rbac.RoleByName], whose error the caller drops. *)
Variable RoleByName : string → rbac.Role.t.

Definition convertUser (user : database.User.t) (organizationIDs : list uuid.UUID)
  : codersdk.User.t :=
  {| codersdk.User.ID := database.User.ID user;
     codersdk.User.Email := database.User.Email user;
     codersdk.User.CreatedAt := database.User.CreatedAt user;
     codersdk.User.LastSeenAt := database.User.LastSeenAt user;
     codersdk.User.Username := database.User.Username user;
     codersdk.User.Status := database.User.Status user;
     codersdk.User.OrganizationIDs := organizationIDs;
     codersdk.User.Roles :=
       (λ roleName, convertRole (RoleByName roleName))
         <$> database.User.RBACRoles user;
     codersdk.User.AvatarURL := database.User.AvatarURL user |}.

(** A missing key of a Go map reads as the zero value, the nil slice. *)
Definition convertUsers (users : list database.User.t)
    (organizationIDsByUserID : gmap uuid.UUID (list uuid.UUID))
  : list codersdk.User.t :=
  (λ u, let userOrganizationIDs :=
          default [] (organizationIDsByUserID !! database.User.ID u) in
        convertUser u userOrganizationIDs) <$> users.

Definition convertGroup (g : database.Group.t) (users : list database.User.t)
  : codersdk.Group.t :=
  let orgs : gmap uuid.UUID (list uuid.UUID) :=
    foldl (λ orgs user,
             <[database.User.ID user := [database.Group.OrganizationID g]]> orgs)
          ∅ users in
  {| codersdk.Group.ID := database.Group.ID g;
     codersdk.Group.Name := database.Group.Name g;
     codersdk.Group.OrganizationID := database.Group.OrganizationID g;
     codersdk.Group.Members := convertUsers users orgs |}.

(** Modelled from the spec: [httpapi.Read] is declared elsewhere in the
    repository. A body that does not decode into the request type is a client
    error. *)
Definition Read (r : httpmw.Request) : Exec DB codersdk.PatchGroupRequest.t :=
  match httpmw.Body r with
  | httpmw.PatchGroupBody req => ret req
  | httpmw.Undecodable _ =>
      reply (httpapi.Write http.StatusBadRequest
               (httpapi.message "Request body must be valid JSON."))
  end.

Definition orPanic {E A : Type} (raise : string → E) (v : string + A) : Step DB E A :=
  match v with
  | inl msg => leave (raise msg)
  | inr a => ret a
  end.

(** The body of the loop over the added and the removed user ids. *)
Definition patchGroup_checkUser (group : database.Group.t) (id : string)
  : Exec DB unit :=
  match uuid.Parse id with
  | None =>
      reply (httpapi.Write http.StatusBadRequest
               (httpapi.message ("ID " ++ Sprintf_q id ++ " must be a valid user UUID.")))
  | Some _ =>
      let! userID := orPanic Panicked (uuid.MustParse id) in
      let arg :=
        {| database.GetOrganizationMemberByUserIDParams.OrganizationID :=
             database.Group.OrganizationID group;
           database.GetOrganizationMemberByUserIDParams.UserID := userID |} in
      let! res := query (database.CallGetOrganizationMemberByUserID arg)
                        (database.GetOrganizationMemberByUserID arg) in
      match res with
      | Err err =>
          if Is_ErrNoRows err then
            reply (httpapi.Write http.StatusPreconditionFailed
                     (httpapi.message
                        ("User " ++ Sprintf_q id ++ " must be a member of organization "
                         ++ Sprintf_q (uuid.String (database.Group.ID group)))))
          else reply (httpapi.InternalServerError err)
      | Ok _ => ret tt
      end
  end.

(** Validate: the gate, the body, the reserved name, the user ids. *)
Definition patchGroup_validate (api : API) (r : httpmw.Request)
  : Exec DB (database.Group.t * codersdk.PatchGroupRequest.t) :=
  let! group := httpmw.GroupParam r in
  if negb (Authorize api r rbac.ActionUpdate (rbac.ObjectGroup group)) then
    reply http.NotFound
  else
    let! req := Read r in
    if bool_decide (codersdk.PatchGroupRequest.Name req ≠ ""
                    ∧ codersdk.PatchGroupRequest.Name req = AllUsersGroup) then
      reply (httpapi.Write http.StatusBadRequest
               (httpapi.message (Sprintf_q AllUsersGroup ++ " is a reserved group name!")))
    else
      let users := (codersdk.PatchGroupRequest.AddUsers req
                    ++ codersdk.PatchGroupRequest.RemoveUsers req)%list in
      let! _ := forEach users (patchGroup_checkUser group) in
      ret (group, req).

(** Pre-check of the name collision. *)
Definition patchGroup_nameCheck (group : database.Group.t)
    (req : codersdk.PatchGroupRequest.t) : Exec DB unit :=
  if bool_decide (codersdk.PatchGroupRequest.Name req ≠ "") then
    let arg :=
      {| database.GetGroupByOrgAndNameParams.OrganizationID :=
           database.Group.OrganizationID group;
         database.GetGroupByOrgAndNameParams.Name :=
           codersdk.PatchGroupRequest.Name req |} in
    let! res := query (database.CallGetGroupByOrgAndName arg)
                      (database.GetGroupByOrgAndName arg) in
    match res with
    | Ok _ =>
        reply (httpapi.Write http.StatusConflict
                 (httpapi.message ("A group with name "
                    ++ Sprintf_q (codersdk.PatchGroupRequest.Name req)
                    ++ " already exists.")))
    | Err _ => ret tt
    end
  else ret tt.

(** The function handed to [InTx]; it yields the captured [group]. *)
Definition patchGroup_tx (group : database.Group.t)
    (req : codersdk.PatchGroupRequest.t) : Tx DB database.Group.t :=
  let! group :=
    if bool_decide (codersdk.PatchGroupRequest.Name req ≠ "") then
      let arg :=
        {| database.UpdateGroupByIDParams.ID := database.Group.ID group;
           database.UpdateGroupByIDParams.Name :=
             codersdk.PatchGroupRequest.Name req |} in
      let! res := command (database.CallUpdateGroupByID arg)
                          (database.UpdateGroupByID arg) in
      match res with
      | Err err => leave (Failed (wrapError "update group by ID" err))
      | Ok group => ret group
      end
    else ret group in
  let! _ :=
    forEach (codersdk.PatchGroupRequest.AddUsers req) (λ id,
      let! userID := orPanic Panicking (uuid.MustParse id) in
      let arg :=
        {| database.InsertGroupMemberParams.GroupID := database.Group.ID group;
           database.InsertGroupMemberParams.UserID := userID |} in
      let! res := command (database.CallInsertGroupMember arg)
                          (database.InsertGroupMember arg) in
      match res with
      | Err err =>
          leave (Failed (wrapError ("insert group member " ++ Sprintf_q id) err))
      | Ok _ => ret tt
      end) in
  let! _ :=
    forEach (codersdk.PatchGroupRequest.RemoveUsers req) (λ id,
      let! userID := orPanic Panicking (uuid.MustParse id) in
      let! res := command (database.CallDeleteGroupMember userID)
                          (database.DeleteGroupMember userID) in
      match res with
      | Err err =>
          leave (Failed (wrapError ("insert group member " ++ Sprintf_q id) err))
      | Ok _ => ret tt
      end) in
  ret group.

(** What follows the transaction: the report of its failure, or the
    re-read roster and the updated group. *)
Definition patchGroup_respond (res : Result database.Group.t) : Exec DB Empty_set :=
  match res with
  | Err err =>
      if database.IsUniqueViolation err then
        reply (httpapi.Write http.StatusPreconditionFailed
                 {| codersdk.Response.Message :=
                      "Cannot add the same user to a group twice!";
                    codersdk.Response.Detail := Error err |})
      else if Is_ErrNoRows err then
        reply (httpapi.Write http.StatusPreconditionFailed
                 {| codersdk.Response.Message :=
                      "Failed to add or remove non-existent group member";
                    codersdk.Response.Detail := Error err |})
      else reply (httpapi.InternalServerError err)
  | Ok group =>
      let! res := query (database.CallGetGroupMembers (database.Group.ID group))
                        (database.GetGroupMembers (database.Group.ID group)) in
      match res with
      | Err err => reply (httpapi.InternalServerError err)
      | Ok members =>
          reply (httpapi.WriteGroup http.StatusOK (convertGroup group members))
      end
  end.

Definition patchGroup (api : API) : httpmw.Handler DB :=
  λ r, httpmw.serve (
    let! '(group, req) := patchGroup_validate api r in
    let! _ := patchGroup_nameCheck group req in
    let! res := InTx (patchGroup_tx group req) in
    patchGroup_respond res).

Definition deleteGroup (api : API) : httpmw.Handler DB :=
  λ r, httpmw.serve (
    let! group := httpmw.GroupParam r in
    if negb (Authorize api r rbac.ActionDelete (rbac.ObjectGroup group)) then
      reply httpapi.ResourceNotFound
    else if bool_decide (database.Group.Name group = AllUsersGroup) then
      reply (httpapi.Write http.StatusBadRequest
               (httpapi.message
                  (Sprintf_q AllUsersGroup ++ " is a reserved group and cannot be deleted!")))
    else
      let! res := command (database.CallDeleteGroupByID (database.Group.ID group))
                          (database.DeleteGroupByID (database.Group.ID group)) in
      match res with
      | Err err => reply (httpapi.InternalServerError err)
      | Ok _ =>
          reply (httpapi.Write http.StatusOK
                   (httpapi.message "Successfully deleted group!"))
      end).

(** [users] stays the nil slice when the query reports no rows. *)
Definition group (api : API) : httpmw.Handler DB :=
  λ r, httpmw.serve (
    let! group := httpmw.GroupParam r in
    if negb (Authorize api r rbac.ActionRead (rbac.ObjectGroup group)) then
      reply httpapi.ResourceNotFound
    else
      let! res := query (database.CallGetGroupMembers (database.Group.ID group))
                        (database.GetGroupMembers (database.Group.ID group)) in
      match res with
      | Err err =>
          if negb (Is_ErrNoRows err) then reply (httpapi.InternalServerError err)
          else reply (httpapi.WriteGroup http.StatusOK (convertGroup group []))
      | Ok users =>
          reply (httpapi.WriteGroup http.StatusOK (convertGroup group users))
      end).

End Handlers.

End coderd.

(** ** An in-memory store *)

Module memdb.

(** Modelled from the spec: the persistent store is an external
    collaborator, consumed through its operations. This store keeps the
    tables as lists; every operation reports a missing row as the no-rows
    condition, a duplicate as a uniqueness violation, and an injected
    [fault] as the internal failure it names. *)
Record t : Type := mk
  { organizations : list database.Organization.t;
    groups : list database.Group.t;
    users : list database.User.t;
    organization_members : list database.OrganizationMember.t;
    group_members : list database.GroupMember.t;
    fault : database.Call → option error }.

Definition guarded {A : Type} (c : database.Call) (d : t) (r : Result A) : Result A :=
  match fault d c with
  | Some err => Err err
  | None => r
  end.

Definition first {A : Type} (P : A → bool) (l : list A) : Result A :=
  match List.find P l with
  | Some a => Ok a
  | None => Err ErrNoRows
  end.

Definition GetDefaultOrganization (d : t) : Result database.Organization.t :=
  guarded database.CallGetDefaultOrganization d
    (first database.Organization.IsDefault (organizations d)).

Definition GetOrganizationByID (id : uuid.UUID) (d : t) : Result database.Organization.t :=
  guarded (database.CallGetOrganizationByID id) d
    (first (λ o, bool_decide (database.Organization.ID o = id)) (organizations d)).

Definition GetOrganizationByName (name : string) (d : t)
  : Result database.Organization.t :=
  guarded (database.CallGetOrganizationByName name) d
    (first (λ o, bool_decide (database.Organization.Name o = name)) (organizations d)).

Definition GetGroupByID (id : uuid.UUID) (d : t) : Result database.Group.t :=
  guarded (database.CallGetGroupByID id) d
    (first (λ g, bool_decide (database.Group.ID g = id)) (groups d)).

Definition userByID (id : uuid.UUID) (d : t) : option database.User.t :=
  List.find (λ u, bool_decide (database.User.ID u = id)) (users d).

Definition memberRow (d : t) (m : database.OrganizationMember.t)
  : list database.OrganizationMembersRow.t :=
  match userByID (database.OrganizationMember.UserID m) d with
  | Some u =>
      [ {| database.OrganizationMembersRow.OrganizationMember := m;
           database.OrganizationMembersRow.Username := database.User.Username u;
           database.OrganizationMembersRow.AvatarURL := database.User.AvatarURL u;
           database.OrganizationMembersRow.Name := database.User.Username u;
           database.OrganizationMembersRow.Email := database.User.Email u;
           database.OrganizationMembersRow.GlobalRoles := database.User.RBACRoles u |} ]
  | None => []
  end.

Definition isMember (org user : uuid.UUID) (m : database.OrganizationMember.t) : bool :=
  bool_decide (database.OrganizationMember.OrganizationID m = org
               ∧ database.OrganizationMember.UserID m = user).

Definition OrganizationMembers (arg : database.OrganizationMembersParams.t) (d : t)
  : Result (list database.OrganizationMembersRow.t) :=
  guarded (database.CallOrganizationMembers arg) d
    (Ok (List.filter
           (isMember (database.OrganizationMembersParams.OrganizationID arg)
                     (database.OrganizationMembersParams.UserID arg))
           (organization_members d) ≫= memberRow d)).

Definition GetOrganizationMemberByUserID
    (arg : database.GetOrganizationMemberByUserIDParams.t) (d : t)
  : Result database.OrganizationMember.t :=
  guarded (database.CallGetOrganizationMemberByUserID arg) d
    (first (isMember (database.GetOrganizationMemberByUserIDParams.OrganizationID arg)
                     (database.GetOrganizationMemberByUserIDParams.UserID arg))
           (organization_members d)).

Definition GetGroupByOrgAndName (arg : database.GetGroupByOrgAndNameParams.t) (d : t)
  : Result database.Group.t :=
  guarded (database.CallGetGroupByOrgAndName arg) d
    (first (λ g, bool_decide
                   (database.Group.OrganizationID g
                      = database.GetGroupByOrgAndNameParams.OrganizationID arg
                    ∧ database.Group.Name g
                      = database.GetGroupByOrgAndNameParams.Name arg))
           (groups d)).

Definition GetGroupMembers (groupID : uuid.UUID) (d : t) : Result (list database.User.t) :=
  guarded (database.CallGetGroupMembers groupID) d
    (Ok (List.filter (λ m, bool_decide (database.GroupMember.GroupID m = groupID))
                     (group_members d)
         ≫= λ m, option_list (userByID (database.GroupMember.UserID m) d))).

Definition withGroups (d : t) (gs : list database.Group.t) : t :=
  {| organizations := organizations d; groups := gs; users := users d;
     organization_members := organization_members d;
     group_members := group_members d; fault := fault d |}.

Definition withGroupMembers (d : t) (ms : list database.GroupMember.t) : t :=
  {| organizations := organizations d; groups := groups d; users := users d;
     organization_members := organization_members d;
     group_members := ms; fault := fault d |}.

Definition rename (name : string) (g : database.Group.t) : database.Group.t :=
  {| database.Group.ID := database.Group.ID g;
     database.Group.Name := name;
     database.Group.OrganizationID := database.Group.OrganizationID g |}.

Definition UpdateGroupByID (arg : database.UpdateGroupByIDParams.t) (d : t)
  : Result (database.Group.t * t) :=
  let id := database.UpdateGroupByIDParams.ID arg in
  let name := database.UpdateGroupByIDParams.Name arg in
  guarded (database.CallUpdateGroupByID arg) d
    match List.find (λ g, bool_decide (database.Group.ID g = id)) (groups d) with
    | None => Err ErrNoRows
    | Some g =>
        if existsb (λ g', bool_decide
                            (database.Group.ID g' ≠ id
                             ∧ database.Group.OrganizationID g'
                               = database.Group.OrganizationID g
                             ∧ database.Group.Name g' = name))
                   (groups d)
        then Err (PqError "unique_violation")
        else Ok (rename name g,
                 withGroups d
                   ((λ g', if bool_decide (database.Group.ID g' = id)
                           then rename name g' else g') <$> groups d))
    end.

Definition InsertGroupMember (arg : database.InsertGroupMemberParams.t) (d : t)
  : Result (unit * t) :=
  let row :=
    {| database.GroupMember.UserID := database.InsertGroupMemberParams.UserID arg;
       database.GroupMember.GroupID := database.InsertGroupMemberParams.GroupID arg |} in
  guarded (database.CallInsertGroupMember arg) d
    (if existsb (λ m, bool_decide
                        (database.GroupMember.UserID m = database.GroupMember.UserID row
                         ∧ database.GroupMember.GroupID m
                           = database.GroupMember.GroupID row))
                (group_members d)
     then Err (PqError "unique_violation")
     else Ok (tt, withGroupMembers d (group_members d ++ [row])%list)).

Definition DeleteGroupMember (userID : uuid.UUID) (d : t) : Result (unit * t) :=
  guarded (database.CallDeleteGroupMember userID) d
    (if existsb (λ m, bool_decide (database.GroupMember.UserID m = userID))
                (group_members d)
     then Ok (tt, withGroupMembers d
                    (List.filter
                       (λ m, bool_decide (database.GroupMember.UserID m ≠ userID))
                       (group_members d)))
     else Err ErrNoRows).

Definition DeleteGroupByID (id : uuid.UUID) (d : t) : Result (unit * t) :=
  guarded (database.CallDeleteGroupByID id) d
    (if existsb (λ g, bool_decide (database.Group.ID g = id)) (groups d)
     then Ok (tt, withGroupMembers
                    (withGroups d
                       (List.filter (λ g, bool_decide (database.Group.ID g ≠ id))
                                    (groups d)))
                    (List.filter
                       (λ m, bool_decide (database.GroupMember.GroupID m ≠ id))
                       (group_members d)))
     else Err ErrNoRows).

#[global] Instance store : database.Store t :=
  {| database.GetDefaultOrganization := GetDefaultOrganization;
     database.GetOrganizationByID := GetOrganizationByID;
     database.GetOrganizationByName := GetOrganizationByName;
     database.GetGroupByID := GetGroupByID;
     database.OrganizationMembers := OrganizationMembers;
     database.GetOrganizationMemberByUserID := GetOrganizationMemberByUserID;
     database.GetGroupByOrgAndName := GetGroupByOrgAndName;
     database.GetGroupMembers := GetGroupMembers;
     database.UpdateGroupByID := UpdateGroupByID;
     database.InsertGroupMember := InsertGroupMember;
     database.DeleteGroupMember := DeleteGroupMember;
     database.DeleteGroupByID := DeleteGroupByID |}.

End memdb.

(** ** Vocabulary of the statements *)

Section Vocabulary.

Context {DB : Type} `{!database.Store DB}.

Definition internalErrorFetchingOrganization (arg : string) (dbErr : error)
  : http.Response :=
  httpapi.Write http.StatusInternalServerError
    {| codersdk.Response.Message :=
         "Internal error fetching organization " ++ Sprintf_q arg ++ ".";
       codersdk.Response.Detail := Error dbErr |}.

(** What the Organization Resolver does with the outcome of its one
    lookup. *)
Definition organizationResolved (next : httpmw.Handler DB) (r : httpmw.Request)
    (res : Result database.Organization.t) (w : World DB) : Outcome * World DB :=
  match res with
  | Ok organization =>
      next (httpmw.WithContext r
              (httpmw.WithValue (httpmw.Ctx r) httpmw.organizationParamContextKey
                 (httpmw.ValueOrganization organization))) w
  | Err dbErr =>
      (Written (if httpapi.Is404Error dbErr then httpapi.ResourceNotFound
                else internalErrorFetchingOrganization
                       (httpmw.URLParam r "organization") dbErr), w)
  end.

(** The request the Group Resolver hands on once it has found [group]. *)
Definition withGroup (r : httpmw.Request) (group : database.Group.t) : httpmw.Request :=
  httpmw.WithContext
    (httpmw.URLParams_Add r "organization"
       (uuid.String (database.Group.OrganizationID group)))
    (httpmw.WithValue (httpmw.Ctx r) httpmw.groupParamContextKey
       (httpmw.ValueGroup group)).

(** The request the Organization Member Resolver hands on: the context
    grown by the one entry under the organization-member key. *)
Definition withOrganizationMember (r : httpmw.Request)
    (organizationMember : httpmw.OrganizationMember.t) : httpmw.Request :=
  httpmw.WithContext r
    (httpmw.WithValue (httpmw.Ctx r) httpmw.organizationMemberParamContextKey
       (httpmw.ValueOrganizationMember organizationMember)).

(** The argument of the membership lookup made for a user id of a group
    update. *)
Definition memberArg (group : database.Group.t) (userID : uuid.UUID)
  : database.GetOrganizationMemberByUserIDParams.t :=
  {| database.GetOrganizationMemberByUserIDParams.OrganizationID :=
       database.Group.OrganizationID group;
     database.GetOrganizationMemberByUserIDParams.UserID := userID |}.

(** A user id of a request that is well formed and that the store knows as
    a member of the organization of the group. *)
Definition isOrganizationMemberID (d : DB) (group : database.Group.t) (id : string)
  : bool :=
  match uuid.Parse id with
  | Some userID =>
      match database.GetOrganizationMemberByUserID (memberArg group userID) d with
      | Ok _ => true
      | Err _ => false
      end
  | None => false
  end.

(** The membership lookups made for a list of well-formed ids. *)
Definition membershipCalls (group : database.Group.t) (ids : list string)
  : list database.Call :=
  omap (λ id, userID ← uuid.Parse id;
              Some (database.CallGetOrganizationMemberByUserID (memberArg group userID)))
       ids.

(** A step that only appends to the trace of calls. *)
Definition logs {E A : Type} (m : Step DB E A) : Prop :=
  ∀ w, ∃ l, calls (m w).2 = (calls w ++ l)%list.

(** A step that leaves the store as it is and opens no transaction. *)
Definition reads {E A : Type} (m : Step DB E A) : Prop :=
  ∀ w, db (m w).2 = db w
       ∧ ∃ l, calls (m w).2 = (calls w ++ l)%list ∧ database.CallInTx ∉ l.

(** What is left of the group update once the pre-check of the name is
    passed: the atomic section and the report of its result. *)
Definition patchGroup_atomic (RoleByName : string → rbac.Role.t)
    (group : database.Group.t) (req : codersdk.PatchGroupRequest.t)
  : Exec DB Empty_set :=
  let! res := InTx (coderd.patchGroup_tx group req) in
  coderd.patchGroup_respond RoleByName res.

(** The response to a failed atomic section of the group update. *)
Definition patchGroup_failure (err : error) : http.Response :=
  if database.IsUniqueViolation err then
    httpapi.Write http.StatusPreconditionFailed
      {| codersdk.Response.Message := "Cannot add the same user to a group twice!";
         codersdk.Response.Detail := Error err |}
  else if Is_ErrNoRows err then
    httpapi.Write http.StatusPreconditionFailed
      {| codersdk.Response.Message :=
           "Failed to add or remove non-existent group member";
         codersdk.Response.Detail := Error err |}
  else httpapi.InternalServerError err.

End Vocabulary.

(** ** A deployment to run the handlers on

    Organization "acme" is the default organization. Its groups are the
    reserved group, "infra" without members and "platform" with alice.
    Alice belongs to acme, bob does not. An organization kept from an older
    installation carries the all-zero id and owns the group "archive". *)

Module scenario.

Definition id (b : byte) : uuid.UUID :=
  [# x00; x00; x00; x00; x00; x00; x00; x00;
     x00; x00; x00; x00; x00; x00; x00; b].

Definition AllUsersGroup : string := "Everyone".

Definition RoleByName (name : string) : rbac.Role.t :=
  {| rbac.Role.Name := name; rbac.Role.DisplayName := name |}.

Definition acme : database.Organization.t :=
  {| database.Organization.ID := id x0a;
     database.Organization.Name := "acme";
     database.Organization.IsDefault := true |}.

Definition legacy : database.Organization.t :=
  {| database.Organization.ID := uuid.Nil;
     database.Organization.Name := "legacy";
     database.Organization.IsDefault := false |}.

Definition everyone : database.Group.t :=
  {| database.Group.ID := id xe0;
     database.Group.Name := AllUsersGroup;
     database.Group.OrganizationID := id x0a |}.

Definition infra : database.Group.t :=
  {| database.Group.ID := id xe1;
     database.Group.Name := "infra";
     database.Group.OrganizationID := id x0a |}.

Definition platform : database.Group.t :=
  {| database.Group.ID := id xe2;
     database.Group.Name := "platform";
     database.Group.OrganizationID := id x0a |}.

Definition archive : database.Group.t :=
  {| database.Group.ID := id xe3;
     database.Group.Name := "archive";
     database.Group.OrganizationID := uuid.Nil |}.

Definition alice : database.User.t :=
  {| database.User.ID := id x01;
     database.User.Email := "alice@acme.test";
     database.User.Username := "alice";
     database.User.CreatedAt := 1700000000%Z;
     database.User.LastSeenAt := 1700003600%Z;
     database.User.Status := "active";
     database.User.RBACRoles := ["owner"];
     database.User.AvatarURL := "https://acme.test/alice.png" |}.

Definition bob : database.User.t :=
  {| database.User.ID := id x02;
     database.User.Email := "bob@elsewhere.test";
     database.User.Username := "bob";
     database.User.CreatedAt := 1700000100%Z;
     database.User.LastSeenAt := 1700000200%Z;
     database.User.Status := "active";
     database.User.RBACRoles := [];
     database.User.AvatarURL := "" |}.

Definition aliceInAcme : database.OrganizationMember.t :=
  {| database.OrganizationMember.UserID := id x01;
     database.OrganizationMember.OrganizationID := id x0a;
     database.OrganizationMember.CreatedAt := 1700000000%Z;
     database.OrganizationMember.UpdatedAt := 1700000000%Z;
     database.OrganizationMember.Roles := ["organization-member"] |}.

Definition store : memdb.t :=
  {| memdb.organizations := [legacy; acme];
     memdb.groups := [everyone; infra; platform; archive];
     memdb.users := [alice; bob];
     memdb.organization_members := [aliceInAcme];
     memdb.group_members :=
       [ {| database.GroupMember.UserID := id x01;
            database.GroupMember.GroupID := id xe2 |} ];
     memdb.fault := λ _, None |}.

(** The same store while the lookup of a group by name is out of order. *)
Definition degraded : memdb.t :=
  {| memdb.organizations := memdb.organizations store;
     memdb.groups := memdb.groups store;
     memdb.users := memdb.users store;
     memdb.organization_members := memdb.organization_members store;
     memdb.group_members := memdb.group_members store;
     memdb.fault := λ c, match c with
                         | database.CallGetGroupByOrgAndName _ =>
                             Some (errorString "driver: bad connection")
                         | _ => None
                         end |}.

Definition world : World memdb.t := {| db := store; calls := [] |}.

Definition degradedWorld : World memdb.t := {| db := degraded; calls := [] |}.

(** The gate grants everything to the subject admin and nothing to anyone
    else. *)
Definition api : coderd.API :=
  {| coderd.Authorize := λ r _ _, bool_decide (httpmw.Subject r = "admin") |}.

(** The user path parameter, resolved by id. *)
Definition extractUserContext (r : httpmw.Request) (d : memdb.t)
  : http.Response + database.User.t :=
  match uuid.Parse (httpmw.URLParam r "user") with
  | None =>
      inl (httpapi.Write http.StatusBadRequest
             (httpapi.message ("Invalid UUID " ++ Sprintf_q "user" ++ ".")))
  | Some userID =>
      match memdb.userByID userID d with
      | Some user => inr user
      | None => inl httpapi.ResourceNotFound
      end
  end.

(** A last handler that tells which organization the chain resolved. *)
Definition whichOrganization : httpmw.Handler memdb.t :=
  λ r, httpmw.serve (
    let! organization := httpmw.OrganizationParam r in
    reply (httpapi.Write http.StatusOK
             (httpapi.message (database.Organization.Name organization)))).

(** A last handler that tells what the member entry of the context holds. *)
Definition whichMember : httpmw.Handler memdb.t :=
  λ r, httpmw.serve (
    let! member := httpmw.OrganizationMemberParam r in
    reply (httpapi.Write http.StatusOK
             {| codersdk.Response.Message := httpmw.OrganizationMember.Username member;
                codersdk.Response.Detail := httpmw.OrganizationMember.AvatarURL member |})).

Definition route (subject : string) (params : chi.RouteParams)
    (body : httpmw.RequestBody) : httpmw.Request :=
  {| httpmw.Ctx := []; httpmw.URLParams := params;
     httpmw.Subject := subject; httpmw.Body := body |}.

(** A request as a group handler receives it: the Group Resolver ran. *)
Definition onGroup (subject : string) (group : database.Group.t)
    (body : httpmw.RequestBody) : httpmw.Request :=
  withGroup (route subject [("group", uuid.String (database.Group.ID group))] body)
    group.

Definition patch (add remove : list string) (name : string) : httpmw.RequestBody :=
  httpmw.PatchGroupBody
    {| codersdk.PatchGroupRequest.AddUsers := add;
       codersdk.PatchGroupRequest.RemoveUsers := remove;
       codersdk.PatchGroupRequest.Name := name |}.

Definition noBody : httpmw.RequestBody := httpmw.Undecodable "".

(** The decoded body of a group update. *)
Definition patchOf (r : httpmw.Request) : codersdk.PatchGroupRequest.t :=
  match httpmw.Body r with
  | httpmw.PatchGroupBody req => req
  | httpmw.Undecodable _ =>
      {| codersdk.PatchGroupRequest.AddUsers := [];
         codersdk.PatchGroupRequest.RemoveUsers := [];
         codersdk.PatchGroupRequest.Name := "" |}
  end.

Definition aliceID : string := uuid.String (id x01).

Definition bobID : string := uuid.String (id x02).

(** GET of alice as a member of acme; the Organization Resolver ran. *)
Definition memberOfAcme : httpmw.Request :=
  httpmw.WithContext
    (route "viewer" [("organization", "acme"); ("user", aliceID)] noBody)
    [(httpmw.organizationParamContextKey, httpmw.ValueOrganization acme)].

(** A group-scoped route on which the caller also put an organization. *)
Definition infraRoute : httpmw.Request :=
  route "admin"
    [("organization", "legacy"); ("group", uuid.String (database.Group.ID infra))]
    noBody.

Definition archiveRoute : httpmw.Request :=
  route "admin" [("group", uuid.String (database.Group.ID archive))] noBody.

(** A route to a group that does not exist. *)
Definition absentRoute : httpmw.Request :=
  route "viewer" [("group", uuid.String (id xff))] noBody.

Definition defaultRoute : httpmw.Request :=
  route "viewer" [("organization", "default")] noBody.

(** PATCH infra: rename to "core" and add alice. *)
Definition renameAndAdd : httpmw.Request :=
  onGroup "admin" infra (patch [aliceID] [] "core").

(** PATCH infra: rename to "core" and add alice twice. *)
Definition addTwice : httpmw.Request :=
  onGroup "admin" infra (patch [aliceID; aliceID] [] "core").

(** PATCH infra: add alice, then bob. *)
Definition addAliceAndBob : httpmw.Request :=
  onGroup "admin" infra (patch [aliceID; bobID] [] "").

(** PATCH infra: add a malformed id, then bob. *)
Definition addMalformedAndBob : httpmw.Request :=
  onGroup "admin" infra (patch ["not-a-uuid"; bobID] [] "").

(** PATCH infra: rename to the reserved name and add bob. *)
Definition reservedAndBob : httpmw.Request :=
  onGroup "admin" infra (patch [bobID] [] AllUsersGroup).

(** PATCH infra: rename to the reserved name. *)
Definition renameToReserved : httpmw.Request :=
  onGroup "admin" infra (patch [] [] AllUsersGroup).

(** PATCH infra: rename to the name of another group of acme. *)
Definition renameToPlatform : httpmw.Request :=
  onGroup "admin" infra (patch [] [] "platform").

(** PATCH, GET and DELETE by a caller whom the gate denies. *)
Definition deniedPatch : httpmw.Request :=
  onGroup "viewer" infra (patch [] [] "core").

Definition deniedGet : httpmw.Request := onGroup "viewer" infra noBody.

Definition deniedDelete : httpmw.Request := onGroup "viewer" infra noBody.

(** DELETE of the reserved group, by a denied and by a granted caller. *)
Definition deniedDeleteEveryone : httpmw.Request :=
  onGroup "viewer" everyone noBody.

Definition grantedDeleteEveryone : httpmw.Request :=
  onGroup "admin" everyone noBody.

End scenario.

(** ** More of package coderd: the create and the list handler *)

Module groups.

(** [codersdk.CreateGroupRequest] *)
Module CreateGroupRequest.
Record t : Type := mk
  { Name : string }.
End CreateGroupRequest.

Module InsertGroupParams.
Record t : Type := mk
  { ID : uuid.UUID; Name : string; OrganizationID : uuid.UUID }.
End InsertGroupParams.

(** The two further operations of [database.Store] that these handlers
    call, of the same shape as the others: a command and a query. *)
Class Store (DB : Type) : Type :=
  { InsertGroup : InsertGroupParams.t → DB → Result (database.Group.t * DB);
    GetGroupsByOrganizationID : uuid.UUID → DB → Result (list database.Group.t) }.

Definition StatusCreated : nat := 201.

(** A query and a command for which the trace of calls has no entry. *)
Definition peek {DB E A : Type} (q : DB → Result A) : Step DB E (Result A) :=
  λ w, (inr (q (db w)), w).

Definition poke {DB E A : Type} (q : DB → Result (A * DB)) : Step DB E (Result A) :=
  λ w, match q (db w) with
       | Ok (a, d) => (inr (Ok a), {| db := d; calls := calls w |})
       | Err err => (inr (Err err), w)
       end.

(** A value that is either there or replaced by a response already written. *)
Definition orReply {DB A : Type} (v : http.Response + A) : Exec DB A :=
  match v with
  | inl resp => reply resp
  | inr a => ret a
  end.

Section Handlers.

Context {DB : Type} `{!database.Store DB} `{!Store DB}.

(** [database.AllUsersGroup] and [rbac.RoleByName], as for the other
    handlers. *)
Variable AllUsersGroup : string.
Variable RoleByName : string → rbac.Role.t.

(** [api.Authorize(r, rbac.ActionCreate, rbac.ResourceGroup)]: the decision
    of the gate on the creation of a group by the caller of the request. *)
Variable AuthorizeCreate : httpmw.Request → bool.

(** [httpapi.Read(ctx, rw, r, &req)] into a [codersdk.CreateGroupRequest]:
    the decoded body, or the response written for a body that does not
    decode. *)
Variable Read : httpmw.Request → http.Response + CreateGroupRequest.t.

(** [uuid.New()]: the identifier drawn for the group to create. *)
Variable New : uuid.UUID.

(** [coderd.AuthorizeFilter(api.AGPL.HTTPAuth, r, action, groups)]: the
    groups that the gate clears for the caller, or the failure of the
    filter. *)
Variable AuthorizeFilter :
  httpmw.Request → rbac.Action → list database.Group.t → Result (list database.Group.t).

Definition postGroupByOrganization : httpmw.Handler DB :=
  λ r, httpmw.serve (
    let! org := httpmw.OrganizationParam r in
    if negb (AuthorizeCreate r) then reply http.NotFound
    else
      let! req := orReply (Read r) in
      if bool_decide (CreateGroupRequest.Name req = AllUsersGroup) then
        reply (httpapi.Write http.StatusBadRequest
                 (httpapi.message
                    (Sprintf_q AllUsersGroup
                     ++ " is a reserved keyword and cannot be used for a group name.")))
      else
        let! res := poke (InsertGroup
                            {| InsertGroupParams.ID := New;
                               InsertGroupParams.Name := CreateGroupRequest.Name req;
                               InsertGroupParams.OrganizationID :=
                                 database.Organization.ID org |}) in
        match res with
        | Err err =>
            if database.IsUniqueViolation err then
              reply (httpapi.Write http.StatusConflict
                       (httpapi.message
                          ("Group with name "
                           ++ Sprintf_q (CreateGroupRequest.Name req)
                           ++ " already exists.")))
            else reply (httpapi.InternalServerError err)
        | Ok group =>
            reply (httpapi.WriteGroup StatusCreated
                     (coderd.convertGroup RoleByName group []))
        end).

(** The loop of [groups] over the cleared groups; [resp] grows by one
    converted group per round. *)
Fixpoint groups_members (groups : list database.Group.t)
    (resp : list codersdk.Group.t) : Exec DB (list codersdk.Group.t) :=
  match groups with
  | [] => ret resp
  | group :: groups' =>
      let! res := query (database.CallGetGroupMembers (database.Group.ID group))
                        (database.GetGroupMembers (database.Group.ID group)) in
      match res with
      | Err err => reply (httpapi.InternalServerError err)
      | Ok members =>
          groups_members groups'
            (resp ++ [coderd.convertGroup RoleByName group members])%list
      end
  end.

(** [groups]: the value yielded is the body that the handler writes with
    status 200; every other answer leaves early. The slice [groups] stays
    the nil slice when the query reports no rows. *)
Definition groups (r : httpmw.Request) : Exec DB (list codersdk.Group.t) :=
  let! org := httpmw.OrganizationParam r in
  let! res := peek (GetGroupsByOrganizationID (database.Organization.ID org)) in
  let! groups :=
    match res with
    | Err err =>
        if negb (Is_ErrNoRows err) then reply (httpapi.InternalServerError err)
        else ret []
    | Ok groups => ret groups
    end in
  match AuthorizeFilter r rbac.ActionRead groups with
  | Err err =>
      reply (httpapi.Write http.StatusInternalServerError
               {| codersdk.Response.Message := "Internal error fetching groups.";
                  codersdk.Response.Detail := Error err |})
  | Ok groups => groups_members groups []
  end.

End Handlers.

End groups.

(** ** The in-memory store, for the two further operations *)

Module memgroups.

(** Modelled from the spec: as for the other operations of the in-memory
    store. A group is unique by its id and by its name within its
    organization; the listing keeps the order of the table. *)
Definition InsertGroup (arg : groups.InsertGroupParams.t) (d : memdb.t)
  : Result (database.Group.t * memdb.t) :=
  let g :=
    {| database.Group.ID := groups.InsertGroupParams.ID arg;
       database.Group.Name := groups.InsertGroupParams.Name arg;
       database.Group.OrganizationID := groups.InsertGroupParams.OrganizationID arg |} in
  if existsb (λ g', bool_decide
                      (database.Group.ID g' = database.Group.ID g
                       ∨ (database.Group.OrganizationID g'
                            = database.Group.OrganizationID g
                          ∧ database.Group.Name g' = database.Group.Name g)))
             (memdb.groups d)
  then Err (PqError "unique_violation")
  else Ok (g, memdb.withGroups d (memdb.groups d ++ [g])%list).

Definition GetGroupsByOrganizationID (organizationID : uuid.UUID) (d : memdb.t)
  : Result (list database.Group.t) :=
  Ok (List.filter
        (λ g, bool_decide (database.Group.OrganizationID g = organizationID))
        (memdb.groups d)).

#[global] Instance store : groups.Store memdb.t :=
  {| groups.InsertGroup := InsertGroup;
     groups.GetGroupsByOrganizationID := GetGroupsByOrganizationID |}.

End memgroups.

(** ** More vocabulary *)

Section MoreVocabulary.

Context {DB : Type} `{!database.Store DB}.

(** A step that leaves early only in a way that [Q] allows. *)
Definition leaves {E A : Type} (Q : E → Prop) (m : Step DB E A) : Prop :=
  ∀ w e w', m w = (inl e, w') → Q e.

(** An outcome that is a written response with one of the given status
    codes; an abort that is an error. *)
Definition answersWith (codes : list nat) (o : Outcome) : Prop :=
  ∃ resp, o = Written resp ∧ http.StatusCode resp ∈ codes.

Definition failed (a : Abort) : Prop := ∃ err, a = Failed err.


(** The user ids of a group update, in the order they are checked. *)
Definition userIDs (req : codersdk.PatchGroupRequest.t) : list string :=
  (codersdk.PatchGroupRequest.AddUsers req
   ++ codersdk.PatchGroupRequest.RemoveUsers req)%list.

(** The three steps of the function run in the transaction of a group
    update: the rename, the body of the loop over the added users and the
    body of the loop over the removed ones. *)
Definition tx_rename (group : database.Group.t)
    (req : codersdk.PatchGroupRequest.t) : Tx DB database.Group.t :=
  if bool_decide (codersdk.PatchGroupRequest.Name req ≠ "") then
    let arg :=
      {| database.UpdateGroupByIDParams.ID := database.Group.ID group;
         database.UpdateGroupByIDParams.Name :=
           codersdk.PatchGroupRequest.Name req |} in
    let! res := command (database.CallUpdateGroupByID arg)
                        (database.UpdateGroupByID arg) in
    match res with
    | Err err => leave (Failed (wrapError "update group by ID" err))
    | Ok group => ret group
    end
  else ret group.

Definition tx_insert (group : database.Group.t) (id : string) : Tx DB unit :=
  let! userID := coderd.orPanic Panicking (uuid.MustParse id) in
  let arg :=
    {| database.InsertGroupMemberParams.GroupID := database.Group.ID group;
       database.InsertGroupMemberParams.UserID := userID |} in
  let! res := command (database.CallInsertGroupMember arg)
                      (database.InsertGroupMember arg) in
  match res with
  | Err err =>
      leave (Failed (wrapError ("insert group member " ++ Sprintf_q id) err))
  | Ok _ => ret tt
  end.

Definition tx_delete (id : string) : Tx DB unit :=
  let! userID := coderd.orPanic Panicking (uuid.MustParse id) in
  let! res := command (database.CallDeleteGroupMember userID)
                      (database.DeleteGroupMember userID) in
  match res with
  | Err err =>
      leave (Failed (wrapError ("insert group member " ++ Sprintf_q id) err))
  | Ok _ => ret tt
  end.

(** The group update [req] cut down to the users [adds] and [removes],
    under the same name. *)
Definition upTo (req : codersdk.PatchGroupRequest.t) (adds removes : list string)
  : codersdk.PatchGroupRequest.t :=
  {| codersdk.PatchGroupRequest.AddUsers := adds;
     codersdk.PatchGroupRequest.RemoveUsers := removes;
     codersdk.PatchGroupRequest.Name := codersdk.PatchGroupRequest.Name req |}.

(** The commands at which the function of the transaction can fail. *)
Inductive txPoint : Type :=
  | AtRename
  | AtInsert (id : string)
  | AtDelete (id : string).

(** The heading under which the failure of each is reported: a failed
    delete goes under the heading of the insert. *)
Definition headingOf (point : txPoint) : string :=
  match point with
  | AtRename => "update group by ID"
  | AtInsert id | AtDelete id => "insert group member " ++ Sprintf_q id
  end.

(** A command of the store fails with [cause] while the function of the
    transaction of the group update [req] runs from the world [w]: the
    rename; or the insert of an added user, the rename and the inserts
    before it having succeeded; or the delete of a removed user, the
    rename, all the inserts and the deletes before it having succeeded.
    The last world is the one the failure leaves, the failed command
    traced. *)
Inductive storeFailure (group : database.Group.t)
    (req : codersdk.PatchGroupRequest.t) (w : World DB)
  : txPoint → error → World DB → Prop :=
  | rename_fails (cause : error) :
      let arg :=
        {| database.UpdateGroupByIDParams.ID := database.Group.ID group;
           database.UpdateGroupByIDParams.Name :=
             codersdk.PatchGroupRequest.Name req |} in
      codersdk.PatchGroupRequest.Name req ≠ "" →
      database.UpdateGroupByID arg (db w) = Err cause →
      storeFailure group req w AtRename cause
        (logCall (database.CallUpdateGroupByID arg) w)
  | insert_fails (done rest : list string) (id : string) (userID : uuid.UUID)
        (group' : database.Group.t) (w' : World DB) (cause : error) :
      let arg :=
        {| database.InsertGroupMemberParams.GroupID := database.Group.ID group';
           database.InsertGroupMemberParams.UserID := userID |} in
      codersdk.PatchGroupRequest.AddUsers req = (done ++ id :: rest)%list →
      uuid.Parse id = Some userID →
      coderd.patchGroup_tx group (upTo req done []) w = (inr group', w') →
      database.InsertGroupMember arg (db w') = Err cause →
      storeFailure group req w (AtInsert id) cause
        (logCall (database.CallInsertGroupMember arg) w')
  | delete_fails (done rest : list string) (id : string) (userID : uuid.UUID)
        (group' : database.Group.t) (w' : World DB) (cause : error) :
      codersdk.PatchGroupRequest.RemoveUsers req = (done ++ id :: rest)%list →
      uuid.Parse id = Some userID →
      coderd.patchGroup_tx group
        (upTo req (codersdk.PatchGroupRequest.AddUsers req) done) w
        = (inr group', w') →
      database.DeleteGroupMember userID (db w') = Err cause →
      storeFailure group req w (AtDelete id) cause
        (logCall (database.CallDeleteGroupMember userID) w').

(** The commands of the transaction of a group update, in the order it
    issues them: the rename when a name is given, one insert per added
    user, one delete per removed user. *)
Definition txCalls (group group' : database.Group.t)
    (req : codersdk.PatchGroupRequest.t) (adds removes : list uuid.UUID)
  : list database.Call :=
  ((if bool_decide (codersdk.PatchGroupRequest.Name req ≠ "") then
      [database.CallUpdateGroupByID
         {| database.UpdateGroupByIDParams.ID := database.Group.ID group;
            database.UpdateGroupByIDParams.Name :=
              codersdk.PatchGroupRequest.Name req |}]
    else [])
   ++ ((λ userID, database.CallInsertGroupMember
                    {| database.InsertGroupMemberParams.GroupID :=
                         database.Group.ID group';
                       database.InsertGroupMemberParams.UserID := userID |})
         <$> adds)
   ++ (database.CallDeleteGroupMember <$> removes))%list.

(** What the group update answers once its transaction is committed. *)
Definition patchGroup_committed (RoleByName : string → rbac.Role.t)
    (group : database.Group.t) (members : Result (list database.User.t))
  : http.Response :=
  match members with
  | Ok members =>
      httpapi.WriteGroup http.StatusOK (coderd.convertGroup RoleByName group members)
  | Err err => httpapi.InternalServerError err
  end.

(** The request the Organization Resolver hands on. *)
Definition withOrganization (r : httpmw.Request)
    (organization : database.Organization.t) : httpmw.Request :=
  httpmw.WithContext r
    (httpmw.WithValue (httpmw.Ctx r) httpmw.organizationParamContextKey
       (httpmw.ValueOrganization organization)).

End MoreVocabulary.

(** ** More of the deployment *)

Module cases.


(** The all-zero UUID, spelt without dashes. *)
Definition zeroRoute : httpmw.Request :=
  scenario.route "admin" [("organization", "00000000000000000000000000000000")]
    scenario.noBody.

Definition acmeRoute : httpmw.Request :=
  scenario.route "admin" [("organization", "acme")] scenario.noBody.

(** PATCH infra with nothing to change. *)
Definition emptyPatch : httpmw.Request :=
  scenario.onGroup "admin" scenario.infra (scenario.patch [] [] "").

(** PATCH infra by a caller whom the gate denies: rename to the reserved
    name. *)
Definition deniedRenameToReserved : httpmw.Request :=
  scenario.onGroup "viewer" scenario.infra
    (scenario.patch [] [] scenario.AllUsersGroup).

(** DELETE of infra by a caller whom the gate grants the deletion. *)
Definition grantedDelete : httpmw.Request :=
  scenario.onGroup "admin" scenario.infra scenario.noBody.

(** PATCH infra: remove bob, who is in no group. *)
Definition removeBob : httpmw.Request :=
  scenario.onGroup "admin" scenario.infra (scenario.patch [] [scenario.bobID] "").

(** A PATCH that reaches the handler without the Group Resolver. *)
Definition unresolved : httpmw.Request :=
  scenario.route "admin" [] (scenario.patch [] [] "core").

(** The store while the roster query finds no rows, and while it is out of
    order. *)
Definition withFault (fault : database.Call → option error) : memdb.t :=
  {| memdb.organizations := memdb.organizations scenario.store;
     memdb.groups := memdb.groups scenario.store;
     memdb.users := memdb.users scenario.store;
     memdb.organization_members := memdb.organization_members scenario.store;
     memdb.group_members := memdb.group_members scenario.store;
     memdb.fault := fault |}.

Definition rosterless : World memdb.t :=
  {| db := withFault (λ c, match c with
                           | database.CallGetGroupMembers _ => Some ErrNoRows
                           | _ => None
                           end);
     calls := [] |}.

Definition rosterDown : World memdb.t :=
  {| db := withFault (λ c, match c with
                           | database.CallGetGroupMembers _ =>
                               Some (errorString "driver: bad connection")
                           | _ => None
                           end);
     calls := [] |}.

(** GET of infra by a caller whom the gate grants the read. *)
Definition grantedGet : httpmw.Request :=
  scenario.onGroup "admin" scenario.infra scenario.noBody.

(** The gate grants the creation of groups to the subject admin. *)
Definition AuthorizeCreate (r : httpmw.Request) : bool :=
  bool_decide (httpmw.Subject r = "admin").

(** The body of a create request carries a name, as that of an update. *)
Definition Read (r : httpmw.Request) : http.Response + groups.CreateGroupRequest.t :=
  match httpmw.Body r with
  | httpmw.PatchGroupBody req =>
      inr {| groups.CreateGroupRequest.Name := codersdk.PatchGroupRequest.Name req |}
  | httpmw.Undecodable _ =>
      inl (httpapi.Write http.StatusBadRequest
             (httpapi.message "Request body must be valid JSON."))
  end.

(** The filter clears every group for the subject admin and the group
    infra for anyone. *)
Definition AuthorizeFilter (r : httpmw.Request) (action : rbac.Action)
    (gs : list database.Group.t) : Result (list database.Group.t) :=
  Ok (List.filter
        (λ g, bool_decide (httpmw.Subject r = "admin"
                           ∨ database.Group.Name g = "infra"))
        gs).

(** Requests on acme, the Organization Resolver having run. *)
Definition onAcme (subject : string) (body : httpmw.RequestBody) : httpmw.Request :=
  withOrganization (scenario.route subject [("organization", "acme")] body)
    scenario.acme.

Definition createReserved : httpmw.Request :=
  onAcme "admin" (scenario.patch [] [] scenario.AllUsersGroup).

Definition createReservedDenied : httpmw.Request :=
  onAcme "viewer" (scenario.patch [] [] scenario.AllUsersGroup).

(** POST of a group of a new name. *)
Definition createCore : httpmw.Request :=
  onAcme "admin" (scenario.patch [] [] "core").

Definition listAsAdmin : httpmw.Request := onAcme "admin" scenario.noBody.

End cases.
(** * Properties *)

(** ** UUIDs and their text form *)

Example uuid_Nil_String :
  uuid.String uuid.Nil = "00000000-0000-0000-0000-000000000000".
Proof. reflexivity. Qed.

Example uuid_Parse_upper :
  uuid.Parse "00000000-0000-0000-0000-0000000000AB"
  = Some [# x00; x00; x00; x00; x00; x00; x00; x00;
            x00; x00; x00; x00; x00; x00; x00; xab].
Proof. reflexivity. Qed.

Example uuid_Parse_name : uuid.Parse "acme" = None.
Proof. reflexivity. Qed.

Lemma xtob_encodeByte (b : byte) :
  uuid.xtob (uuid.hexHi b) (uuid.hexLo b) = Some b.
Proof. destruct b; reflexivity. Qed.

Lemma uuid_String_length (u : uuid.UUID) : String.length (uuid.String u) = 36.
Proof. inv_vec u; intros. reflexivity. Qed.

Lemma uuid_Parse_String (u : uuid.UUID) : uuid.Parse (uuid.String u) = Some u.
Proof.
  unfold uuid.Parse. rewrite uuid_String_length.
  rewrite bool_decide_eq_true_2 by reflexivity.
  inv_vec u; intros b0 b1 b2 b3 b4 b5 b6 b7 b8 b9 b10 b11 b12 b13 b14 b15.
  unfold uuid.parseCanonical.
  rewrite bool_decide_eq_false_2 by (cbn; intros [?|[?|[?|?]]]; congruence).
  unfold uuid.xtobAt, uuid.at_. cbn.
  rewrite !xtob_encodeByte. reflexivity.
Qed.

Lemma uuid_String_inj (u v : uuid.UUID) : uuid.String u = uuid.String v → u = v.
Proof.
  intros E. apply (f_equal uuid.Parse) in E.
  rewrite !uuid_Parse_String in E. congruence.
Qed.

Lemma uuid_String_not_empty (u : uuid.UUID) : uuid.String u ≠ "".
Proof.
  intros E. apply (f_equal String.length) in E.
  by rewrite uuid_String_length in E.
Qed.

(** ** The step monad *)

Lemma bind_ret_l {DB E A B : Type} (a : A) (k : A → Step DB E B) (w : World DB) :
  bind (ret a) k w = k a w.
Proof. reflexivity. Qed.

Lemma bind_eq_inr {DB E A B : Type} (m : Step DB E A) (k : A → Step DB E B)
    (w w' : World DB) (a : A) :
  m w = (inr a, w') → bind m k w = k a w'.
Proof. intros H. unfold bind. by rewrite H. Qed.

Lemma bind_eq_inl {DB E A B : Type} (m : Step DB E A) (k : A → Step DB E B)
    (w w' : World DB) (e : E) :
  m w = (inl e, w') → bind m k w = (inl e, w').
Proof. intros H. unfold bind. by rewrite H. Qed.

(** ** convertGroup *)

Section ConvertGroup.

Variable RoleByName : string → rbac.Role.t.

Lemma convertGroup_orgs_lookup (org : uuid.UUID) (users : list database.User.t)
    (orgs : gmap uuid.UUID (list uuid.UUID)) (u : database.User.t) :
  (u ∈ users ∨ orgs !! database.User.ID u = Some [org]) →
  (∀ k v, orgs !! k = Some v → v = [org]) →
  foldl (λ orgs user, <[database.User.ID user := [org]]> orgs) orgs users
    !! database.User.ID u = Some [org].
Proof.
  revert orgs. induction users as [|user users IH]; intros orgs Hu Hall; cbn.
  - destruct Hu as [Hu|Hu]; [by apply elem_of_nil in Hu | done].
  - apply IH.
    + destruct Hu as [Hu|Hu].
      * apply elem_of_cons in Hu as [->|Hu]; [right | by left].
        by rewrite lookup_insert_eq.
      * right. destruct (decide (database.User.ID user = database.User.ID u)) as [E|N].
        -- rewrite E. by rewrite lookup_insert_eq.
        -- by rewrite lookup_insert_ne.
    + intros k v. destruct (decide (database.User.ID user = k)) as [<-|N].
      * rewrite lookup_insert_eq. congruence.
      * rewrite lookup_insert_ne by done. apply Hall.
Qed.

(** C9. In every group response built by [convertGroup], the list of
    organization ids of each listed member is the one-element list holding
    the owning organization id of the group, whatever organizations the
    user belongs to. *)
Theorem convertGroup_members_organizationIDs
    (g : database.Group.t) (users : list database.User.t) :
  Forall (λ member, codersdk.User.OrganizationIDs member
                    = [database.Group.OrganizationID g])
         (codersdk.Group.Members (coderd.convertGroup RoleByName g users)).
Proof.
  unfold coderd.convertGroup, coderd.convertUsers; cbn.
  apply Forall_fmap, Forall_forall. intros u Hu; cbn.
  rewrite convertGroup_orgs_lookup; [done | by left |].
  intros k v. by rewrite lookup_empty.
Qed.

End ConvertGroup.

(** ** The resolvers *)

Section ResolverProperties.

Context {DB : Type} `{!database.Store DB}.

(** C5. For an organization parameter equal to the reserved alias
    "default" or to the text of the all-zero UUID, the Organization
    Resolver resolves through the get-default-organization operation of the
    store, whatever the store holds: that operation is the one call it
    makes, so no lookup by id or by name is attempted, and what it yields is
    the organization handed on in the context. *)
Theorem ExtractOrganizationParam_default
    (next : httpmw.Handler DB) (r : httpmw.Request) (w : World DB) :
  httpmw.URLParam r "organization" = codersdk.DefaultOrganization
  ∨ httpmw.URLParam r "organization" = uuid.String uuid.Nil →
  httpmw.ExtractOrganizationParam next r w
  = organizationResolved next r (database.GetDefaultOrganization (db w))
      (logCall database.CallGetDefaultOrganization w).
Proof.
  intros Harg. unfold httpmw.ExtractOrganizationParam, httpmw.serve.
  rewrite bool_decide_eq_false_2 by (destruct Harg as [-> | ->]; discriminate).
  rewrite (bool_decide_eq_true_2 _ Harg).
  unfold bind, query, organizationResolved, internalErrorFetchingOrganization.
  destruct (database.GetDefaultOrganization (db w)) as [organization|dbErr].
  - unfold httpmw.ServeHTTP. by destruct (next _ _).
  - by destruct (httpapi.Is404Error dbErr).
Qed.

Lemma chi_URLParam_Add (s : chi.RouteParams) (key value : string) :
  chi.URLParam (chi.Add s key value) key = value.
Proof.
  unfold chi.URLParam, chi.Add. rewrite rev_app_distr. cbn.
  by rewrite bool_decide_eq_true_2.
Qed.

Lemma chi_URLParam_Add_ne (s : chi.RouteParams) (key key' value : string) :
  key ≠ key' → chi.URLParam (chi.Add s key value) key' = chi.URLParam s key'.
Proof.
  intros Hne. unfold chi.URLParam, chi.Add. rewrite rev_app_distr. cbn.
  by rewrite bool_decide_eq_false_2.
Qed.

(** C2, as the code has it. When the Group Resolver finds the group, the
    value it writes into the "organization" route parameter is the text
    of the owning organization id of the group, whatever the caller put in
    the route; and when that id is not the all-zero UUID, an Organization
    Resolver chained after it looks the organization up by exactly that id
    and by nothing else. *)
Theorem ExtractGroupParam_chained_organization
    (next : httpmw.Handler DB) (r : httpmw.Request) (w : World DB)
    (groupID : uuid.UUID) (group : database.Group.t) :
  let owner := database.Group.OrganizationID group in
  uuid.Parse (httpmw.URLParam r "group") = Some groupID →
  database.GetGroupByID groupID (db w) = Ok group →
  owner ≠ uuid.Nil →
  httpmw.URLParam (withGroup r group) "organization" = uuid.String owner
  ∧ httpmw.ExtractGroupParam (httpmw.ExtractOrganizationParam next) r w
    = organizationResolved next (withGroup r group)
        (database.GetOrganizationByID owner (db w))
        (logCall (database.CallGetOrganizationByID owner)
           (logCall (database.CallGetGroupByID groupID) w)).
Proof.
  intros owner Hparse Hgroup Hnil.
  assert (Hparam : httpmw.URLParam (withGroup r group) "organization"
                   = uuid.String owner) by apply chi_URLParam_Add.
  split; [done|].
  unfold httpmw.ExtractGroupParam, httpmw.serve, bind, httpmw.parseUUID.
  rewrite bool_decide_eq_false_2 by (intros E; by rewrite E in Hparse).
  rewrite Hparse. cbn. rewrite Hgroup.
  unfold httpmw.ServeHTTP. fold (withGroup r group).
  unfold httpmw.ExtractOrganizationParam, httpmw.serve.
  rewrite Hparam.
  rewrite bool_decide_eq_false_2 by apply uuid_String_not_empty.
  rewrite bool_decide_eq_false_2; last first.
  { intros [E|E].
    - apply (f_equal String.length) in E. by rewrite uuid_String_length in E.
    - by apply uuid_String_inj in E. }
  rewrite uuid_Parse_String.
  unfold bind, query, organizationResolved, internalErrorFetchingOrganization.
  rewrite Hparam. cbn.
  destruct (database.GetOrganizationByID owner (db w)) as [organization|dbErr].
  - unfold httpmw.ServeHTTP. by destruct (next _ _).
  - by destruct (httpapi.Is404Error dbErr).
Qed.

(** When the owning organization id of the group is the all-zero UUID, the
    chained Organization Resolver reads the injected parameter as the alias
    of the default organization. *)
Lemma ExtractGroupParam_chained_zero_owner
    (next : httpmw.Handler DB) (r : httpmw.Request) (w : World DB)
    (groupID : uuid.UUID) (group : database.Group.t) :
  uuid.Parse (httpmw.URLParam r "group") = Some groupID →
  database.GetGroupByID groupID (db w) = Ok group →
  database.Group.OrganizationID group = uuid.Nil →
  httpmw.ExtractGroupParam (httpmw.ExtractOrganizationParam next) r w
  = organizationResolved next (withGroup r group)
      (database.GetDefaultOrganization (db w))
      (logCall database.CallGetDefaultOrganization
         (logCall (database.CallGetGroupByID groupID) w)).
Proof.
  intros Hparse Hgroup Hnil.
  unfold httpmw.ExtractGroupParam, httpmw.serve, bind, httpmw.parseUUID.
  rewrite bool_decide_eq_false_2 by (intros E; by rewrite E in Hparse).
  rewrite Hparse. cbn. rewrite Hgroup.
  unfold httpmw.ServeHTTP. fold (withGroup r group).
  assert (Hparam : httpmw.URLParam (withGroup r group) "organization"
                   = uuid.String uuid.Nil).
  { unfold withGroup. rewrite Hnil. apply chi_URLParam_Add. }
  unfold httpmw.ExtractOrganizationParam, httpmw.serve.
  rewrite Hparam.
  rewrite bool_decide_eq_false_2 by discriminate.
  rewrite bool_decide_eq_true_2 by (by right).
  unfold bind, query, organizationResolved, internalErrorFetchingOrganization.
  rewrite Hparam. cbn.
  destruct (database.GetDefaultOrganization (db w)) as [organization|dbErr].
  - unfold httpmw.ServeHTTP. by destruct (next _ _).
  - by destruct (httpapi.Is404Error dbErr).
Qed.

(** A route to a group that the store does not hold is answered with the
    resource-not-found response. *)
Lemma ExtractGroupParam_absent
    (next : httpmw.Handler DB) (r : httpmw.Request) (w : World DB)
    (groupID : uuid.UUID) (err : error) :
  uuid.Parse (httpmw.URLParam r "group") = Some groupID →
  database.GetGroupByID groupID (db w) = Err err →
  Is_ErrNoRows err = true →
  httpmw.ExtractGroupParam next r w
  = (Written httpapi.ResourceNotFound, logCall (database.CallGetGroupByID groupID) w).
Proof.
  intros Hparse Hgroup Hno.
  unfold httpmw.ExtractGroupParam, httpmw.serve, bind, httpmw.parseUUID.
  rewrite bool_decide_eq_false_2 by (intros E; by rewrite E in Hparse).
  rewrite Hparse. cbn. by rewrite Hgroup, Hno.
Qed.

End ResolverProperties.

(** Two user records that agree on the id, the username and the avatar URL
    are indistinguishable downstream of the Organization Member Resolver,
    whatever their e-mail, roles or status. *)
Lemma ExtractOrganizationMemberParam_noninterference
    {DB : Type} `{!database.Store DB}
    (lookup lookup' : httpmw.Request → DB → http.Response + database.User.t)
    (next : httpmw.Handler DB) (r : httpmw.Request) (w : World DB)
    (user user' : database.User.t) :
  lookup r (db w) = inr user →
  lookup' r (db w) = inr user' →
  database.User.ID user = database.User.ID user' →
  database.User.Username user = database.User.Username user' →
  database.User.AvatarURL user = database.User.AvatarURL user' →
  httpmw.ExtractOrganizationMemberParam lookup next r w
  = httpmw.ExtractOrganizationMemberParam lookup' next r w.
Proof.
  intros H1 H2 Hid Hname Havatar.
  unfold httpmw.ExtractOrganizationMemberParam, httpmw.serve, bind, userOrResponse.
  rewrite H1, H2, Hid, Hname, Havatar. reflexivity.
Qed.

Section MemberResolver.

Context {DB : Type} `{!database.Store DB}.

Variable extractUserContext : httpmw.Request → DB → http.Response + database.User.t.

(** The resolver hands the request on only when the user is resolved, an
    organization is in the context and the store holds exactly one
    matching row; in every other case its outcome does not depend on the
    handler that follows. *)
Lemma ExtractOrganizationMemberParam_success_or_stop
    (r : httpmw.Request) (w : World DB) :
  (∃ user organization row,
     extractUserContext r (db w) = inr user
     ∧ httpmw.Value (httpmw.Ctx r) httpmw.organizationParamContextKey
       = Some (httpmw.ValueOrganization organization)
     ∧ database.ExpectOne
         (database.OrganizationMembers
            {| database.OrganizationMembersParams.OrganizationID :=
                 database.Organization.ID organization;
               database.OrganizationMembersParams.UserID := database.User.ID user |}
            (db w)) = Ok row)
  ∨ ∀ next next' : httpmw.Handler DB,
      httpmw.ExtractOrganizationMemberParam extractUserContext next r w
      = httpmw.ExtractOrganizationMemberParam extractUserContext next' r w.
Proof.
  unfold httpmw.ExtractOrganizationMemberParam, httpmw.serve, bind,
    userOrResponse, httpmw.OrganizationParam.
  destruct (extractUserContext r (db w)) as [resp|user]; [by right|].
  destruct (httpmw.Value _ _) as [[organization| |]|]; try by right.
  cbn.
  destruct (database.ExpectOne _) as [row|err] eqn:Hrow.
  - left. by exists user, organization, row.
  - right. intros next next'. by destruct (httpapi.Is404Error err).
Qed.

(** C1. Whenever the Organization Member Resolver succeeds, the request it
    hands on carries the context it received plus one entry, under the
    organization-member key: the membership row of the one matching row of
    the store, the username and the avatar URL of the user. Nothing else of
    the user record enters the context: a user record with the same id,
    username and avatar URL, whatever its other fields, leads to the same
    run. *)
Theorem ExtractOrganizationMemberParam_context
    (next : httpmw.Handler DB) (r : httpmw.Request) (w : World DB)
    (user : database.User.t) (organization : database.Organization.t)
    (row : database.OrganizationMembersRow.t) :
  let arg :=
    {| database.OrganizationMembersParams.OrganizationID :=
         database.Organization.ID organization;
       database.OrganizationMembersParams.UserID := database.User.ID user |} in
  extractUserContext r (db w) = inr user →
  httpmw.Value (httpmw.Ctx r) httpmw.organizationParamContextKey
    = Some (httpmw.ValueOrganization organization) →
  database.ExpectOne (database.OrganizationMembers arg (db w)) = Ok row →
  httpmw.ExtractOrganizationMemberParam extractUserContext next r w
  = next (withOrganizationMember r
            {| httpmw.OrganizationMember.OrganizationMember :=
                 database.OrganizationMembersRow.OrganizationMember row;
               httpmw.OrganizationMember.Username := database.User.Username user;
               httpmw.OrganizationMember.AvatarURL := database.User.AvatarURL user |})
         (logCall (database.CallOrganizationMembers arg) w)
  ∧ ∀ (lookup : httpmw.Request → DB → http.Response + database.User.t)
      (user' : database.User.t),
      lookup r (db w) = inr user' →
      database.User.ID user' = database.User.ID user →
      database.User.Username user' = database.User.Username user →
      database.User.AvatarURL user' = database.User.AvatarURL user →
      httpmw.ExtractOrganizationMemberParam lookup next r w
      = httpmw.ExtractOrganizationMemberParam extractUserContext next r w.
Proof.
  intros arg Huser Horg Hrow. split.
  - unfold httpmw.ExtractOrganizationMemberParam, httpmw.serve, bind,
      userOrResponse, httpmw.OrganizationParam.
    rewrite Huser, Horg. cbn. fold arg. rewrite Hrow.
    unfold httpmw.ServeHTTP, withOrganizationMember.
    by destruct (next _ _).
  - intros lookup user' Hlookup Hid Hname Havatar.
    by apply (ExtractOrganizationMemberParam_noninterference
                lookup extractUserContext next r w user' user).
Qed.

End MemberResolver.

(** ** Steps that read, steps that log *)

Section StepProperties.

Context {DB : Type} `{!database.Store DB}.

Lemma reads_ret {E A : Type} (a : A) : reads (ret a : Step DB E A).
Proof.
  intros w. split; [done|]. exists [].
  split; [by rewrite app_nil_r | apply not_elem_of_nil].
Qed.

Lemma reads_leave {E A : Type} (e : E) : reads (leave e : Step DB E A).
Proof.
  intros w. split; [done|]. exists [].
  split; [by rewrite app_nil_r | apply not_elem_of_nil].
Qed.

Lemma reads_bind {E A B : Type} (m : Step DB E A) (k : A → Step DB E B) :
  reads m → (∀ a, reads (k a)) → reads (bind m k).
Proof.
  intros Hm Hk w. unfold bind. specialize (Hm w).
  destruct (m w) as [[e|a] w1]; cbn in *; [done|].
  destruct Hm as (Hdb & l & Hl & Hin). destruct (Hk a w1) as (Hdb' & l' & Hl' & Hin').
  split; [congruence|]. exists (l ++ l')%list.
  rewrite Hl', Hl, app_assoc. split; [done|].
  rewrite elem_of_app. tauto.
Qed.

Lemma reads_query {E A : Type} (c : database.Call) (q : DB → Result A) :
  c ≠ database.CallInTx → reads (query c q : Step DB E (Result A)).
Proof.
  intros Hc w. split; [done|]. exists [c]. split; [done|].
  rewrite list_elem_of_singleton. congruence.
Qed.

Lemma reads_forEach {E A : Type} (xs : list A) (body : A → Step DB E unit) :
  (∀ x, reads (body x)) → reads (forEach xs body).
Proof.
  intros Hbody. induction xs as [|x xs IH]; cbn; [apply reads_ret|].
  apply reads_bind; [apply Hbody | intros _; apply IH].
Qed.

Lemma logs_ret {E A : Type} (a : A) : logs (ret a : Step DB E A).
Proof. intros w. exists []. by rewrite app_nil_r. Qed.

Lemma logs_leave {E A : Type} (e : E) : logs (leave e : Step DB E A).
Proof. intros w. exists []. by rewrite app_nil_r. Qed.

Lemma logs_bind {E A B : Type} (m : Step DB E A) (k : A → Step DB E B) :
  logs m → (∀ a, logs (k a)) → logs (bind m k).
Proof.
  intros Hm Hk w. unfold bind. specialize (Hm w).
  destruct (m w) as [[e|a] w1]; cbn in *; [done|].
  destruct Hm as (l & Hl). destruct (Hk a w1) as (l' & Hl').
  exists (l ++ l')%list. by rewrite Hl', Hl, app_assoc.
Qed.

Lemma logs_query {E A : Type} (c : database.Call) (q : DB → Result A) :
  logs (query c q : Step DB E (Result A)).
Proof. intros w. by exists [c]. Qed.

Lemma logs_command {E A : Type} (c : database.Call) (q : DB → Result (A * DB)) :
  logs (command c q : Step DB E (Result A)).
Proof. intros w. exists [c]. unfold command. by destruct (q (db w)) as [[a d]|err]. Qed.

Lemma logs_forEach {E A : Type} (xs : list A) (body : A → Step DB E unit) :
  (∀ x, logs (body x)) → logs (forEach xs body).
Proof.
  intros Hbody. induction xs as [|x xs IH]; cbn; [apply logs_ret|].
  apply logs_bind; [apply Hbody | intros _; apply IH].
Qed.

Lemma logs_orPanic {E A : Type} (raise : string → E) (v : string + A) :
  logs (coderd.orPanic raise v : Step DB E A).
Proof. destruct v; [apply logs_leave | apply logs_ret]. Qed.

Lemma reads_orPanic {E A : Type} (raise : string → E) (v : string + A) :
  reads (coderd.orPanic raise v : Step DB E A).
Proof. destruct v; [apply reads_leave | apply reads_ret]. Qed.

Lemma forEach_app {E A : Type} (xs ys : list A) (body : A → Step DB E unit)
    (w : World DB) :
  forEach (xs ++ ys) body w = bind (forEach xs body) (λ _, forEach ys body) w.
Proof.
  revert w. induction xs as [|x xs IH]; intros w; cbn; [done|].
  unfold bind. destruct (body x w) as [[e|[]] w1]; [done|].
  by rewrite IH.
Qed.

End StepProperties.

(** The two properties are closed under the combinators, so that they
    follow the shape of a handler. *)
Ltac step_reads :=
  repeat first
    [ apply reads_ret
    | apply reads_leave
    | apply reads_orPanic
    | apply reads_query; discriminate
    | apply reads_forEach; intros ?
    | apply reads_bind; [|intros ?]
    | match goal with
      | |- reads (match ?x with _ => _ end) => destruct x
      end ].

Ltac step_logs :=
  repeat first
    [ apply logs_ret
    | apply logs_leave
    | apply logs_orPanic
    | apply logs_query
    | apply logs_command
    | apply logs_forEach; intros ?
    | apply logs_bind; [|intros ?]
    | match goal with
      | |- logs (match ?x with _ => _ end) => destruct x
      end ].

(** ** The function run in the transaction of a group update *)

Section TransactionSteps.

Context {DB : Type} `{!database.Store DB}.

(** A loop that leaves early has run its body to the end for the items
    before one, and has left from the body of that one. *)
Lemma forEach_inl {E A : Type} (xs : list A) (body : A → Step DB E unit)
    (w w' : World DB) (e : E) :
  forEach xs body w = (inl e, w') ↔
  ∃ done x rest w1,
    xs = (done ++ x :: rest)%list
    ∧ forEach done body w = (inr tt, w1)
    ∧ body x w1 = (inl e, w').
Proof.
  split.
  - revert w. induction xs as [|x xs IH]; intros w; [discriminate|].
    cbn. unfold bind.
    destruct (body x w) as [[e1|[]] w1] eqn:Hx.
    + intros [= <- <-]. by exists [], x, xs, w.
    + intros Hloop.
      destruct (IH _ Hloop) as (done & y & rest & w2 & -> & Hdone & Hy).
      exists (x :: done), y, rest, w2. split; [done|]. split; [|done].
      cbn. unfold bind. by rewrite Hx.
  - intros (done & x & rest & w1 & -> & Hdone & Hx).
    rewrite forEach_app. unfold bind. rewrite Hdone. cbn.
    unfold bind. by rewrite Hx.
Qed.

Lemma patchGroup_tx_steps
    (group : database.Group.t) (req : codersdk.PatchGroupRequest.t) :
  coderd.patchGroup_tx (DB := DB) group req
  = (let! g := tx_rename group req in
     let! _ := forEach (codersdk.PatchGroupRequest.AddUsers req) (tx_insert g) in
     let! _ := forEach (codersdk.PatchGroupRequest.RemoveUsers req) tx_delete in
     ret g).
Proof. reflexivity. Qed.

Lemma patchGroup_tx_inr
    (group g : database.Group.t) (req : codersdk.PatchGroupRequest.t)
    (w w' : World DB) :
  coderd.patchGroup_tx group req w = (inr g, w') ↔
  ∃ w0 w1,
    tx_rename group req w = (inr g, w0)
    ∧ forEach (codersdk.PatchGroupRequest.AddUsers req) (tx_insert g) w0
      = (inr tt, w1)
    ∧ forEach (codersdk.PatchGroupRequest.RemoveUsers req) tx_delete w1
      = (inr tt, w').
Proof.
  rewrite patchGroup_tx_steps. unfold bind. split.
  - destruct (tx_rename group req w) as [[a|g0] w0]; [discriminate|].
    destruct (forEach _ (tx_insert g0) w0) as [[a|[]] w1] eqn:Hadd;
      [discriminate|].
    destruct (forEach _ tx_delete w1) as [[a|[]] w2] eqn:Hremove;
      [discriminate|].
    intros [= <- <-]. by exists w0, w1.
  - intros (w0 & w1 & -> & -> & ->). done.
Qed.

Lemma tx_rename_inl
    (group : database.Group.t) (req : codersdk.PatchGroupRequest.t)
    (w w' : World DB) (a : Abort) :
  let arg :=
    {| database.UpdateGroupByIDParams.ID := database.Group.ID group;
       database.UpdateGroupByIDParams.Name := codersdk.PatchGroupRequest.Name req |} in
  tx_rename group req w = (inl a, w') ↔
  ∃ cause,
    codersdk.PatchGroupRequest.Name req ≠ ""
    ∧ database.UpdateGroupByID arg (db w) = Err cause
    ∧ a = Failed (wrapError "update group by ID" cause)
    ∧ w' = logCall (database.CallUpdateGroupByID arg) w.
Proof.
  intros arg. unfold tx_rename. fold arg. split.
  - destruct (bool_decide _) eqn:Hname; [|discriminate].
    apply bool_decide_eq_true in Hname. unfold bind, command.
    destruct (database.UpdateGroupByID arg (db w)) as [[g d]|cause] eqn:Hrename;
      [discriminate|].
    intros [= <- <-]. by exists cause.
  - intros (cause & Hname & Hrename & -> & ->).
    rewrite (bool_decide_eq_true_2 _ Hname). unfold bind, command.
    by rewrite Hrename.
Qed.

Lemma tx_insert_inl
    (group : database.Group.t) (id : string) (w w' : World DB) (err : error) :
  tx_insert group id w = (inl (Failed err), w') ↔
  ∃ userID cause,
    let arg :=
      {| database.InsertGroupMemberParams.GroupID := database.Group.ID group;
         database.InsertGroupMemberParams.UserID := userID |} in
    uuid.Parse id = Some userID
    ∧ database.InsertGroupMember arg (db w) = Err cause
    ∧ err = wrapError ("insert group member " ++ Sprintf_q id) cause
    ∧ w' = logCall (database.CallInsertGroupMember arg) w.
Proof.
  unfold tx_insert, uuid.MustParse. split.
  - destruct (uuid.Parse id) as [userID|]; [|discriminate]. cbn.
    unfold bind, command.
    destruct (database.InsertGroupMember _ (db w)) as [[[] d]|cause] eqn:Hinsert;
      [discriminate|].
    intros [= <- <-]. by exists userID, cause.
  - intros (userID & cause & -> & Hinsert & -> & ->). cbn.
    unfold bind, command. by rewrite Hinsert.
Qed.

Lemma tx_delete_inl (id : string) (w w' : World DB) (err : error) :
  tx_delete id w = (inl (Failed err), w') ↔
  ∃ userID cause,
    uuid.Parse id = Some userID
    ∧ database.DeleteGroupMember userID (db w) = Err cause
    ∧ err = wrapError ("insert group member " ++ Sprintf_q id) cause
    ∧ w' = logCall (database.CallDeleteGroupMember userID) w.
Proof.
  unfold tx_delete, uuid.MustParse. split.
  - destruct (uuid.Parse id) as [userID|]; [|discriminate]. cbn.
    unfold bind, command.
    destruct (database.DeleteGroupMember _ (db w)) as [[[] d]|cause] eqn:Hdelete;
      [discriminate|].
    intros [= <- <-]. by exists userID, cause.
  - intros (userID & cause & -> & Hdelete & -> & ->). cbn.
    unfold bind, command. by rewrite Hdelete.
Qed.

(** The function fails with the wrapped error of the store whenever a
    command of the store fails in its run. *)
Lemma storeFailure_tx
    (group : database.Group.t) (req : codersdk.PatchGroupRequest.t)
    (w w' : World DB) (point : txPoint) (cause : error) :
  storeFailure group req w point cause w' →
  coderd.patchGroup_tx group req w
  = (inl (Failed (wrapError (headingOf point) cause)), w').
Proof.
  intros Hfailure. rewrite patchGroup_tx_steps.
  destruct Hfailure as [cause arg Hname Hrename
                       |done rest id userID g w1 cause arg Hsplit Hparse Hrun Hinsert
                       |done rest id userID g w1 cause Hsplit Hparse Hrun Hdelete].
  - apply bind_eq_inl, tx_rename_inl. by exists cause.
  - apply patchGroup_tx_inr in Hrun as (w0 & w2 & Hrename & Hdone & [= <-]).
    unfold bind at 1. change (tx_rename group (upTo req done [])) with
      (tx_rename (DB := DB) group req) in Hrename. rewrite Hrename.
    apply bind_eq_inl, forEach_inl. exists done, id, rest, w2.
    split; [done|]. split; [done|]. apply tx_insert_inl. by exists userID, cause.
  - apply patchGroup_tx_inr in Hrun as (w0 & w2 & Hrename & Hadds & Hdone).
    unfold bind at 1. change (tx_rename group (upTo req _ done)) with
      (tx_rename (DB := DB) group req) in Hrename. rewrite Hrename.
    unfold bind at 1. cbn in Hadds. rewrite Hadds.
    apply bind_eq_inl, forEach_inl. exists done, id, rest, w1.
    split; [done|]. split; [done|]. apply tx_delete_inl. by exists userID, cause.
Qed.

(** The function fails with an error only when a command of the store has
    failed in its run. *)
Lemma tx_storeFailure
    (group : database.Group.t) (req : codersdk.PatchGroupRequest.t)
    (w w' : World DB) (err : error) :
  coderd.patchGroup_tx group req w = (inl (Failed err), w') →
  ∃ point cause,
    storeFailure group req w point cause w'
    ∧ err = wrapError (headingOf point) cause.
Proof.
  rewrite patchGroup_tx_steps. unfold bind.
  destruct (tx_rename group req w) as [[a|g] w0] eqn:Hrename.
  { intros [= -> ->].
    apply tx_rename_inl in Hrename as (cause & Hname & Hupdate & [= ->] & ->).
    exists AtRename, cause. split; [by constructor|done]. }
  destruct (forEach _ (tx_insert g) w0) as [[a|[]] w1] eqn:Hadds.
  { intros [= -> ->].
    apply forEach_inl in Hadds as (done & id & rest & w2 & Hsplit & Hdone & Hid).
    apply tx_insert_inl in Hid as (userID & cause & Hparse & Hinsert & -> & ->).
    exists (AtInsert id), cause. split; [|done].
    eapply insert_fails; [exact Hsplit | exact Hparse | | exact Hinsert].
    apply patchGroup_tx_inr. by exists w0, w2. }
  destruct (forEach _ tx_delete w1) as [[a|[]] w2] eqn:Hremoves; [|discriminate].
  intros [= -> ->].
  apply forEach_inl in Hremoves as (done & id & rest & w3 & Hsplit & Hdone & Hid).
  apply tx_delete_inl in Hid as (userID & cause & Hparse & Hdelete & -> & ->).
  exists (AtDelete id), cause. split; [|done].
  eapply delete_fails; [exact Hsplit | exact Hparse | | exact Hdelete].
  apply patchGroup_tx_inr. by exists w0, w1.
Qed.

End TransactionSteps.

(** ** The group handlers *)

Section HandlerProperties.

Context {DB : Type} `{!database.Store DB}.

Variable AllUsersGroup : string.
Variable RoleByName : string → rbac.Role.t.

Abbreviation patchGroup := (coderd.patchGroup AllUsersGroup RoleByName).
Abbreviation deleteGroup := (coderd.deleteGroup AllUsersGroup).
Abbreviation patchGroup_validate := (coderd.patchGroup_validate AllUsersGroup).


Lemma reads_checkUser (group : database.Group.t) (id : string) :
  reads (coderd.patchGroup_checkUser (DB := DB) group id).
Proof. unfold coderd.patchGroup_checkUser. step_reads. Qed.

Lemma reads_validate (api : coderd.API) (r : httpmw.Request) :
  reads (patchGroup_validate api r).
Proof.
  unfold coderd.patchGroup_validate, httpmw.GroupParam, coderd.Read.
  step_reads. apply reads_checkUser.
Qed.

Lemma reads_nameCheck (group : database.Group.t) (req : codersdk.PatchGroupRequest.t) :
  reads (coderd.patchGroup_nameCheck (DB := DB) group req).
Proof. unfold coderd.patchGroup_nameCheck. step_reads. Qed.

Lemma logs_tx (group : database.Group.t) (req : codersdk.PatchGroupRequest.t) :
  logs (coderd.patchGroup_tx (DB := DB) group req).
Proof. unfold coderd.patchGroup_tx. step_logs. Qed.

Lemma logs_InTx {A : Type} (function : Tx DB A) (w : World DB) :
  logs function →
  ∃ l, calls (InTx function w).2 = (calls w ++ database.CallInTx :: l)%list.
Proof.
  intros Hf. unfold InTx. destruct (Hf (logCall database.CallInTx w)) as (l & Hl).
  exists l. cbn in Hl. rewrite <- app_assoc in Hl.
  by destruct (function _) as [[[err|msg]|a] w'].
Qed.

Lemma logs_respond (res : Result database.Group.t) :
  logs (coderd.patchGroup_respond (DB := DB) RoleByName res).
Proof. unfold coderd.patchGroup_respond. step_logs. Qed.

(** The atomic section always opens its transaction. *)
Lemma atomic_opens_transaction
    (group : database.Group.t) (req : codersdk.PatchGroupRequest.t) (w : World DB) :
  ∃ l, calls (httpmw.serve (patchGroup_atomic RoleByName group req) w).2
       = (calls w ++ database.CallInTx :: l)%list.
Proof.
  unfold httpmw.serve, patchGroup_atomic, bind.
  destruct (logs_InTx (coderd.patchGroup_tx group req) w (logs_tx group req))
    as (l & Hl).
  destruct (InTx _ w) as [[o|res] w1]; cbn in Hl; [by exists l|].
  destruct (logs_respond res w1) as (l' & Hl').
  destruct (coderd.patchGroup_respond _ res w1) as [[o|[]] w2]. cbn in Hl'.
  exists (l ++ l')%list. cbn. by rewrite Hl', Hl, <- app_assoc.
Qed.

(** The atomic section never answers with a conflict. *)
Lemma atomic_status
    (group : database.Group.t) (req : codersdk.PatchGroupRequest.t) (w : World DB)
    (resp : http.Response) :
  (httpmw.serve (patchGroup_atomic RoleByName group req) w).1 = Written resp →
  http.StatusCode resp = http.StatusPreconditionFailed
  ∨ http.StatusCode resp = http.StatusInternalServerError
  ∨ http.StatusCode resp = http.StatusOK.
Proof.
  unfold httpmw.serve, patchGroup_atomic, bind, InTx.
  destruct (coderd.patchGroup_tx _ _ _) as [[[err|msg]|g] w1]; cbn.
  - unfold reply, leave.
    destruct (database.IsUniqueViolation err); [intros [= <-]; by left|].
    destruct (Is_ErrNoRows err); intros [= <-]; [by left | by right; left].
  - discriminate.
  - unfold bind, query.
    destruct (database.GetGroupMembers _ _); intros [= <-];
      [by right; right | by right; left].
Qed.


Lemma patchGroup_after_validate
    (api : coderd.API) (r : httpmw.Request) (w w1 : World DB)
    (group : database.Group.t) (req : codersdk.PatchGroupRequest.t) :
  patchGroup_validate api r w = (inr (group, req), w1) →
  patchGroup api r w
  = httpmw.serve (let! _ := coderd.patchGroup_nameCheck group req in
                  patchGroup_atomic RoleByName group req) w1.
Proof.
  intros Hv. unfold coderd.patchGroup, httpmw.serve.
  by rewrite (bind_eq_inr _ _ _ _ _ Hv).
Qed.

Lemma patchGroup_validate_fails
    (api : coderd.API) (r : httpmw.Request) (w w1 : World DB) (o : Outcome) :
  patchGroup_validate api r w = (inl o, w1) → patchGroup api r w = (o, w1).
Proof.
  intros Hv. unfold coderd.patchGroup, httpmw.serve.
  by rewrite (bind_eq_inl _ _ _ _ _ Hv).
Qed.

(** C10. In the pre-check of a rename, the 409 conflict is the answer
    exactly when the lookup of a group of that name in the organization
    succeeds. When the lookup fails, with whatever error, the error is
    dropped: the handler goes on into the atomic section, opens the
    transaction, and its answer is the one of the atomic section, never a
    conflict. *)
Theorem patchGroup_nameCheck_lookup
    (api : coderd.API) (r : httpmw.Request) (w w1 : World DB)
    (group : database.Group.t) (req : codersdk.PatchGroupRequest.t) :
  let arg :=
    {| database.GetGroupByOrgAndNameParams.OrganizationID :=
         database.Group.OrganizationID group;
       database.GetGroupByOrgAndNameParams.Name :=
         codersdk.PatchGroupRequest.Name req |} in
  let w2 := logCall (database.CallGetGroupByOrgAndName arg) w1 in
  patchGroup_validate api r w = (inr (group, req), w1) →
  codersdk.PatchGroupRequest.Name req ≠ "" →
  (∀ existing, database.GetGroupByOrgAndName arg (db w1) = Ok existing →
     patchGroup api r w
     = (Written (httpapi.Write http.StatusConflict
                   (httpapi.message
                      ("A group with name "
                       ++ Sprintf_q (codersdk.PatchGroupRequest.Name req)
                       ++ " already exists."))), w2))
  ∧ (∀ err, database.GetGroupByOrgAndName arg (db w1) = Err err →
       patchGroup api r w = httpmw.serve (patchGroup_atomic RoleByName group req) w2
       ∧ database.CallInTx ∈ calls (patchGroup api r w).2
       ∧ ∀ resp, (patchGroup api r w).1 = Written resp →
                 http.StatusCode resp ≠ http.StatusConflict).
Proof.
  intros arg w2 Hv Hname.
  assert (Hcheck : coderd.patchGroup_nameCheck group req w1
          = match database.GetGroupByOrgAndName arg (db w1) with
            | Ok _ =>
                (inl (Written (httpapi.Write http.StatusConflict
                   (httpapi.message
                      ("A group with name "
                       ++ Sprintf_q (codersdk.PatchGroupRequest.Name req)
                       ++ " already exists.")))), w2)
            | Err _ => (inr tt, w2)
            end).
  { unfold coderd.patchGroup_nameCheck.
    rewrite (bool_decide_eq_true_2 _ Hname). unfold bind, query. fold arg.
    by destruct (database.GetGroupByOrgAndName arg (db w1)). }
  rewrite (patchGroup_after_validate _ _ _ _ _ _ Hv).
  split.
  - intros existing Hlookup. rewrite Hlookup in Hcheck.
    unfold httpmw.serve. by rewrite (bind_eq_inl _ _ _ _ _ Hcheck).
  - intros err Hlookup. rewrite Hlookup in Hcheck.
    assert (Hgo : httpmw.serve
                    (let! _ := coderd.patchGroup_nameCheck group req in
                     patchGroup_atomic RoleByName group req) w1
                  = httpmw.serve (patchGroup_atomic RoleByName group req) w2).
    { unfold httpmw.serve. by rewrite (bind_eq_inr _ _ _ _ _ Hcheck). }
    rewrite Hgo. split; [done|]. split.
    + destruct (atomic_opens_transaction group req w2) as (l & ->).
      rewrite elem_of_app, elem_of_cons. tauto.
    + intros resp Hresp.
      destruct (atomic_status group req w2 resp Hresp) as [-> | [-> | ->]];
        discriminate.
Qed.

(** When the function run in the transaction of a group update fails,
    the handler reports the failure and leaves the store exactly as the
    request found it. *)
Lemma failed_transaction_answer
    (api : coderd.API) (r : httpmw.Request) (w w1 w2 w3 : World DB)
    (group : database.Group.t) (req : codersdk.PatchGroupRequest.t) (err : error) :
  patchGroup_validate api r w = (inr (group, req), w1) →
  coderd.patchGroup_nameCheck group req w1 = (inr tt, w2) →
  coderd.patchGroup_tx group req (logCall database.CallInTx w2)
    = (inl (Failed err), w3) →
  patchGroup api r w
    = (Written (patchGroup_failure err), {| db := db w; calls := calls w3 |}).
Proof.
  intros Hv Hn Htx.
  rewrite (patchGroup_after_validate _ _ _ _ _ _ Hv).
  unfold httpmw.serve. rewrite (bind_eq_inr _ _ _ _ _ Hn).
  unfold patchGroup_atomic, bind, InTx. rewrite Htx. cbn.
  assert (db w2 = db w) as ->.
  { pose proof (reads_validate api r w) as [Hdb _]. rewrite Hv in Hdb.
    pose proof (reads_nameCheck group req w1) as [Hdb' _]. rewrite Hn in Hdb'.
    cbn in *. congruence. }
  unfold patchGroup_failure, reply, leave.
  destruct (database.IsUniqueViolation err); [done|].
  by destruct (Is_ErrNoRows err).
Qed.

(** C3. When a command of the store fails inside the transaction of a
    group update (the rename, the insert of an added user or the delete of
    a removed one, whatever had succeeded before it), the function run in
    the transaction returns the wrapped error of the store, the
    transaction is aborted and the handler leaves the store exactly as the
    request found it: neither the rename nor any insert or delete made
    before the failure survives. The answer reports the wrapped error; a
    uniqueness violation of the store is answered 412, and so is a missing
    row. *)
Theorem patchGroup_failed_transaction
    (api : coderd.API) (r : httpmw.Request) (w w1 w2 w3 : World DB)
    (group : database.Group.t) (req : codersdk.PatchGroupRequest.t)
    (point : txPoint) (cause : error) :
  patchGroup_validate api r w = (inr (group, req), w1) →
  coderd.patchGroup_nameCheck group req w1 = (inr tt, w2) →
  storeFailure group req (logCall database.CallInTx w2) point cause w3 →
  let err := wrapError (headingOf point) cause in
  coderd.patchGroup_tx group req (logCall database.CallInTx w2)
    = (inl (Failed err), w3)
  ∧ patchGroup api r w
    = (Written (patchGroup_failure err), {| db := db w; calls := calls w3 |})
  ∧ (database.IsUniqueViolation cause = true →
     http.StatusCode (patchGroup_failure err) = http.StatusPreconditionFailed)
  ∧ (Is_ErrNoRows cause = true →
     http.StatusCode (patchGroup_failure err) = http.StatusPreconditionFailed).
Proof.
  intros Hv Hn Hfailure err.
  pose proof (storeFailure_tx _ _ _ _ _ _ Hfailure) as Htx.
  split; [exact Htx|]. split; [|split].
  - by eapply failed_transaction_answer.
  - unfold patchGroup_failure, err. cbn. by intros ->.
  - unfold patchGroup_failure, err. cbn. intros ->.
    by destruct (database.IsUniqueViolation cause).
Qed.

Lemma checkUser_member (group : database.Group.t) (id : string) (w : World DB) :
  isOrganizationMemberID (db w) group id = true →
  coderd.patchGroup_checkUser group id w
  = (inr tt, {| db := db w;
                calls := (calls w ++ membershipCalls group [id])%list |}).
Proof.
  unfold isOrganizationMemberID, coderd.patchGroup_checkUser, membershipCalls,
    uuid.MustParse.
  destruct (uuid.Parse id) as [userID|] eqn:Hparse; [|done].
  cbn. rewrite Hparse. cbn. unfold bind, query. cbn.
  by destruct (database.GetOrganizationMemberByUserID _ _).
Qed.

Lemma membershipCalls_app (group : database.Group.t) (xs ys : list string) :
  membershipCalls group (xs ++ ys)
  = (membershipCalls group xs ++ membershipCalls group ys)%list.
Proof. apply omap_app. Qed.

Lemma membershipCalls_not_InTx (group : database.Group.t) (ids : list string) :
  database.CallInTx ∉ membershipCalls group ids.
Proof.
  unfold membershipCalls. rewrite list_elem_of_omap.
  intros (id & _ & Hid). by destruct (uuid.Parse id).
Qed.

Lemma forEach_members (group : database.Group.t) (ids : list string) (w : World DB) :
  Forall (λ id, isOrganizationMemberID (db w) group id = true) ids →
  forEach ids (coderd.patchGroup_checkUser group) w
  = (inr tt, {| db := db w;
                calls := (calls w ++ membershipCalls group ids)%list |}).
Proof.
  revert w. induction ids as [|id ids IH]; intros w Hall.
  - cbn. unfold ret. destruct w; cbn. by rewrite app_nil_r.
  - apply Forall_cons in Hall as [Hid Hall]. cbn [forEach].
    rewrite (bind_eq_inr _ _ _ _ _ (checkUser_member group id w Hid)).
    rewrite IH by done. cbn [db calls].
    change (id :: ids) with ([id] ++ ids)%list.
    by rewrite (membershipCalls_app group [id] ids), app_assoc.
Qed.

Lemma checkUser_nonmember (group : database.Group.t) (id : string) (w : World DB)
    (userID : uuid.UUID) (err : error) :
  uuid.Parse id = Some userID →
  database.GetOrganizationMemberByUserID (memberArg group userID) (db w) = Err err →
  coderd.patchGroup_checkUser group id w
  = (inl (Written
       (if Is_ErrNoRows err then
          httpapi.Write http.StatusPreconditionFailed
            (httpapi.message
               ("User " ++ Sprintf_q id ++ " must be a member of organization "
                ++ Sprintf_q (uuid.String (database.Group.ID group))))
        else httpapi.InternalServerError err)),
     {| db := db w; calls := (calls w ++ membershipCalls group [id])%list |}).
Proof.
  intros Hparse Hlookup.
  unfold coderd.patchGroup_checkUser, membershipCalls, uuid.MustParse.
  rewrite Hparse. cbn. rewrite Hparse. cbn. unfold bind, query. cbn.
  fold (memberArg group userID). rewrite Hlookup.
  by destruct (Is_ErrNoRows err).
Qed.

(** C4, as the code has it. A group update from a caller whom the gate
    grants the update, whose body decodes and does not ask for the reserved
    name, and in which every id before the first id of a non-member (the
    added ids, then the removed ones) is the well-formed id of a member, is
    answered 412: the store is as the request found it, and the calls made
    are the membership lookups up to that id, so the transaction is never
    opened. *)
Theorem patchGroup_nonmember
    (api : coderd.API) (r : httpmw.Request) (w : World DB)
    (group : database.Group.t) (req : codersdk.PatchGroupRequest.t)
    (pre post : list string) (id : string) (userID : uuid.UUID) (err : error) :
  httpmw.Value (httpmw.Ctx r) httpmw.groupParamContextKey
    = Some (httpmw.ValueGroup group) →
  coderd.Authorize api r rbac.ActionUpdate (rbac.ObjectGroup group) = true →
  httpmw.Body r = httpmw.PatchGroupBody req →
  ¬ (codersdk.PatchGroupRequest.Name req ≠ ""
     ∧ codersdk.PatchGroupRequest.Name req = AllUsersGroup) →
  (codersdk.PatchGroupRequest.AddUsers req
   ++ codersdk.PatchGroupRequest.RemoveUsers req)%list = (pre ++ id :: post)%list →
  Forall (λ x, isOrganizationMemberID (db w) group x = true) pre →
  uuid.Parse id = Some userID →
  database.GetOrganizationMemberByUserID (memberArg group userID) (db w) = Err err →
  Is_ErrNoRows err = true →
  patchGroup api r w
  = (Written (httpapi.Write http.StatusPreconditionFailed
                (httpapi.message
                   ("User " ++ Sprintf_q id ++ " must be a member of organization "
                    ++ Sprintf_q (uuid.String (database.Group.ID group))))),
     {| db := db w;
        calls := (calls w ++ membershipCalls group (pre ++ [id]))%list |})
  ∧ database.CallInTx ∉ membershipCalls group (pre ++ [id]).
Proof.
  intros Hgroup Hauth Hbody Hname Husers Hpre Hparse Hlookup Hno.
  split; [|apply membershipCalls_not_InTx].
  apply patchGroup_validate_fails.
  unfold coderd.patchGroup_validate, httpmw.GroupParam, coderd.Read.
  rewrite Hgroup. rewrite bind_ret_l. rewrite Hauth. cbn [negb].
  rewrite Hbody, bind_ret_l.
  rewrite (bool_decide_eq_false_2 _ Hname). rewrite Husers.
  apply bind_eq_inl. rewrite forEach_app.
  rewrite (bind_eq_inr _ _ _ _ _ (forEach_members group pre w Hpre)).
  cbn [forEach]. apply bind_eq_inl.
  rewrite (checkUser_nonmember group id
             {| db := db w; calls := (calls w ++ membershipCalls group pre)%list |}
             userID err Hparse Hlookup).
  rewrite Hno. cbn [db calls]. by rewrite membershipCalls_app, app_assoc.
Qed.

Lemma forEach_nonmember (group : database.Group.t) (ids : list string)
    (id : string) (userID : uuid.UUID) (err : error) (w : World DB) :
  id ∈ ids →
  uuid.Parse id = Some userID →
  database.GetOrganizationMemberByUserID (memberArg group userID) (db w) = Err err →
  ∃ o w', forEach ids (coderd.patchGroup_checkUser group) w = (inl o, w').
Proof.
  intros Hin Hparse. revert w.
  induction ids as [|x ids IH]; intros w Hlookup; [by apply elem_of_nil in Hin|].
  cbn. unfold bind.
  destruct (decide (x = id)) as [->|Hne].
  - rewrite (checkUser_nonmember group id w userID err Hparse Hlookup). eauto.
  - apply elem_of_cons in Hin as [->|Hin]; [done|].
    pose proof (reads_checkUser group x w) as [Hdb _].
    destruct (coderd.patchGroup_checkUser group x w) as [[o|[]] w1]; [eauto|].
    cbn in Hdb. apply IH; [done|]. by rewrite Hdb.
Qed.

(** A group update that names a non-member among its user ids never
    reaches the atomic section, whatever else is wrong with it: the store
    is left as it is and no transaction is opened. *)
Lemma patchGroup_nonmember_never_mutates
    (api : coderd.API) (r : httpmw.Request) (w : World DB)
    (req : codersdk.PatchGroupRequest.t) (group : database.Group.t)
    (id : string) (userID : uuid.UUID) (err : error) :
  httpmw.Value (httpmw.Ctx r) httpmw.groupParamContextKey
    = Some (httpmw.ValueGroup group) →
  httpmw.Body r = httpmw.PatchGroupBody req →
  id ∈ (codersdk.PatchGroupRequest.AddUsers req
        ++ codersdk.PatchGroupRequest.RemoveUsers req)%list →
  uuid.Parse id = Some userID →
  database.GetOrganizationMemberByUserID (memberArg group userID) (db w) = Err err →
  db (patchGroup api r w).2 = db w
  ∧ ∃ l, calls (patchGroup api r w).2 = (calls w ++ l)%list
         ∧ database.CallInTx ∉ l.
Proof.
  intros Hgroup Hbody Hin Hparse Hlookup.
  assert (∃ o w1, patchGroup_validate api r w = (inl o, w1)) as (o & w1 & Hv).
  { unfold coderd.patchGroup_validate, httpmw.GroupParam, coderd.Read.
    rewrite Hgroup, bind_ret_l.
    destruct (negb _); [by eexists _, _|].
    rewrite Hbody, bind_ret_l.
    destruct (bool_decide _); [by eexists _, _|].
    destruct (forEach_nonmember group _ id userID err w Hin Hparse Hlookup)
      as (o & w1 & Hloop).
    exists o, w1. by apply bind_eq_inl. }
  rewrite (patchGroup_validate_fails _ _ _ _ _ Hv).
  pose proof (reads_validate api r w) as Hreads. by rewrite Hv in Hreads.
Qed.

(** C6, as the code has it. A group update that asks for a rename to the
    reserved name never reaches the store: a caller whom the gate grants
    the update of the group, however much it grants, is answered 400; a
    caller whom it denies is answered 404 through [http.NotFound], the
    gate being consulted before the body is read. *)
Theorem patchGroup_reserved_name
    (api : coderd.API) (r : httpmw.Request) (w : World DB)
    (group : database.Group.t) (req : codersdk.PatchGroupRequest.t) :
  httpmw.Value (httpmw.Ctx r) httpmw.groupParamContextKey
    = Some (httpmw.ValueGroup group) →
  httpmw.Body r = httpmw.PatchGroupBody req →
  codersdk.PatchGroupRequest.Name req ≠ "" →
  codersdk.PatchGroupRequest.Name req = AllUsersGroup →
  patchGroup api r w
  = (Written
       (if coderd.Authorize api r rbac.ActionUpdate (rbac.ObjectGroup group)
        then httpapi.Write http.StatusBadRequest
               (httpapi.message (Sprintf_q AllUsersGroup ++ " is a reserved group name!"))
        else http.NotFound),
     w).
Proof.
  intros Hgroup Hbody Hne Hname.
  unfold coderd.patchGroup, coderd.patchGroup_validate, httpmw.serve, bind,
    httpmw.GroupParam, coderd.Read.
  rewrite Hgroup. cbn.
  destruct (coderd.Authorize _ _ _ _); cbn; [|done].
  rewrite Hbody. cbn. by rewrite bool_decide_eq_true_2.
Qed.

(** C8, as the code has it. A delete request that targets the reserved
    group never reaches the store: a caller whom the gate grants the
    deletion is answered 400, a caller whom it denies is answered with the
    resource-not-found response. *)
Theorem deleteGroup_reserved
    (api : coderd.API) (r : httpmw.Request) (w : World DB)
    (group : database.Group.t) :
  httpmw.Value (httpmw.Ctx r) httpmw.groupParamContextKey
    = Some (httpmw.ValueGroup group) →
  database.Group.Name group = AllUsersGroup →
  deleteGroup api r w
  = (Written
       (if coderd.Authorize api r rbac.ActionDelete (rbac.ObjectGroup group)
        then httpapi.Write http.StatusBadRequest
               (httpapi.message
                  (Sprintf_q AllUsersGroup
                   ++ " is a reserved group and cannot be deleted!"))
        else httpapi.ResourceNotFound),
     w).
Proof.
  intros Hgroup Hname.
  unfold coderd.deleteGroup, httpmw.serve, bind, httpmw.GroupParam.
  rewrite Hgroup. cbn.
  destruct (coderd.Authorize _ _ _ _); cbn; [|done].
  by rewrite bool_decide_eq_true_2.
Qed.

(** What the three handlers of a resolved group answer to a caller whom the
    gate denies: the update handler writes through [http.NotFound], the
    read and the delete handler through [httpapi.ResourceNotFound]. *)
Lemma patchGroup_denied
    (api : coderd.API) (r : httpmw.Request) (w : World DB) (g : database.Group.t) :
  httpmw.Value (httpmw.Ctx r) httpmw.groupParamContextKey
    = Some (httpmw.ValueGroup g) →
  coderd.Authorize api r rbac.ActionUpdate (rbac.ObjectGroup g) = false →
  patchGroup api r w = (Written http.NotFound, w).
Proof.
  intros Hgroup Hauth. apply patchGroup_validate_fails.
  unfold coderd.patchGroup_validate, httpmw.GroupParam.
  by rewrite Hgroup, bind_ret_l, Hauth.
Qed.

Lemma group_denied
    (api : coderd.API) (r : httpmw.Request) (w : World DB) (g : database.Group.t) :
  httpmw.Value (httpmw.Ctx r) httpmw.groupParamContextKey
    = Some (httpmw.ValueGroup g) →
  coderd.Authorize api r rbac.ActionRead (rbac.ObjectGroup g) = false →
  coderd.group RoleByName api r w = (Written httpapi.ResourceNotFound, w).
Proof.
  intros Hgroup Hauth. unfold coderd.group, httpmw.serve, httpmw.GroupParam.
  by rewrite Hgroup, bind_ret_l, Hauth.
Qed.

Lemma deleteGroup_denied
    (api : coderd.API) (r : httpmw.Request) (w : World DB) (g : database.Group.t) :
  httpmw.Value (httpmw.Ctx r) httpmw.groupParamContextKey
    = Some (httpmw.ValueGroup g) →
  coderd.Authorize api r rbac.ActionDelete (rbac.ObjectGroup g) = false →
  deleteGroup api r w = (Written httpapi.ResourceNotFound, w).
Proof.
  intros Hgroup Hauth. unfold coderd.deleteGroup, httpmw.serve, httpmw.GroupParam.
  by rewrite Hgroup, bind_ret_l, Hauth.
Qed.

End HandlerProperties.

(** ** The handlers on the deployment of [scenario] *)

Lemma ExtractOrganizationMemberParam_context_witness :
  httpmw.ExtractOrganizationMemberParam scenario.extractUserContext
    scenario.whichMember scenario.memberOfAcme scenario.world
  = (Written (httpapi.Write http.StatusOK
                {| codersdk.Response.Message := "alice";
                   codersdk.Response.Detail := "https://acme.test/alice.png" |}),
     {| db := scenario.store;
        calls := [database.CallOrganizationMembers
                    {| database.OrganizationMembersParams.OrganizationID :=
                         scenario.id x0a;
                       database.OrganizationMembersParams.UserID :=
                         scenario.id x01 |}] |}).
Proof.
  edestruct (ExtractOrganizationMemberParam_context (DB := memdb.t)
               scenario.extractUserContext scenario.whichMember
               scenario.memberOfAcme scenario.world
               scenario.alice scenario.acme) as [Hrun _];
    [reflexivity | reflexivity | reflexivity |].
  rewrite Hrun. reflexivity.
Defined.

Lemma ExtractOrganizationParam_default_witness :
  httpmw.ExtractOrganizationParam scenario.whichOrganization
    scenario.defaultRoute scenario.world
  = (Written (httpapi.Write http.StatusOK (httpapi.message "acme")),
     {| db := scenario.store; calls := [database.CallGetDefaultOrganization] |}).
Proof.
  rewrite (ExtractOrganizationParam_default (DB := memdb.t)
             scenario.whichOrganization scenario.defaultRoute scenario.world);
    [reflexivity | left; reflexivity].
Defined.

Lemma ExtractGroupParam_chained_organization_witness :
  httpmw.URLParam scenario.infraRoute "organization" = "legacy"
  ∧ httpmw.ExtractGroupParam
      (httpmw.ExtractOrganizationParam scenario.whichOrganization)
      scenario.infraRoute scenario.world
    = (Written (httpapi.Write http.StatusOK (httpapi.message "acme")),
       {| db := scenario.store;
          calls := [database.CallGetGroupByID (scenario.id xe1);
                    database.CallGetOrganizationByID (scenario.id x0a)] |}).
Proof.
  split; [reflexivity|].
  edestruct (ExtractGroupParam_chained_organization (DB := memdb.t)
               scenario.whichOrganization scenario.infraRoute scenario.world
               (scenario.id xe1) scenario.infra) as [_ Hchain];
    [reflexivity | reflexivity | discriminate |].
  rewrite Hchain. reflexivity.
Defined.

(** The group "archive" is owned by the organization whose id is the
    all-zero UUID, "legacy"; yet the Organization Resolver chained after the
    Group Resolver resolves the default organization, "acme". *)
Lemma chained_organization_of_zero_owner :
  database.GetGroupByID (scenario.id xe3) scenario.store = Ok scenario.archive
  ∧ database.GetOrganizationByID (database.Group.OrganizationID scenario.archive)
      scenario.store = Ok scenario.legacy
  ∧ httpmw.ExtractGroupParam
      (httpmw.ExtractOrganizationParam scenario.whichOrganization)
      scenario.archiveRoute scenario.world
    = (Written (httpapi.Write http.StatusOK (httpapi.message "acme")),
       {| db := scenario.store;
          calls := [database.CallGetGroupByID (scenario.id xe3);
                    database.CallGetDefaultOrganization] |})
  ∧ database.Organization.ID scenario.acme
    ≠ database.Group.OrganizationID scenario.archive.
Proof. repeat split; (reflexivity || discriminate). Qed.

(** A group update that passes every check commits: the group is renamed
    and its roster, read back after the commit, holds the added member. *)
Example renameAndAdd_commits :
  let run :=
    coderd.patchGroup scenario.AllUsersGroup scenario.RoleByName scenario.api
      scenario.renameAndAdd scenario.world in
  (∃ body, run.1 = Written (httpapi.WriteGroup http.StatusOK body)
           ∧ codersdk.Group.Name body = "core"
           ∧ codersdk.User.Username <$> codersdk.Group.Members body = ["alice"])
  ∧ database.GetGroupByID (scenario.id xe1) (db run.2)
    = Ok (memdb.rename "core" scenario.infra)
  ∧ database.GetGroupMembers (scenario.id xe1) (db run.2) = Ok [scenario.alice].
Proof. split; [eexists; split; [reflexivity|] |]; repeat split. Qed.

Lemma patchGroup_failed_transaction_witness :
  (coderd.patchGroup scenario.AllUsersGroup scenario.RoleByName scenario.api
     scenario.addTwice scenario.world).1
  = Written (httpapi.Write http.StatusPreconditionFailed
               {| codersdk.Response.Message :=
                    "Cannot add the same user to a group twice!";
                  codersdk.Response.Detail :=
                    Error (wrapError
                             ("insert group member " ++ Sprintf_q scenario.aliceID)
                             (PqError "unique_violation")) |})
  ∧ db (coderd.patchGroup scenario.AllUsersGroup scenario.RoleByName scenario.api
          scenario.addTwice scenario.world).2
    = scenario.store.
Proof.
  edestruct (patchGroup_failed_transaction (DB := memdb.t)
               scenario.AllUsersGroup scenario.RoleByName scenario.api
               scenario.addTwice scenario.world) as (_ & Heq & _ & _);
    [lazy; reflexivity | lazy; reflexivity | |].
  - eapply (insert_fails (DB := memdb.t) scenario.infra
              (scenario.patchOf scenario.addTwice) _
              [scenario.aliceID] [] scenario.aliceID (scenario.id x01));
      [reflexivity | reflexivity | lazy; reflexivity | reflexivity].
  - rewrite Heq. split; reflexivity.
Defined.

(** Inside the transaction of that request the rename and the first insert
    had taken effect when the second insert failed. *)
Example addTwice_inside_transaction :
  let inside :=
    coderd.patchGroup_tx scenario.infra (scenario.patchOf scenario.addTwice)
      (logCall database.CallInTx scenario.world) in
  inside.1
  = inl (Failed (wrapError ("insert group member " ++ Sprintf_q scenario.aliceID)
                   (PqError "unique_violation")))
  ∧ database.Group.Name <$> memdb.groups (db inside.2)
    = ["Everyone"; "core"; "platform"; "archive"]
  ∧ length (memdb.group_members (db inside.2)) = 2.
Proof. repeat split. Qed.

Lemma patchGroup_nonmember_witness :
  coderd.patchGroup scenario.AllUsersGroup scenario.RoleByName scenario.api
    scenario.addAliceAndBob scenario.world
  = (Written (httpapi.Write http.StatusPreconditionFailed
                (httpapi.message
                   ("User " ++ Sprintf_q scenario.bobID
                    ++ " must be a member of organization "
                    ++ Sprintf_q (uuid.String (scenario.id xe1))))),
     {| db := scenario.store;
        calls := membershipCalls scenario.infra [scenario.aliceID; scenario.bobID] |}).
Proof.
  edestruct (patchGroup_nonmember (DB := memdb.t)
               scenario.AllUsersGroup scenario.RoleByName scenario.api
               scenario.addAliceAndBob scenario.world scenario.infra
               (scenario.patchOf scenario.addAliceAndBob)
               [scenario.aliceID] [] scenario.bobID (scenario.id x02) ErrNoRows)
    as [Heq _].
  - reflexivity.
  - reflexivity.
  - reflexivity.
  - intros [Hne _]. by apply Hne.
  - reflexivity.
  - repeat constructor.
  - reflexivity.
  - reflexivity.
  - reflexivity.
  - rewrite Heq. reflexivity.
Defined.

(** Bob is not a member of acme. A group update that adds a malformed id
    and then bob is answered 400, and so is one that adds bob and asks for
    the reserved name: neither is answered 412. *)
Lemma patchGroup_nonmember_answered_400 :
  uuid.Parse scenario.bobID = Some (scenario.id x02)
  ∧ database.GetOrganizationMemberByUserID
      (memberArg scenario.infra (scenario.id x02)) scenario.store = Err ErrNoRows
  ∧ coderd.patchGroup scenario.AllUsersGroup scenario.RoleByName scenario.api
      scenario.addMalformedAndBob scenario.world
    = (Written (httpapi.Write http.StatusBadRequest
                  (httpapi.message
                     ("ID " ++ Sprintf_q "not-a-uuid" ++ " must be a valid user UUID."))),
       scenario.world)
  ∧ coderd.patchGroup scenario.AllUsersGroup scenario.RoleByName scenario.api
      scenario.reservedAndBob scenario.world
    = (Written (httpapi.Write http.StatusBadRequest
                  (httpapi.message
                     (Sprintf_q scenario.AllUsersGroup ++ " is a reserved group name!"))),
       scenario.world)
  ∧ http.StatusBadRequest ≠ http.StatusPreconditionFailed.
Proof. repeat split; (reflexivity || discriminate). Qed.

Lemma patchGroup_reserved_name_witness :
  coderd.patchGroup scenario.AllUsersGroup scenario.RoleByName scenario.api
    scenario.renameToReserved scenario.world
  = (Written (httpapi.Write http.StatusBadRequest
                (httpapi.message
                   (Sprintf_q scenario.AllUsersGroup ++ " is a reserved group name!"))),
     scenario.world).
Proof.
  eapply (patchGroup_reserved_name (DB := memdb.t)
            scenario.AllUsersGroup scenario.RoleByName scenario.api
            scenario.renameToReserved scenario.world scenario.infra);
    [reflexivity | reflexivity | discriminate | reflexivity].
Defined.

(** A caller whom the gate denies the update asks for a rename to the
    reserved name: the answer is the plain 404 of [http.NotFound], not the
    client error 400. *)
Lemma patchGroup_reserved_name_denied :
  httpmw.Value (httpmw.Ctx cases.deniedRenameToReserved) httpmw.groupParamContextKey
    = Some (httpmw.ValueGroup scenario.infra)
  ∧ httpmw.Body cases.deniedRenameToReserved
    = httpmw.PatchGroupBody (scenario.patchOf cases.deniedRenameToReserved)
  ∧ codersdk.PatchGroupRequest.Name (scenario.patchOf cases.deniedRenameToReserved)
    = scenario.AllUsersGroup
  ∧ coderd.Authorize scenario.api cases.deniedRenameToReserved rbac.ActionUpdate
      (rbac.ObjectGroup scenario.infra) = false
  ∧ coderd.patchGroup scenario.AllUsersGroup scenario.RoleByName scenario.api
      cases.deniedRenameToReserved scenario.world
    = (Written http.NotFound, scenario.world)
  ∧ http.StatusCode http.NotFound ≠ http.StatusBadRequest.
Proof. repeat split; (reflexivity || discriminate). Qed.

Lemma deleteGroup_reserved_witness :
  coderd.deleteGroup scenario.AllUsersGroup scenario.api
    scenario.grantedDeleteEveryone scenario.world
  = (Written (httpapi.Write http.StatusBadRequest
                (httpapi.message
                   (Sprintf_q scenario.AllUsersGroup
                    ++ " is a reserved group and cannot be deleted!"))),
     scenario.world).
Proof.
  rewrite (deleteGroup_reserved (DB := memdb.t) scenario.AllUsersGroup
             scenario.api scenario.grantedDeleteEveryone scenario.world
             scenario.everyone);
    reflexivity.
Defined.

(** A caller whom the gate denies the deletion asks for the deletion of the
    reserved group: the answer is the resource-not-found response, status
    404, not the client error 400. *)
Lemma deleteGroup_reserved_denied :
  httpmw.Value (httpmw.Ctx scenario.deniedDeleteEveryone) httpmw.groupParamContextKey
    = Some (httpmw.ValueGroup scenario.everyone)
  ∧ database.Group.Name scenario.everyone = scenario.AllUsersGroup
  ∧ coderd.Authorize scenario.api scenario.deniedDeleteEveryone rbac.ActionDelete
      (rbac.ObjectGroup scenario.everyone) = false
  ∧ coderd.deleteGroup scenario.AllUsersGroup scenario.api
      scenario.deniedDeleteEveryone scenario.world
    = (Written httpapi.ResourceNotFound, scenario.world)
  ∧ http.StatusCode httpapi.ResourceNotFound ≠ http.StatusBadRequest.
Proof. repeat split; (reflexivity || discriminate). Qed.

Lemma patchGroup_nameCheck_lookup_witness :
  database.GetGroupByOrgAndName
    {| database.GetGroupByOrgAndNameParams.OrganizationID := scenario.id x0a;
       database.GetGroupByOrgAndNameParams.Name := "platform" |}
    scenario.degraded
  = Err (errorString "driver: bad connection")
  ∧ database.CallInTx
    ∈ calls (coderd.patchGroup scenario.AllUsersGroup scenario.RoleByName
               scenario.api scenario.renameToPlatform scenario.degradedWorld).2.
Proof.
  split; [reflexivity|].
  edestruct (patchGroup_nameCheck_lookup (DB := memdb.t)
               scenario.AllUsersGroup scenario.RoleByName scenario.api
               scenario.renameToPlatform scenario.degradedWorld) as [_ Herr];
    [lazy; reflexivity | discriminate |].
  edestruct Herr as (_ & Hin & _); [lazy; reflexivity | exact Hin].
Defined.

(** C7 at the update handler. A caller whom the gate denies the update of
    an existing group is answered by [http.NotFound], a plain-text body;
    the Group Resolver answers a route to a group that does not exist with
    the resource-not-found response, and so do the read and the delete
    handler when the gate denies the caller. The two answers share the
    status 404 and differ in their bodies. *)
Theorem patchGroup_denial_differs_from_absence :
  coderd.patchGroup scenario.AllUsersGroup scenario.RoleByName scenario.api
    scenario.deniedPatch scenario.world
  = (Written http.NotFound, scenario.world)
  ∧ (httpmw.ExtractGroupParam
       (coderd.patchGroup scenario.AllUsersGroup scenario.RoleByName scenario.api)
       scenario.absentRoute scenario.world).1
    = Written httpapi.ResourceNotFound
  ∧ coderd.group scenario.RoleByName scenario.api scenario.deniedGet scenario.world
    = (Written httpapi.ResourceNotFound, scenario.world)
  ∧ coderd.deleteGroup scenario.AllUsersGroup scenario.api
      scenario.deniedDelete scenario.world
    = (Written httpapi.ResourceNotFound, scenario.world)
  ∧ http.StatusCode http.NotFound = http.StatusCode httpapi.ResourceNotFound
  ∧ http.NotFound ≠ httpapi.ResourceNotFound.
Proof. repeat split; (reflexivity || discriminate). Qed.

(** * Further properties *)

(** ** The resolvers and their accessors *)

Section ResolverChains.

Context {DB : Type} `{!database.Store DB}.

Lemma Parse_empty : uuid.Parse "" = None.
Proof. reflexivity. Qed.

Lemma Parse_alias : uuid.Parse codersdk.DefaultOrganization = None.
Proof. reflexivity. Qed.


Lemma GroupParam_withGroup
    (r : httpmw.Request) (group : database.Group.t) (w : World DB) :
  httpmw.GroupParam (withGroup r group) w = (inr group, w).
Proof. unfold httpmw.GroupParam, withGroup. cbn. by rewrite decide_True. Qed.

(** X1. When the store holds the group, the Group Resolver hands on a request
    on which [GroupParam] yields exactly that group, whatever the context
    held before. *)
Theorem ExtractGroupParam_GroupParam
    (next : httpmw.Handler DB) (r : httpmw.Request) (w w' : World DB)
    (groupID : uuid.UUID) (group : database.Group.t) :
  uuid.Parse (httpmw.URLParam r "group") = Some groupID →
  database.GetGroupByID groupID (db w) = Ok group →
  httpmw.ExtractGroupParam next r w
  = next (withGroup r group) (logCall (database.CallGetGroupByID groupID) w)
  ∧ httpmw.GroupParam (withGroup r group) w' = (inr group, w').
Proof.
  intros Hparse Hgroup. split.
  - unfold httpmw.ExtractGroupParam, httpmw.serve, bind, httpmw.parseUUID.
    rewrite bool_decide_eq_false_2 by (intros E; by rewrite E in Hparse).
    rewrite Hparse. cbn. rewrite Hgroup.
    unfold httpmw.ServeHTTP. fold (withGroup r group). by destruct (next _ _).
  - apply GroupParam_withGroup.
Qed.

(** X2. When the lookup of the group fails, the Group Resolver answers itself
    and hands nothing on: the resource-not-found response for a no-rows
    error, also a wrapped one, and otherwise the 500 response that carries
    the text of the error. *)
Theorem ExtractGroupParam_lookup_failure
    (next : httpmw.Handler DB) (r : httpmw.Request) (w : World DB)
    (groupID : uuid.UUID) (err : error) :
  uuid.Parse (httpmw.URLParam r "group") = Some groupID →
  database.GetGroupByID groupID (db w) = Err err →
  httpmw.ExtractGroupParam next r w
  = (Written
       (if Is_ErrNoRows err then httpapi.ResourceNotFound
        else httpapi.Write http.StatusInternalServerError
               {| codersdk.Response.Message := "Internal error fetching group.";
                  codersdk.Response.Detail := Error err |}),
     logCall (database.CallGetGroupByID groupID) w).
Proof.
  intros Hparse Hgroup.
  unfold httpmw.ExtractGroupParam, httpmw.serve, bind, httpmw.parseUUID.
  rewrite bool_decide_eq_false_2 by (intros E; by rewrite E in Hparse).
  rewrite Hparse. cbn. rewrite Hgroup. by destruct (Is_ErrNoRows err).
Qed.

(** X3. An organization parameter that parses as a UUID and is not the
    canonical text of the all-zero UUID is looked up by id, and by nothing
    else: neither by name nor as the default organization. This holds for
    the other spellings of the all-zero UUID too. *)
Theorem ExtractOrganizationParam_by_id
    (next : httpmw.Handler DB) (r : httpmw.Request) (w : World DB)
    (id : uuid.UUID) :
  uuid.Parse (httpmw.URLParam r "organization") = Some id →
  httpmw.URLParam r "organization" ≠ uuid.String uuid.Nil →
  httpmw.ExtractOrganizationParam next r w
  = organizationResolved next r (database.GetOrganizationByID id (db w))
      (logCall (database.CallGetOrganizationByID id) w).
Proof.
  intros Hparse Hnil. unfold httpmw.ExtractOrganizationParam, httpmw.serve.
  rewrite bool_decide_eq_false_2
    by (intros E; rewrite E in Hparse; by rewrite Parse_empty in Hparse).
  rewrite bool_decide_eq_false_2; last first.
  { intros [E|E]; [|done]. rewrite E in Hparse. by rewrite Parse_alias in Hparse. }
  rewrite Hparse.
  unfold bind, query, organizationResolved, internalErrorFetchingOrganization.
  destruct (database.GetOrganizationByID id (db w)) as [organization|dbErr].
  - unfold httpmw.ServeHTTP. by destruct (next _ _).
  - by destruct (httpapi.Is404Error dbErr).
Qed.

(** X4. An organization parameter that is given, is not the reserved alias and
    does not parse as a UUID is looked up by name, and by nothing else. *)
Theorem ExtractOrganizationParam_by_name
    (next : httpmw.Handler DB) (r : httpmw.Request) (w : World DB) :
  let arg := httpmw.URLParam r "organization" in
  arg ≠ "" →
  arg ≠ codersdk.DefaultOrganization →
  uuid.Parse arg = None →
  httpmw.ExtractOrganizationParam next r w
  = organizationResolved next r (database.GetOrganizationByName arg (db w))
      (logCall (database.CallGetOrganizationByName arg) w).
Proof.
  intros arg Hgiven Halias Hparse.
  unfold httpmw.ExtractOrganizationParam, httpmw.serve. fold arg.
  rewrite (bool_decide_eq_false_2 _ Hgiven).
  rewrite bool_decide_eq_false_2; last first.
  { intros [E|E]; [done|]. rewrite E in Hparse.
    by rewrite uuid_Parse_String in Hparse. }
  rewrite Hparse.
  unfold bind, query, organizationResolved, internalErrorFetchingOrganization.
  fold arg.
  destruct (database.GetOrganizationByName arg (db w)) as [organization|dbErr].
  - unfold httpmw.ServeHTTP. by destruct (next _ _).
  - by destruct (httpapi.Is404Error dbErr).
Qed.


End ResolverChains.

(** ** How steps leave *)

Section Leaves.

Context {DB : Type} `{!database.Store DB}.

Lemma leaves_ret {E A : Type} (Q : E → Prop) (a : A) :
  leaves Q (ret a : Step DB E A).
Proof. intros w e w'. discriminate. Qed.

Lemma leaves_leave {E A : Type} (Q : E → Prop) (e : E) :
  Q e → leaves Q (leave e : Step DB E A).
Proof. intros HQ w e' w' [= <- _]. exact HQ. Qed.

Lemma leaves_bind {E A B : Type} (Q : E → Prop)
    (m : Step DB E A) (k : A → Step DB E B) :
  leaves Q m → (∀ a, leaves Q (k a)) → leaves Q (bind m k).
Proof.
  intros Hm Hk w e w'. unfold bind.
  destruct (m w) as [[e1|a] w1] eqn:Hmw.
  - intros [= <- <-]. by eapply Hm.
  - apply Hk.
Qed.

Lemma leaves_query {E A : Type} (Q : E → Prop)
    (c : database.Call) (q : DB → Result A) :
  leaves Q (query c q : Step DB E (Result A)).
Proof. intros w e w'. discriminate. Qed.

Lemma leaves_command {E A : Type} (Q : E → Prop)
    (c : database.Call) (q : DB → Result (A * DB)) :
  leaves Q (command c q : Step DB E (Result A)).
Proof. intros w e w'. unfold command. by destruct (q (db w)) as [[a d]|err]. Qed.

Lemma leaves_forEach {E A : Type} (Q : E → Prop)
    (xs : list A) (body : A → Step DB E unit) :
  Forall (λ x, leaves Q (body x)) xs → leaves Q (forEach xs body).
Proof.
  induction 1 as [|x xs Hx _ IH]; cbn; [apply leaves_ret|].
  apply leaves_bind; [apply Hx | intros _; apply IH].
Qed.

Lemma leaves_InTx {A : Type} (Q : Outcome → Prop) (function : Tx DB A) :
  leaves (λ a, match a with
               | Failed _ => True
               | Panicking msg => Q (Panicked msg)
               end) function →
  leaves Q (InTx function).
Proof.
  intros Hf w o w'. unfold InTx.
  destruct (function _) as [[[err|msg]|a] w1] eqn:Hrun; try discriminate.
  intros [= <- _]. exact (Hf _ _ _ Hrun).
Qed.

Lemma leaves_impl {E A : Type} (Q Q' : E → Prop) (m : Step DB E A) :
  (∀ e, Q e → Q' e) → leaves Q m → leaves Q' m.
Proof. intros HQ Hm w e w' Hrun. apply HQ. by eapply Hm. Qed.

(** An id that parses never makes [uuid.MustParse] panic. *)
Lemma orPanic_MustParse {E : Type} (raise : string → E) (id : string)
    (userID : uuid.UUID) :
  uuid.Parse id = Some userID →
  coderd.orPanic (DB := DB) raise (uuid.MustParse id) = ret userID.
Proof. intros Hparse. unfold uuid.MustParse. by rewrite Hparse. Qed.

Lemma failed_Failed (err : error) : failed (Failed err).
Proof. by exists err. Qed.

Lemma answersWith_Written (codes : list nat) (resp : http.Response) :
  http.StatusCode resp ∈ codes → answersWith codes (Written resp).
Proof. intros Hin. by exists resp. Qed.

Lemma answersWith_mono (codes codes' : list nat) (o : Outcome) :
  codes ⊆ codes' → answersWith codes o → answersWith codes' o.
Proof. intros Hsub (resp & -> & Hin). exists resp. split; [done|]. by apply Hsub. Qed.

Lemma answersWith_calm (codes : list nat) (o : Outcome) (msg : string) :
  answersWith codes o → o ≠ Panicked msg.
Proof. by intros (resp & -> & _). Qed.

End Leaves.

(** The shape of a handler decides how it leaves; what is left to show is
    that each response it writes is allowed. *)
Ltac step_leaves :=
  repeat first
    [ apply leaves_ret
    | apply leaves_query
    | apply leaves_command
    | apply leaves_bind; [|intros ?]
    | match goal with
      | |- leaves _ (match ?x with _ => _ end) => destruct x
      end ].

Ltac allowed_status :=
  first [ apply failed_Failed
        | apply answersWith_Written; apply (bool_decide_unpack _); by vm_compute ].

Ltac more_codes :=
  intros; eapply answersWith_mono; [|eassumption];
  apply (bool_decide_unpack _); by vm_compute.

(** ** The group update, step by step *)

Section UpdateSteps.

Context {DB : Type} `{!database.Store DB}.

Variable AllUsersGroup : string.
Variable RoleByName : string → rbac.Role.t.

Abbreviation patchGroup := (coderd.patchGroup AllUsersGroup RoleByName).
Abbreviation patchGroup_validate := (coderd.patchGroup_validate AllUsersGroup).

Lemma checkUser_passes (group : database.Group.t) (id : string) (w w' : World DB) :
  coderd.patchGroup_checkUser group id w = (inr tt, w') →
  isOrganizationMemberID (db w) group id = true.
Proof.
  unfold coderd.patchGroup_checkUser, isOrganizationMemberID, uuid.MustParse.
  destruct (uuid.Parse id) as [userID|]; [|discriminate].
  cbn. unfold bind, query. fold (memberArg group userID).
  destruct (database.GetOrganizationMemberByUserID _ _) as [member|err]; [done|].
  by destruct (Is_ErrNoRows err).
Qed.

Lemma forEach_checkUser_passes
    (group : database.Group.t) (ids : list string) (w w' : World DB) :
  forEach ids (coderd.patchGroup_checkUser group) w = (inr tt, w') →
  Forall (λ id, isOrganizationMemberID (db w) group id = true) ids.
Proof.
  revert w. induction ids as [|id ids IH]; intros w Hloop; [constructor|].
  cbn in Hloop. unfold bind in Hloop.
  destruct (coderd.patchGroup_checkUser group id w) as [[o|[]] w1] eqn:Hid;
    [discriminate|].
  pose proof (reads_checkUser group id w) as [Hdb _]. rewrite Hid in Hdb.
  constructor; [by eapply checkUser_passes|].
  cbn in Hdb. rewrite <- Hdb. by eapply IH.
Qed.

Lemma validate_inversion
    (api : coderd.API) (r : httpmw.Request) (w w1 : World DB)
    (group : database.Group.t) (req : codersdk.PatchGroupRequest.t) :
  patchGroup_validate api r w = (inr (group, req), w1) →
  httpmw.Value (httpmw.Ctx r) httpmw.groupParamContextKey
    = Some (httpmw.ValueGroup group)
  ∧ coderd.Authorize api r rbac.ActionUpdate (rbac.ObjectGroup group) = true
  ∧ httpmw.Body r = httpmw.PatchGroupBody req
  ∧ ¬ (codersdk.PatchGroupRequest.Name req ≠ ""
       ∧ codersdk.PatchGroupRequest.Name req = AllUsersGroup)
  ∧ Forall (λ id, isOrganizationMemberID (db w) group id = true) (userIDs req)
  ∧ w1 = {| db := db w;
            calls := (calls w ++ membershipCalls group (userIDs req))%list |}.
Proof.
  unfold coderd.patchGroup_validate, httpmw.GroupParam, coderd.Read, userIDs.
  destruct (httpmw.Value _ _) as [[organization|member|g]|]; try discriminate.
  rewrite bind_ret_l.
  destruct (coderd.Authorize _ _ _ _) eqn:Hauth; [|discriminate]. cbn [negb].
  destruct (httpmw.Body r) as [raw|req']; [discriminate|].
  rewrite bind_ret_l.
  destruct (bool_decide _) eqn:Hname; [discriminate|].
  apply bool_decide_eq_false in Hname.
  unfold bind.
  destruct (forEach _ _ w) as [[o|[]] w2] eqn:Hloop; [discriminate|].
  intros [= -> -> ->].
  pose proof (forEach_checkUser_passes _ _ _ _ Hloop) as Hall.
  rewrite (forEach_members _ _ _ Hall) in Hloop.
  injection Hloop as <-. by repeat split.
Qed.

Lemma validate_intro
    (api : coderd.API) (r : httpmw.Request) (w : World DB)
    (group : database.Group.t) (req : codersdk.PatchGroupRequest.t) :
  httpmw.Value (httpmw.Ctx r) httpmw.groupParamContextKey
    = Some (httpmw.ValueGroup group) →
  coderd.Authorize api r rbac.ActionUpdate (rbac.ObjectGroup group) = true →
  httpmw.Body r = httpmw.PatchGroupBody req →
  ¬ (codersdk.PatchGroupRequest.Name req ≠ ""
     ∧ codersdk.PatchGroupRequest.Name req = AllUsersGroup) →
  Forall (λ id, isOrganizationMemberID (db w) group id = true) (userIDs req) →
  patchGroup_validate api r w
  = (inr (group, req),
     {| db := db w;
        calls := (calls w ++ membershipCalls group (userIDs req))%list |}).
Proof.
  unfold coderd.patchGroup_validate, httpmw.GroupParam, coderd.Read, userIDs.
  intros -> Hauth Hbody Hname Hall.
  rewrite bind_ret_l, Hauth. cbn [negb]. rewrite Hbody, bind_ret_l.
  rewrite (bool_decide_eq_false_2 _ Hname).
  unfold bind. by rewrite (forEach_members _ _ _ Hall).
Qed.

(** X6. The validation of a group update passes exactly when the group is
    resolved, the gate grants the update, the body decodes, the name asked
    for is not the reserved one and every user id, added or removed, is
    the well-formed id of a member of the organization of the group. It
    then has made one membership lookup per id, in that order, and nothing
    else. *)
Theorem patchGroup_validate_passes
    (api : coderd.API) (r : httpmw.Request) (w w1 : World DB)
    (group : database.Group.t) (req : codersdk.PatchGroupRequest.t) :
  patchGroup_validate api r w = (inr (group, req), w1)
  ↔ httpmw.Value (httpmw.Ctx r) httpmw.groupParamContextKey
      = Some (httpmw.ValueGroup group)
    ∧ coderd.Authorize api r rbac.ActionUpdate (rbac.ObjectGroup group) = true
    ∧ httpmw.Body r = httpmw.PatchGroupBody req
    ∧ ¬ (codersdk.PatchGroupRequest.Name req ≠ ""
         ∧ codersdk.PatchGroupRequest.Name req = AllUsersGroup)
    ∧ Forall (λ id, isOrganizationMemberID (db w) group id = true) (userIDs req)
    ∧ w1 = {| db := db w;
              calls := (calls w ++ membershipCalls group (userIDs req))%list |}.
Proof.
  split; [apply validate_inversion|].
  intros (Hgroup & Hauth & Hbody & Hname & Hall & ->).
  by apply validate_intro.
Qed.

(** X7. A group update that names, among its added or removed users, an id
    that is malformed or that the store does not know as a member of the
    organization never reaches the atomic section, whatever else the
    request holds: the store is left as it is and no transaction is
    opened. *)
Theorem patchGroup_bad_id_never_mutates
    (api : coderd.API) (r : httpmw.Request) (w : World DB)
    (req : codersdk.PatchGroupRequest.t) (group : database.Group.t) (id : string) :
  httpmw.Value (httpmw.Ctx r) httpmw.groupParamContextKey
    = Some (httpmw.ValueGroup group) →
  httpmw.Body r = httpmw.PatchGroupBody req →
  id ∈ userIDs req →
  isOrganizationMemberID (db w) group id = false →
  db (patchGroup api r w).2 = db w
  ∧ ∃ l, calls (patchGroup api r w).2 = (calls w ++ l)%list
         ∧ database.CallInTx ∉ l.
Proof.
  intros Hgroup Hbody Hin Hbad.
  pose proof (reads_validate AllUsersGroup api r w) as Hreads.
  destruct (patchGroup_validate api r w) as [[o|[group' req']] w1] eqn:Hv.
  - by rewrite (patchGroup_validate_fails _ _ _ _ _ _ _ Hv).
  - exfalso.
    apply validate_inversion in Hv as (Hgroup' & _ & Hbody' & _ & Hall & _).
    rewrite Hgroup in Hgroup'. rewrite Hbody in Hbody'.
    injection Hgroup' as <-. injection Hbody' as <-.
    rewrite Forall_forall in Hall. specialize (Hall id Hin). congruence.
Qed.

Lemma forEach_inr_calls (ids : list string)
    (body : string → Tx DB unit) (call : uuid.UUID → database.Call) (w w' : World DB) :
  (∀ id w0 w1, body id w0 = (inr tt, w1) →
     ∃ userID, uuid.Parse id = Some userID
               ∧ calls w1 = (calls w0 ++ [call userID])%list) →
  forEach ids body w = (inr tt, w') →
  ∃ userIDs, mapM uuid.Parse ids = Some userIDs
             ∧ calls w' = (calls w ++ (call <$> userIDs))%list.
Proof.
  intros Hbody. revert w. induction ids as [|id ids IH]; intros w Hloop.
  - injection Hloop as <-. exists []. by rewrite app_nil_r.
  - cbn in Hloop. unfold bind in Hloop.
    destruct (body id w) as [[a|[]] w1] eqn:Hid; [discriminate|].
    destruct (Hbody _ _ _ Hid) as (userID & Hparse & Hcalls).
    destruct (IH _ Hloop) as (rest & Hrest & Hcalls').
    exists (userID :: rest). split.
    + cbn. rewrite Hparse. cbn. by rewrite Hrest.
    + rewrite Hcalls', Hcalls. by rewrite <- app_assoc.
Qed.

(** X8. When the function run in the transaction of a group update succeeds,
    every added and every removed id parses, and the commands it has issued
    are, in this order: the rename if a name is given, one insert per added
    user into the group as the rename returned it, one delete per removed
    user, by the id of the user alone. Without a name the group is the one
    it started from. *)
Theorem patchGroup_tx_calls
    (group group' : database.Group.t) (req : codersdk.PatchGroupRequest.t)
    (w w' : World DB) :
  coderd.patchGroup_tx group req w = (inr group', w') →
  ∃ adds removes,
    mapM uuid.Parse (codersdk.PatchGroupRequest.AddUsers req) = Some adds
    ∧ mapM uuid.Parse (codersdk.PatchGroupRequest.RemoveUsers req) = Some removes
    ∧ calls w' = (calls w ++ txCalls group group' req adds removes)%list
    ∧ (codersdk.PatchGroupRequest.Name req = "" → group' = group).
Proof.
  unfold coderd.patchGroup_tx, txCalls. intros Htx.
  unfold bind at 1 in Htx.
  match type of Htx with
  | context [?m w] =>
      match m with
      | (if _ then _ else _) => destruct (m w) as [[a|g1] w1] eqn:Hrename
      end
  end; [discriminate|].
  unfold bind at 1 in Htx.
  destruct (forEach (codersdk.PatchGroupRequest.AddUsers req) _ w1)
    as [[a|[]] w2] eqn:Hadd; [discriminate|].
  unfold bind at 1 in Htx.
  destruct (forEach (codersdk.PatchGroupRequest.RemoveUsers req) _ w2)
    as [[a|[]] w3] eqn:Hremove; [discriminate|].
  injection Htx as <- <-.
  eapply forEach_inr_calls in Hadd as (adds & Hadds & Hcalls2).
  2: { intros id w0 w4. unfold bind, uuid.MustParse, command.
       destruct (uuid.Parse id) as [userID|]; [|discriminate]. cbn.
       destruct (database.InsertGroupMember _ _) as [[[] d]|err]; [|discriminate].
       intros [= <-]. by exists userID. }
  eapply forEach_inr_calls in Hremove as (removes & Hremoves & Hcalls3).
  2: { intros id w0 w4. unfold bind, uuid.MustParse, command.
       destruct (uuid.Parse id) as [userID|]; [|discriminate]. cbn.
       destruct (database.DeleteGroupMember _ _) as [[[] d]|err]; [|discriminate].
       intros [= <-]. by exists userID. }
  exists adds, removes. split; [done|]. split; [done|].
  rewrite Hcalls3, Hcalls2.
  destruct (bool_decide _) eqn:Hname.
  - unfold bind, command in Hrename.
    destruct (database.UpdateGroupByID _ _) as [[g d]|err]; [|discriminate].
    injection Hrename as <- <-. cbn [calls].
    split; [by rewrite <- !app_assoc|].
    apply bool_decide_eq_true in Hname. done.
  - injection Hrename as <- <-. by rewrite <- !app_assoc.
Qed.

(** X9. The function run in the transaction of a group update fails with
    an error exactly when a command of the store fails in its run: the
    rename, the insert of an added user or the delete of a removed one.
    Its error is then the error of the store, wrapped under the heading
    "update group by ID" for the rename and "insert group member" with
    the quoted id for an insert. The failed delete of a removed user is
    reported as well, under the heading of the insert. *)
Theorem patchGroup_tx_failure
    (group : database.Group.t) (req : codersdk.PatchGroupRequest.t)
    (w : World DB) :
  (∀ err w',
     coderd.patchGroup_tx group req w = (inl (Failed err), w')
     ↔ ∃ point cause,
         storeFailure group req w point cause w'
         ∧ err = wrapError (headingOf point) cause)
  ∧ (∀ done rest id userID group' w' cause,
       codersdk.PatchGroupRequest.RemoveUsers req = (done ++ id :: rest)%list →
       uuid.Parse id = Some userID →
       coderd.patchGroup_tx group
         (upTo req (codersdk.PatchGroupRequest.AddUsers req) done) w
         = (inr group', w') →
       database.DeleteGroupMember userID (db w') = Err cause →
       coderd.patchGroup_tx group req w
       = (inl (Failed (wrapError ("insert group member " ++ Sprintf_q id) cause)),
          logCall (database.CallDeleteGroupMember userID) w')).
Proof.
  split.
  - intros err w'. split; [apply tx_storeFailure|].
    intros (point & cause & Hfailure & ->). by apply storeFailure_tx.
  - intros done rest id userID group' w' cause Hsplit Hparse Hrun Hdelete.
    apply (storeFailure_tx group req w _ (AtDelete id) cause).
    by eapply delete_fails.
Qed.

Lemma checkUser_leaves (group : database.Group.t) (id : string) :
  leaves (answersWith [400; 412; 500])
    (coderd.patchGroup_checkUser (DB := DB) group id).
Proof.
  unfold coderd.patchGroup_checkUser.
  destruct (uuid.Parse id) as [userID|] eqn:Hparse;
    [|apply leaves_leave; allowed_status].
  rewrite (orPanic_MustParse _ _ _ Hparse).
  step_leaves; apply leaves_leave; allowed_status.
Qed.

Lemma validate_leaves (api : coderd.API) (r : httpmw.Request)
    (group : database.Group.t) :
  httpmw.Value (httpmw.Ctx r) httpmw.groupParamContextKey
    = Some (httpmw.ValueGroup group) →
  leaves (answersWith [400; 404; 412; 500]) (patchGroup_validate api r).
Proof.
  intros Hgroup.
  unfold coderd.patchGroup_validate, httpmw.GroupParam, coderd.Read.
  rewrite Hgroup. step_leaves; try (apply leaves_leave; allowed_status).
  apply leaves_forEach, Forall_forall. intros id _.
  eapply leaves_impl; [|apply checkUser_leaves].
  more_codes.
Qed.

Lemma nameCheck_leaves (group : database.Group.t) (req : codersdk.PatchGroupRequest.t) :
  leaves (answersWith [409]) (coderd.patchGroup_nameCheck (DB := DB) group req).
Proof.
  unfold coderd.patchGroup_nameCheck.
  step_leaves; apply leaves_leave; allowed_status.
Qed.

Lemma member_id_parses (d : DB) (group : database.Group.t) (id : string) :
  isOrganizationMemberID d group id = true → is_Some (uuid.Parse id).
Proof. unfold isOrganizationMemberID. by destruct (uuid.Parse id). Qed.

Lemma tx_fails (group : database.Group.t) (req : codersdk.PatchGroupRequest.t) :
  Forall (λ id, is_Some (uuid.Parse id)) (userIDs req) →
  leaves failed (coderd.patchGroup_tx (DB := DB) group req).
Proof.
  unfold userIDs. rewrite Forall_app. intros [Hadd Hremove].
  unfold coderd.patchGroup_tx.
  apply leaves_bind; [step_leaves; apply leaves_leave; allowed_status|].
  intros g.
  apply leaves_bind; [|intros _; apply leaves_bind; [|intros; apply leaves_ret]].
  - apply leaves_forEach. eapply Forall_impl; [exact Hadd|].
    intros id [userID Hparse]. cbn beta.
    rewrite (orPanic_MustParse _ _ _ Hparse).
    step_leaves; apply leaves_leave; allowed_status.
  - apply leaves_forEach. eapply Forall_impl; [exact Hremove|].
    intros id [userID Hparse]. cbn beta.
    rewrite (orPanic_MustParse _ _ _ Hparse).
    step_leaves; apply leaves_leave; allowed_status.
Qed.

Lemma atomic_leaves (group : database.Group.t) (req : codersdk.PatchGroupRequest.t) :
  leaves failed (coderd.patchGroup_tx (DB := DB) group req) →
  leaves (answersWith [200; 412; 500]) (patchGroup_atomic RoleByName group req).
Proof.
  intros Hfails. unfold patchGroup_atomic, coderd.patchGroup_respond.
  apply leaves_bind.
  - apply leaves_InTx. eapply leaves_impl; [|exact Hfails].
    by intros a (err & ->).
  - intros res. step_leaves; apply leaves_leave; allowed_status.
Qed.

Lemma serve_leaves (Q : Outcome → Prop) (body : Exec DB Empty_set) (w : World DB) :
  leaves Q body → Q (httpmw.serve body w).1.
Proof.
  intros Hbody. unfold httpmw.serve.
  destruct (body w) as [[o|[]] w'] eqn:Hrun. by eapply Hbody.
Qed.

(** Once the group is resolved the update handler always answers, and with
    one of six status codes. *)
Lemma patchGroup_answers (api : coderd.API) (r : httpmw.Request) (w : World DB)
    (group : database.Group.t) :
  httpmw.Value (httpmw.Ctx r) httpmw.groupParamContextKey
    = Some (httpmw.ValueGroup group) →
  answersWith [200; 400; 404; 409; 412; 500] (patchGroup api r w).1.
Proof.
  intros Hgroup.
  destruct (patchGroup_validate api r w) as [[o|[group' req]] w1] eqn:Hv.
  - rewrite (patchGroup_validate_fails _ _ _ _ _ _ _ Hv). cbn.
    generalize (validate_leaves api r group Hgroup _ _ _ Hv). more_codes.
  - rewrite (patchGroup_after_validate _ _ _ _ _ _ _ _ Hv).
    apply validate_inversion in Hv as (_ & _ & _ & _ & Hall & _).
    apply serve_leaves, leaves_bind.
    + eapply leaves_impl; [|apply nameCheck_leaves].
      more_codes.
    + intros _. eapply leaves_impl; [|apply atomic_leaves, tx_fails].
      * more_codes.
      * eapply Forall_impl; [exact Hall|]. intros id. apply member_id_parses.
Qed.

(** X10. Once the transaction of a group update is committed, the handler reads
    the roster back from the committed store and answers with it; when that
    read fails the answer is 500 and the store keeps what the transaction
    did. *)
Theorem patchGroup_after_commit
    (api : coderd.API) (r : httpmw.Request) (w w1 w2 w3 : World DB)
    (group group' : database.Group.t) (req : codersdk.PatchGroupRequest.t) :
  patchGroup_validate api r w = (inr (group, req), w1) →
  coderd.patchGroup_nameCheck group req w1 = (inr tt, w2) →
  coderd.patchGroup_tx group req (logCall database.CallInTx w2) = (inr group', w3) →
  patchGroup api r w
  = (Written (patchGroup_committed RoleByName group'
                (database.GetGroupMembers (database.Group.ID group') (db w3))),
     logCall (database.CallGetGroupMembers (database.Group.ID group')) w3).
Proof.
  intros Hv Hn Htx.
  rewrite (patchGroup_after_validate _ _ _ _ _ _ _ _ Hv).
  unfold httpmw.serve. rewrite (bind_eq_inr _ _ _ _ _ Hn).
  unfold patchGroup_atomic, bind, InTx. rewrite Htx. cbn.
  unfold bind, query, patchGroup_committed.
  by destruct (database.GetGroupMembers _ _).
Qed.

(** X11. The update handler answers 200 only on one path: the validation
    passed, the name asked for was not found taken, the function run in the
    transaction succeeded and the roster was read back after it. The body
    is then the group as the transaction returned it, with the roster of
    the store the transaction left. *)
Theorem patchGroup_success
    (api : coderd.API) (r : httpmw.Request) (w w' : World DB)
    (resp : http.Response) :
  patchGroup api r w = (Written resp, w') →
  http.StatusCode resp = http.StatusOK →
  ∃ group req group' w1 w2 w3 members,
    patchGroup_validate api r w = (inr (group, req), w1)
    ∧ coderd.patchGroup_nameCheck group req w1 = (inr tt, w2)
    ∧ coderd.patchGroup_tx group req (logCall database.CallInTx w2)
      = (inr group', w3)
    ∧ database.GetGroupMembers (database.Group.ID group') (db w3) = Ok members
    ∧ resp = httpapi.WriteGroup http.StatusOK
               (coderd.convertGroup RoleByName group' members)
    ∧ w' = logCall (database.CallGetGroupMembers (database.Group.ID group')) w3.
Proof.
  intros Hrun Hstatus.
  assert (∀ codes o, answersWith codes o → o = Written resp →
                     http.StatusOK ∈ codes) as Hamong.
  { intros codes o (resp' & -> & Hin) [= ->]. by rewrite <- Hstatus. }
  assert (∀ codes : list nat,
            http.StatusOK ∈ codes → bool_decide (200 ∈ codes) = true)
    as Hdecide by (intros codes Hin; by apply bool_decide_eq_true_2).
  destruct (patchGroup_validate api r w) as [[o|[group req]] w1] eqn:Hv.
  - exfalso. rewrite (patchGroup_validate_fails _ _ _ _ _ _ _ Hv) in Hrun.
    injection Hrun as -> ->.
    destruct (httpmw.Value (httpmw.Ctx r) httpmw.groupParamContextKey)
      as [[organization|member|g]|] eqn:Hgroup;
      try (unfold coderd.patchGroup_validate, httpmw.GroupParam in Hv;
           rewrite Hgroup in Hv; discriminate).
    pose proof (Hamong _ _ (validate_leaves api r g Hgroup _ _ _ Hv) eq_refl) as Hin.
    apply Hdecide in Hin. by vm_compute in Hin.
  - rewrite (patchGroup_after_validate _ _ _ _ _ _ _ _ Hv) in Hrun.
    unfold httpmw.serve, bind in Hrun.
    destruct (coderd.patchGroup_nameCheck group req w1) as [[o|[]] w2] eqn:Hn.
    { exfalso. injection Hrun as -> ->.
      pose proof (Hamong _ _ (nameCheck_leaves group req _ _ _ Hn) eq_refl) as Hin.
      apply Hdecide in Hin. by vm_compute in Hin. }
    unfold patchGroup_atomic, bind, InTx in Hrun.
    destruct (coderd.patchGroup_tx group req (logCall database.CallInTx w2))
      as [[[err|msg]|group'] w3] eqn:Htx.
    + exfalso. cbn in Hrun.
      destruct (database.IsUniqueViolation err); [|destruct (Is_ErrNoRows err)];
        injection Hrun as <- <-; discriminate.
    + discriminate.
    + cbn in Hrun. unfold bind, query in Hrun.
      destruct (database.GetGroupMembers _ _) as [members|err] eqn:Hmembers.
      * injection Hrun as <- <-.
        by exists group, req, group', w1, w2, w3, members.
      * exfalso. injection Hrun as <- <-. discriminate.
Qed.

(** X12. A group update that asks for nothing (no name, no user) is not
    rejected: for a caller whom the gate grants the update it opens a
    transaction that issues no command, leaves the store as it is and
    answers with the group and its roster as stored. The name is not looked
    up. *)
Theorem patchGroup_empty_update
    (api : coderd.API) (r : httpmw.Request) (w : World DB)
    (group : database.Group.t) :
  httpmw.Value (httpmw.Ctx r) httpmw.groupParamContextKey
    = Some (httpmw.ValueGroup group) →
  coderd.Authorize api r rbac.ActionUpdate (rbac.ObjectGroup group) = true →
  httpmw.Body r
  = httpmw.PatchGroupBody
      {| codersdk.PatchGroupRequest.AddUsers := [];
         codersdk.PatchGroupRequest.RemoveUsers := [];
         codersdk.PatchGroupRequest.Name := "" |} →
  patchGroup api r w
  = (Written (patchGroup_committed RoleByName group
                (database.GetGroupMembers (database.Group.ID group) (db w))),
     {| db := db w;
        calls := (calls w ++ [database.CallInTx;
                              database.CallGetGroupMembers (database.Group.ID group)])%list |}).
Proof.
  intros Hgroup Hauth Hbody.
  rewrite (patchGroup_after_validate _ _ _ _ _ _ _ _
             (validate_intro api r w group _ Hgroup Hauth Hbody
                ltac:(cbn; tauto) ltac:(constructor))).
  unfold httpmw.serve, coderd.patchGroup_nameCheck, patchGroup_atomic, InTx,
    coderd.patchGroup_tx.
  cbn [codersdk.PatchGroupRequest.Name codersdk.PatchGroupRequest.AddUsers
       codersdk.PatchGroupRequest.RemoveUsers].
  rewrite !(bool_decide_eq_false_2 ("" ≠ "")) by (intros Hne; by apply Hne).
  unfold bind, query, patchGroup_committed, userIDs. cbn.
  rewrite app_nil_r.
  destruct (database.GetGroupMembers _ _); unfold reply, leave, logCall; cbn;
    by rewrite <- app_assoc.
Qed.

End UpdateSteps.

(** ** The group routes *)

Section GroupRoutes.

Context {DB : Type} `{!database.Store DB}.

Variable AllUsersGroup : string.
Variable RoleByName : string → rbac.Role.t.

Abbreviation patchGroup := (coderd.patchGroup AllUsersGroup RoleByName).
Abbreviation deleteGroup := (coderd.deleteGroup AllUsersGroup).
Abbreviation group := (coderd.group RoleByName).

Lemma ExtractGroupParam_answers (codes : list nat) (next : httpmw.Handler DB) :
  [400; 404; 500] ⊆ codes →
  (∀ r w g,
     httpmw.Value (httpmw.Ctx r) httpmw.groupParamContextKey
       = Some (httpmw.ValueGroup g) →
     answersWith codes (next r w).1) →
  ∀ r w, answersWith codes (httpmw.ExtractGroupParam next r w).1.
Proof.
  intros Hcodes Hnext r w.
  assert (∀ resp, http.StatusCode resp ∈ [400; 404; 500] →
                  answersWith codes (Written resp)) as Hown.
  { intros resp Hin. by apply answersWith_Written, Hcodes. }
  unfold httpmw.ExtractGroupParam, httpmw.serve, bind, httpmw.parseUUID.
  destruct (bool_decide _);
    [apply Hown, (bool_decide_unpack _); by vm_compute|].
  destruct (uuid.Parse _) as [groupID|];
    [|apply Hown, (bool_decide_unpack _); by vm_compute].
  cbn. destruct (database.GetGroupByID _ _) as [g|err].
  - unfold httpmw.ServeHTTP. fold (withGroup r g).
    match goal with |- context [next ?r' ?w'] =>
      specialize (Hnext r' w' g); destruct (next r' w')
    end.
    apply Hnext. cbn. by rewrite decide_True.
  - destruct (Is_ErrNoRows err);
      apply Hown, (bool_decide_unpack _); by vm_compute.
Qed.

Lemma deleteGroup_answers (api : coderd.API) (r : httpmw.Request) (w : World DB)
    (g : database.Group.t) :
  httpmw.Value (httpmw.Ctx r) httpmw.groupParamContextKey
    = Some (httpmw.ValueGroup g) →
  answersWith [200; 400; 404; 500] (deleteGroup api r w).1.
Proof.
  intros Hgroup. unfold coderd.deleteGroup. apply serve_leaves.
  unfold httpmw.GroupParam. rewrite Hgroup.
  step_leaves; apply leaves_leave; allowed_status.
Qed.

Lemma group_answers (api : coderd.API) (r : httpmw.Request) (w : World DB)
    (g : database.Group.t) :
  httpmw.Value (httpmw.Ctx r) httpmw.groupParamContextKey
    = Some (httpmw.ValueGroup g) →
  answersWith [200; 404; 500] (group api r w).1.
Proof.
  intros Hgroup. unfold coderd.group. apply serve_leaves.
  unfold httpmw.GroupParam. rewrite Hgroup.
  step_leaves; apply leaves_leave; allowed_status.
Qed.

(** X13. Behind the Group Resolver each of the three group routes always writes
    a response: none panics, whatever the request and the store, since the
    accessor finds the group and the update handler reaches
    [uuid.MustParse] only for ids that parse. The status of the response is
    200, 400, 404 or 500, and for the update route also 409 or 412. *)
Theorem group_routes_answer (api : coderd.API) (r : httpmw.Request) (w : World DB) :
  answersWith [200; 400; 404; 409; 412; 500]
    (httpmw.ExtractGroupParam (patchGroup api) r w).1
  ∧ answersWith [200; 400; 404; 500]
      (httpmw.ExtractGroupParam (deleteGroup api) r w).1
  ∧ answersWith [200; 400; 404; 500]
      (httpmw.ExtractGroupParam (group api) r w).1.
Proof.
  repeat split; apply ExtractGroupParam_answers;
    try (apply (bool_decide_unpack _); by vm_compute);
    intros r' w' g Hgroup.
  - by eapply patchGroup_answers.
  - by eapply deleteGroup_answers.
  - generalize (group_answers api r' w' g Hgroup). more_codes.
Qed.

(** X14. Without the Group Resolver before them the three group handlers panic
    with the developer error of the accessor, before the gate or the store
    is consulted. *)
Theorem group_handlers_need_resolver
    (api : coderd.API) (r : httpmw.Request) (w : World DB) :
  httpmw.Value (httpmw.Ctx r) httpmw.groupParamContextKey = None →
  let developerError :=
    Panicked "developer error: group param middleware not provided" in
  patchGroup api r w = (developerError, w)
  ∧ deleteGroup api r w = (developerError, w)
  ∧ group api r w = (developerError, w).
Proof.
  intros Hnone.
  unfold coderd.patchGroup, coderd.patchGroup_validate, coderd.deleteGroup,
    coderd.group, httpmw.serve, httpmw.GroupParam.
  by rewrite Hnone.
Qed.

(** X15. The delete handler deletes in one case, and in that case only.
    When the group is resolved, the gate grants the deletion, the group is
    not the reserved one and the store deletes it, the handler has made
    that one call, the store is the one the deletion left and the answer
    is the 200 response. In every other case the store is as the request
    found it and the answer, if any, is not a 200. *)
Theorem deleteGroup_mutation
    (api : coderd.API) (r : httpmw.Request) (w : World DB) :
  let deletes (g : database.Group.t) (d : DB) :=
    httpmw.Value (httpmw.Ctx r) httpmw.groupParamContextKey
      = Some (httpmw.ValueGroup g)
    ∧ coderd.Authorize api r rbac.ActionDelete (rbac.ObjectGroup g) = true
    ∧ database.Group.Name g ≠ AllUsersGroup
    ∧ database.DeleteGroupByID (database.Group.ID g) (db w) = Ok (tt, d) in
  (∀ g d,
     deletes g d →
     deleteGroup api r w
     = (Written (httpapi.Write http.StatusOK
                   (httpapi.message "Successfully deleted group!")),
        {| db := d;
           calls := (calls w ++ [database.CallDeleteGroupByID
                                   (database.Group.ID g)])%list |}))
  ∧ ((∀ g d, ¬ deletes g d) →
     db (deleteGroup api r w).2 = db w
     ∧ ∀ resp, (deleteGroup api r w).1 = Written resp →
               http.StatusCode resp ≠ http.StatusOK).
Proof.
  intros deletes. split.
  - intros g d (Hgroup & Hauth & Hname & Hdelete).
    unfold coderd.deleteGroup, httpmw.serve, httpmw.GroupParam.
    rewrite Hgroup, bind_ret_l, Hauth. cbn [negb].
    rewrite (bool_decide_eq_false_2 _ Hname).
    unfold bind, command. by rewrite Hdelete.
  - intros Hnone.
    unfold coderd.deleteGroup, httpmw.serve, httpmw.GroupParam.
    destruct (httpmw.Value _ _) as [[organization|member|g]|] eqn:Hgroup;
      try (split; [done|discriminate]).
    rewrite bind_ret_l.
    destruct (coderd.Authorize _ _ _ _) eqn:Hauth; cbn [negb];
      [|split; [done|intros resp [= <-]; discriminate]].
    destruct (bool_decide _) eqn:Hname;
      [split; [done|intros resp [= <-]; discriminate]|].
    apply bool_decide_eq_false in Hname.
    unfold bind, command.
    destruct (database.DeleteGroupByID _ _) as [[[] d]|err] eqn:Hdelete.
    + by destruct (Hnone g d).
    + split; [done|intros resp [= <-]; discriminate].
Qed.

(** X16. A roster query that reports no rows is not an error for the read
    handler, which answers 200 with an empty roster; the re-read of the
    update handler and the loop of the list handler answer 500 for it. *)
Theorem roster_no_rows
    (api : coderd.API) (r : httpmw.Request) (w : World DB)
    (g : database.Group.t) (err : error) :
  httpmw.Value (httpmw.Ctx r) httpmw.groupParamContextKey
    = Some (httpmw.ValueGroup g) →
  coderd.Authorize api r rbac.ActionRead (rbac.ObjectGroup g) = true →
  database.GetGroupMembers (database.Group.ID g) (db w) = Err err →
  Is_ErrNoRows err = true →
  let w' := logCall (database.CallGetGroupMembers (database.Group.ID g)) w in
  group api r w
  = (Written (httpapi.WriteGroup http.StatusOK (coderd.convertGroup RoleByName g [])),
     w')
  ∧ httpmw.serve (coderd.patchGroup_respond RoleByName (Ok g)) w
    = (Written (httpapi.InternalServerError err), w')
  ∧ groups.groups_members RoleByName [g] [] w
    = (inl (Written (httpapi.InternalServerError err)), w').
Proof.
  intros Hgroup Hauth Hmembers Hno w'. repeat split.
  - unfold coderd.group, httpmw.serve, httpmw.GroupParam.
    rewrite Hgroup, bind_ret_l, Hauth. cbn [negb].
    unfold bind, query. by rewrite Hmembers, Hno.
  - unfold httpmw.serve, coderd.patchGroup_respond, bind, query.
    by rewrite Hmembers.
  - cbn. unfold bind, query. by rewrite Hmembers.
Qed.

(** X17. The group response lists exactly the users handed to [convertGroup],
    each once and in their order, every one with the owning organization
    of the group as its only organization; the group keeps its id, name and
    organization. *)
Theorem convertGroup_members
    (g : database.Group.t) (users : list database.User.t) :
  coderd.convertGroup RoleByName g users
  = {| codersdk.Group.ID := database.Group.ID g;
       codersdk.Group.Name := database.Group.Name g;
       codersdk.Group.OrganizationID := database.Group.OrganizationID g;
       codersdk.Group.Members :=
         (λ u, coderd.convertUser RoleByName u [database.Group.OrganizationID g])
           <$> users |}.
Proof.
  unfold coderd.convertGroup, coderd.convertUsers. f_equal.
  apply Forall_fmap_ext_1, Forall_forall. intros u Hu. cbn.
  rewrite convertGroup_orgs_lookup; [done | by left |].
  intros k v. by rewrite lookup_empty.
Qed.

End GroupRoutes.

(** ** The create and the list handler *)

Section CreateAndList.

Context {DB : Type} `{!database.Store DB} `{!groups.Store DB}.

Variable AllUsersGroup : string.
Variable RoleByName : string → rbac.Role.t.
Variable AuthorizeCreate : httpmw.Request → bool.
Variable Read : httpmw.Request → http.Response + groups.CreateGroupRequest.t.
Variable New : uuid.UUID.
Variable AuthorizeFilter :
  httpmw.Request → rbac.Action → list database.Group.t → Result (list database.Group.t).

Abbreviation postGroupByOrganization :=
  (groups.postGroupByOrganization AllUsersGroup RoleByName AuthorizeCreate Read New).
Abbreviation groups_members := (groups.groups_members RoleByName).
Abbreviation listGroups := (groups.groups RoleByName AuthorizeFilter).

(** X18. A request to create a group under the reserved name inserts
    nothing and leaves the world as it is: a caller whom the gate grants
    the creation is answered 400, a caller whom it denies is answered 404
    through [http.NotFound], before the body is read. *)
Theorem postGroupByOrganization_reserved
    (r : httpmw.Request) (w : World DB)
    (org : database.Organization.t) (req : groups.CreateGroupRequest.t) :
  httpmw.Value (httpmw.Ctx r) httpmw.organizationParamContextKey
    = Some (httpmw.ValueOrganization org) →
  Read r = inr req →
  groups.CreateGroupRequest.Name req = AllUsersGroup →
  postGroupByOrganization r w
  = (Written
       (if AuthorizeCreate r
        then httpapi.Write http.StatusBadRequest
               (httpapi.message
                  (Sprintf_q AllUsersGroup
                   ++ " is a reserved keyword and cannot be used for a group name."))
        else http.NotFound),
     w).
Proof.
  intros Horg Hread Hname.
  unfold groups.postGroupByOrganization, httpmw.serve, httpmw.OrganizationParam.
  rewrite Horg, bind_ret_l.
  destruct (AuthorizeCreate r); cbn [negb]; [|done].
  rewrite Hread. unfold groups.orReply. rewrite bind_ret_l.
  by rewrite (bool_decide_eq_true_2 _ Hname).
Qed.

(** X19. The create handler inserts in one case, and in that case only.
    When an organization is resolved, the gate grants the creation, the
    body decodes and the name is not the reserved one, the handler asks
    the store to insert a group of the requested name and the identifier
    drawn into the resolved organization. If the store inserts it, the
    store is the one the insertion left and the answer is the 201
    response with the group as the store returned it and no member. If
    the store reports a unique violation the answer is 409, and for any
    other error 500, the world as it was. In every case in which nothing
    is inserted the world is as the request found it. *)
Theorem postGroupByOrganization_mutation (r : httpmw.Request) (w : World DB) :
  let asks (org : database.Organization.t) (req : groups.CreateGroupRequest.t)
      (res : Result (database.Group.t * DB)) :=
    httpmw.Value (httpmw.Ctx r) httpmw.organizationParamContextKey
      = Some (httpmw.ValueOrganization org)
    ∧ AuthorizeCreate r = true
    ∧ Read r = inr req
    ∧ groups.CreateGroupRequest.Name req ≠ AllUsersGroup
    ∧ groups.InsertGroup
        {| groups.InsertGroupParams.ID := New;
           groups.InsertGroupParams.Name := groups.CreateGroupRequest.Name req;
           groups.InsertGroupParams.OrganizationID := database.Organization.ID org |}
        (db w) = res in
  (∀ org req g d,
     asks org req (Ok (g, d)) →
     postGroupByOrganization r w
     = (Written (httpapi.WriteGroup groups.StatusCreated
                   {| codersdk.Group.ID := database.Group.ID g;
                      codersdk.Group.Name := database.Group.Name g;
                      codersdk.Group.OrganizationID := database.Group.OrganizationID g;
                      codersdk.Group.Members := [] |}),
        {| db := d; calls := calls w |}))
  ∧ (∀ org req err,
       asks org req (Err err) →
       postGroupByOrganization r w
       = (Written
            (if database.IsUniqueViolation err
             then httpapi.Write http.StatusConflict
                    (httpapi.message
                       ("Group with name "
                        ++ Sprintf_q (groups.CreateGroupRequest.Name req)
                        ++ " already exists."))
             else httpapi.InternalServerError err),
          w))
  ∧ ((∀ org req g d, ¬ asks org req (Ok (g, d))) →
     (postGroupByOrganization r w).2 = w).
Proof.
  intros asks. split; [|split].
  - intros org req g d (Horg & Hauth & Hread & Hname & Hinsert).
    unfold groups.postGroupByOrganization, httpmw.serve, httpmw.OrganizationParam.
    rewrite Horg, bind_ret_l, Hauth. cbn [negb].
    rewrite Hread. unfold groups.orReply. rewrite bind_ret_l.
    rewrite (bool_decide_eq_false_2 _ Hname).
    unfold bind, groups.poke. by rewrite Hinsert.
  - intros org req err (Horg & Hauth & Hread & Hname & Hinsert).
    unfold groups.postGroupByOrganization, httpmw.serve, httpmw.OrganizationParam.
    rewrite Horg, bind_ret_l, Hauth. cbn [negb].
    rewrite Hread. unfold groups.orReply. rewrite bind_ret_l.
    rewrite (bool_decide_eq_false_2 _ Hname).
    unfold bind, groups.poke. rewrite Hinsert.
    by destruct (database.IsUniqueViolation err).
  - intros Hnone.
    unfold groups.postGroupByOrganization, httpmw.serve, httpmw.OrganizationParam.
    destruct (httpmw.Value _ _) as [[org|member|g]|] eqn:Horg; try done.
    rewrite bind_ret_l.
    destruct (AuthorizeCreate r) eqn:Hauth; cbn [negb]; [|done].
    destruct (Read r) as [resp0|req] eqn:Hread; unfold groups.orReply; [done|].
    rewrite bind_ret_l.
    destruct (bool_decide _) eqn:Hname; [done|].
    apply bool_decide_eq_false in Hname.
    unfold bind, groups.poke.
    destruct (groups.InsertGroup _ _) as [[g d]|err] eqn:Hinsert.
    + by destruct (Hnone org req g d).
    + by destruct (database.IsUniqueViolation err).
Qed.

Lemma groups_members_inversion
    (gs : list database.Group.t) (resp out : list codersdk.Group.t)
    (w w' : World DB) :
  groups_members gs resp w = (inr out, w') →
  ∃ rosters,
    Forall2 (λ g members,
               database.GetGroupMembers (database.Group.ID g) (db w) = Ok members)
            gs rosters
    ∧ out = (resp ++ zip_with (coderd.convertGroup RoleByName) gs rosters)%list
    ∧ w' = {| db := db w;
              calls := (calls w ++ (database.CallGetGroupMembers
                                    ∘ database.Group.ID <$> gs))%list |}.
Proof.
  revert resp w. induction gs as [|g gs IH]; intros resp w Hloop.
  - injection Hloop as <- <-. exists []. destruct w; cbn.
    by rewrite !app_nil_r.
  - cbn in Hloop. unfold bind, query in Hloop.
    destruct (database.GetGroupMembers _ _) as [members|err] eqn:Hmembers;
      [|discriminate].
    apply IH in Hloop as (rosters & Hall & -> & ->).
    exists (members :: rosters). cbn. repeat split.
    + by constructor.
    + by rewrite <- app_assoc.
    + by rewrite <- app_assoc.
Qed.

(** X20. When the list handler answers 200, the organization is resolved and
    the body holds exactly the groups that the filter cleared among those
    the store lists for that organization (none, when the store reports no
    rows), in the order of the filter, each with its roster as stored.
    The store is as the request found it, and the calls traced are the
    roster queries, one per cleared group. *)
Theorem groups_listing
    (r : httpmw.Request) (w w' : World DB) (out : list codersdk.Group.t) :
  listGroups r w = (inr out, w') →
  ∃ org listed cleared rosters,
    httpmw.Value (httpmw.Ctx r) httpmw.organizationParamContextKey
      = Some (httpmw.ValueOrganization org)
    ∧ (groups.GetGroupsByOrganizationID (database.Organization.ID org) (db w)
         = Ok listed
       ∨ ∃ err, groups.GetGroupsByOrganizationID (database.Organization.ID org) (db w)
                  = Err err
                ∧ Is_ErrNoRows err = true ∧ listed = [])
    ∧ AuthorizeFilter r rbac.ActionRead listed = Ok cleared
    ∧ Forall2 (λ g members,
                 database.GetGroupMembers (database.Group.ID g) (db w) = Ok members)
              cleared rosters
    ∧ out = zip_with (coderd.convertGroup RoleByName) cleared rosters
    ∧ w' = {| db := db w;
              calls := (calls w ++ (database.CallGetGroupMembers
                                    ∘ database.Group.ID <$> cleared))%list |}.
Proof.
  unfold groups.groups, httpmw.OrganizationParam.
  destruct (httpmw.Value _ _) as [[org|member|g]|] eqn:Horg; try discriminate.
  rewrite bind_ret_l. unfold bind at 1, groups.peek.
  destruct (groups.GetGroupsByOrganizationID _ _) as [listed|err] eqn:Hlisted.
  - rewrite bind_ret_l.
    destruct (AuthorizeFilter _ _ _) as [cleared|err] eqn:Hfilter; [|discriminate].
    intros Hloop.
    apply groups_members_inversion in Hloop as (rosters & Hall & -> & ->).
    exists org, listed, cleared, rosters. repeat split; auto.
  - destruct (Is_ErrNoRows err) eqn:Hno; [|discriminate]. cbn [negb].
    rewrite bind_ret_l.
    destruct (AuthorizeFilter _ _ _) as [cleared|err'] eqn:Hfilter; [|discriminate].
    intros Hloop.
    apply groups_members_inversion in Hloop as (rosters & Hall & -> & ->).
    exists org, [], cleared, rosters. repeat split; eauto.
Qed.

Lemma groups_members_fails
    (gs : list database.Group.t) (g : database.Group.t) (err : error)
    (resp : list codersdk.Group.t) (w : World DB) :
  g ∈ gs →
  database.GetGroupMembers (database.Group.ID g) (db w) = Err err →
  ∃ answer w', groups_members gs resp w = (inl (Written answer), w')
               ∧ http.StatusCode answer = http.StatusInternalServerError
               ∧ db w' = db w.
Proof.
  intros Hin. revert resp w.
  induction gs as [|g' gs IH]; intros resp w Herr; [by apply elem_of_nil in Hin|].
  cbn. unfold bind, query.
  destruct (database.GetGroupMembers (database.Group.ID g') (db w))
    as [members|err'] eqn:Hmembers.
  - apply elem_of_cons in Hin as [->|Hin]; [congruence|].
    destruct (IH Hin (resp ++ [coderd.convertGroup RoleByName g' members])%list
                (logCall (database.CallGetGroupMembers (database.Group.ID g')) w)
                Herr)
      as (answer & w' & Hloop & Hstatus & Hdb).
    by exists answer, w'.
  - by eexists _, _.
Qed.

(** X21. The list handler answers with a list only if the roster of every
    cleared group can be read: when the roster query fails for one of them,
    no part of the list is written. *)
Theorem groups_all_or_nothing
    (r : httpmw.Request) (w : World DB) (org : database.Organization.t)
    (listed cleared : list database.Group.t) (g : database.Group.t) (err : error) :
  httpmw.Value (httpmw.Ctx r) httpmw.organizationParamContextKey
    = Some (httpmw.ValueOrganization org) →
  groups.GetGroupsByOrganizationID (database.Organization.ID org) (db w) = Ok listed →
  AuthorizeFilter r rbac.ActionRead listed = Ok cleared →
  g ∈ cleared →
  database.GetGroupMembers (database.Group.ID g) (db w) = Err err →
  ∃ resp w', listGroups r w = (inl (Written resp), w')
             ∧ http.StatusCode resp = http.StatusInternalServerError
             ∧ db w' = db w.
Proof.
  intros Horg Hlisted Hfilter Hin Herr.
  unfold groups.groups, httpmw.OrganizationParam.
  rewrite Horg, bind_ret_l. unfold bind at 1, groups.peek.
  rewrite Hlisted, bind_ret_l, Hfilter.
  by eapply groups_members_fails.
Qed.

End CreateAndList.

(** ** The further properties on the deployment of [scenario] *)

Lemma ExtractGroupParam_GroupParam_witness :
  httpmw.ExtractGroupParam scenario.whichOrganization scenario.infraRoute scenario.world
  = scenario.whichOrganization (withGroup scenario.infraRoute scenario.infra)
      (logCall (database.CallGetGroupByID (scenario.id xe1)) scenario.world)
  ∧ httpmw.GroupParam (withGroup scenario.infraRoute scenario.infra) scenario.world
    = (inr scenario.infra, scenario.world).
Proof.
  apply (ExtractGroupParam_GroupParam (DB := memdb.t)); reflexivity.
Defined.

Lemma ExtractGroupParam_lookup_failure_witness :
  httpmw.ExtractGroupParam scenario.whichOrganization scenario.absentRoute scenario.world
  = (Written httpapi.ResourceNotFound,
     logCall (database.CallGetGroupByID (scenario.id xff)) scenario.world).
Proof.
  rewrite (ExtractGroupParam_lookup_failure (DB := memdb.t)
             scenario.whichOrganization scenario.absentRoute scenario.world
             (scenario.id xff) ErrNoRows);
    reflexivity.
Defined.

Lemma ExtractOrganizationParam_by_id_witness :
  httpmw.ExtractOrganizationParam scenario.whichOrganization cases.zeroRoute scenario.world
  = (Written (httpapi.Write http.StatusOK (httpapi.message "legacy")),
     {| db := scenario.store;
        calls := [database.CallGetOrganizationByID uuid.Nil] |}).
Proof.
  rewrite (ExtractOrganizationParam_by_id (DB := memdb.t)
             scenario.whichOrganization cases.zeroRoute scenario.world uuid.Nil);
    [reflexivity | reflexivity | discriminate].
Defined.

Lemma ExtractOrganizationParam_by_name_witness :
  httpmw.ExtractOrganizationParam scenario.whichOrganization cases.acmeRoute scenario.world
  = (Written (httpapi.Write http.StatusOK (httpapi.message "acme")),
     {| db := scenario.store;
        calls := [database.CallGetOrganizationByName "acme"] |}).
Proof.
  rewrite (ExtractOrganizationParam_by_name (DB := memdb.t)
             scenario.whichOrganization cases.acmeRoute scenario.world);
    [reflexivity | discriminate | discriminate | reflexivity].
Defined.


Lemma patchGroup_bad_id_never_mutates_witness :
  db (coderd.patchGroup scenario.AllUsersGroup scenario.RoleByName scenario.api
        scenario.addMalformedAndBob scenario.world).2 = scenario.store
  ∧ ∃ l, calls (coderd.patchGroup scenario.AllUsersGroup scenario.RoleByName
                  scenario.api scenario.addMalformedAndBob scenario.world).2
         = (calls scenario.world ++ l)%list
         ∧ database.CallInTx ∉ l.
Proof.
  apply (patchGroup_bad_id_never_mutates (DB := memdb.t)
           scenario.AllUsersGroup scenario.RoleByName scenario.api
           scenario.addMalformedAndBob scenario.world
           (scenario.patchOf scenario.addMalformedAndBob) scenario.infra
           "not-a-uuid");
    [reflexivity | reflexivity | | reflexivity].
  apply elem_of_cons. by left.
Defined.

Lemma patchGroup_tx_calls_witness :
  ∃ adds removes,
    mapM uuid.Parse [scenario.aliceID] = Some adds
    ∧ mapM uuid.Parse [] = Some removes
    ∧ calls (coderd.patchGroup_tx scenario.infra
               (scenario.patchOf scenario.renameAndAdd) scenario.world).2
      = (calls scenario.world
         ++ txCalls scenario.infra (memdb.rename "core" scenario.infra)
              (scenario.patchOf scenario.renameAndAdd) adds removes)%list
    ∧ (codersdk.PatchGroupRequest.Name (scenario.patchOf scenario.renameAndAdd) = ""
       → memdb.rename "core" scenario.infra = scenario.infra).
Proof.
  apply (patchGroup_tx_calls (DB := memdb.t) scenario.infra
           (memdb.rename "core" scenario.infra)
           (scenario.patchOf scenario.renameAndAdd) scenario.world).
  reflexivity.
Defined.

Lemma patchGroup_tx_failure_witness :
  coderd.patchGroup_tx scenario.infra (scenario.patchOf cases.removeBob)
    scenario.world
  = (inl (Failed (wrapError ("insert group member " ++ Sprintf_q scenario.bobID)
                    ErrNoRows)),
     logCall (database.CallDeleteGroupMember (scenario.id x02)) scenario.world).
Proof.
  eapply (proj2 (patchGroup_tx_failure (DB := memdb.t) scenario.infra
                   (scenario.patchOf cases.removeBob) scenario.world)
            [] [] scenario.bobID (scenario.id x02) scenario.infra);
    reflexivity.
Defined.

Lemma patchGroup_after_commit_witness :
  db (coderd.patchGroup scenario.AllUsersGroup scenario.RoleByName scenario.api
        scenario.renameAndAdd scenario.world).2
  = (coderd.patchGroup_tx scenario.infra (scenario.patchOf scenario.renameAndAdd)
       scenario.world).2.(db).
Proof.
  edestruct (patchGroup_after_commit (DB := memdb.t)
               scenario.AllUsersGroup scenario.RoleByName scenario.api
               scenario.renameAndAdd scenario.world) as [];
    [lazy; reflexivity | lazy; reflexivity | lazy; reflexivity |].
  reflexivity.
Defined.

Lemma patchGroup_success_witness :
  let core := memdb.rename "core" scenario.infra in
  ∃ group req group' w1 w2 w3 members,
    coderd.patchGroup_validate scenario.AllUsersGroup scenario.api
      scenario.renameAndAdd scenario.world = (inr (group, req), w1)
    ∧ coderd.patchGroup_nameCheck group req w1 = (inr tt, w2)
    ∧ coderd.patchGroup_tx group req (logCall database.CallInTx w2)
      = (inr group', w3)
    ∧ database.GetGroupMembers (database.Group.ID group') (db w3) = Ok members
    ∧ httpapi.WriteGroup http.StatusOK
        (coderd.convertGroup scenario.RoleByName core [scenario.alice])
      = httpapi.WriteGroup http.StatusOK
          (coderd.convertGroup scenario.RoleByName group' members)
    ∧ (coderd.patchGroup scenario.AllUsersGroup scenario.RoleByName scenario.api
         scenario.renameAndAdd scenario.world).2
      = logCall (database.CallGetGroupMembers (database.Group.ID group')) w3.
Proof.
  apply (patchGroup_success (DB := memdb.t)
           scenario.AllUsersGroup scenario.RoleByName scenario.api
           scenario.renameAndAdd scenario.world).
  - lazy; reflexivity.
  - reflexivity.
Defined.

Lemma patchGroup_empty_update_witness :
  coderd.patchGroup scenario.AllUsersGroup scenario.RoleByName scenario.api
    cases.emptyPatch scenario.world
  = (Written (httpapi.WriteGroup http.StatusOK
                (coderd.convertGroup scenario.RoleByName scenario.infra [])),
     {| db := scenario.store;
        calls := [database.CallInTx;
                  database.CallGetGroupMembers (scenario.id xe1)] |}).
Proof.
  rewrite (patchGroup_empty_update (DB := memdb.t)
             scenario.AllUsersGroup scenario.RoleByName scenario.api
             cases.emptyPatch scenario.world scenario.infra);
    reflexivity.
Defined.

Lemma group_handlers_need_resolver_witness :
  coderd.patchGroup scenario.AllUsersGroup scenario.RoleByName scenario.api
    cases.unresolved scenario.world
  = (Panicked "developer error: group param middleware not provided", scenario.world).
Proof.
  apply (group_handlers_need_resolver (DB := memdb.t)
           scenario.AllUsersGroup scenario.RoleByName scenario.api
           cases.unresolved scenario.world).
  reflexivity.
Defined.

Lemma deleteGroup_mutation_witness :
  ∃ d,
    database.DeleteGroupByID (scenario.id xe1) scenario.store = Ok (tt, d)
    ∧ coderd.deleteGroup scenario.AllUsersGroup scenario.api
        cases.grantedDelete scenario.world
      = (Written (httpapi.Write http.StatusOK
                    (httpapi.message "Successfully deleted group!")),
         {| db := d; calls := [database.CallDeleteGroupByID (scenario.id xe1)] |})
    ∧ database.Group.Name <$> memdb.groups d
      = [scenario.AllUsersGroup; "platform"; "archive"].
Proof.
  eexists. split; [reflexivity|]. split; [|reflexivity].
  apply (proj1 (deleteGroup_mutation (DB := memdb.t) scenario.AllUsersGroup
                  scenario.api cases.grantedDelete scenario.world)
           scenario.infra).
  repeat split; (reflexivity || discriminate).
Defined.

Lemma roster_no_rows_witness :
  coderd.group scenario.RoleByName scenario.api cases.grantedGet cases.rosterless
  = (Written (httpapi.WriteGroup http.StatusOK
                (coderd.convertGroup scenario.RoleByName scenario.infra [])),
     logCall (database.CallGetGroupMembers (scenario.id xe1)) cases.rosterless)
  ∧ httpmw.serve (coderd.patchGroup_respond scenario.RoleByName (Ok scenario.infra))
      cases.rosterless
    = (Written (httpapi.InternalServerError ErrNoRows),
       logCall (database.CallGetGroupMembers (scenario.id xe1)) cases.rosterless)
  ∧ groups.groups_members scenario.RoleByName [scenario.infra] [] cases.rosterless
    = (inl (Written (httpapi.InternalServerError ErrNoRows)),
       logCall (database.CallGetGroupMembers (scenario.id xe1)) cases.rosterless).
Proof.
  apply (roster_no_rows (DB := memdb.t) scenario.RoleByName scenario.api
           cases.grantedGet cases.rosterless scenario.infra ErrNoRows);
    reflexivity.
Defined.

Lemma postGroupByOrganization_reserved_witness :
  groups.postGroupByOrganization scenario.AllUsersGroup scenario.RoleByName
    cases.AuthorizeCreate cases.Read (scenario.id xe9)
    cases.createReserved scenario.world
  = (Written (httpapi.Write http.StatusBadRequest
                (httpapi.message
                   (Sprintf_q scenario.AllUsersGroup
                    ++ " is a reserved keyword and cannot be used for a group name."))),
     scenario.world)
  ∧ groups.postGroupByOrganization scenario.AllUsersGroup scenario.RoleByName
      cases.AuthorizeCreate cases.Read (scenario.id xe9)
      cases.createReservedDenied scenario.world
    = (Written http.NotFound, scenario.world).
Proof.
  split.
  - eapply (postGroupByOrganization_reserved (DB := memdb.t)
              scenario.AllUsersGroup scenario.RoleByName
              cases.AuthorizeCreate cases.Read (scenario.id xe9)
              cases.createReserved scenario.world scenario.acme);
      reflexivity.
  - eapply (postGroupByOrganization_reserved (DB := memdb.t)
              scenario.AllUsersGroup scenario.RoleByName
              cases.AuthorizeCreate cases.Read (scenario.id xe9)
              cases.createReservedDenied scenario.world scenario.acme);
      reflexivity.
Defined.

Lemma postGroupByOrganization_mutation_witness :
  ∃ g d,
    groups.InsertGroup
      {| groups.InsertGroupParams.ID := scenario.id xe9;
         groups.InsertGroupParams.Name := "core";
         groups.InsertGroupParams.OrganizationID := scenario.id x0a |}
      scenario.store = Ok (g, d)
    ∧ groups.postGroupByOrganization scenario.AllUsersGroup scenario.RoleByName
        cases.AuthorizeCreate cases.Read (scenario.id xe9)
        cases.createCore scenario.world
      = (Written (httpapi.WriteGroup groups.StatusCreated
                    {| codersdk.Group.ID := scenario.id xe9;
                       codersdk.Group.Name := "core";
                       codersdk.Group.OrganizationID := scenario.id x0a;
                       codersdk.Group.Members := [] |}),
         {| db := d; calls := [] |})
    ∧ database.Group.Name <$> memdb.groups d
      = [scenario.AllUsersGroup; "infra"; "platform"; "archive"; "core"].
Proof.
  eexists _, _. split; [reflexivity|]. split; [|reflexivity].
  apply (proj1 (postGroupByOrganization_mutation (DB := memdb.t)
                  scenario.AllUsersGroup scenario.RoleByName
                  cases.AuthorizeCreate cases.Read (scenario.id xe9)
                  cases.createCore scenario.world)
           scenario.acme {| groups.CreateGroupRequest.Name := "core" |}
           {| database.Group.ID := scenario.id xe9;
              database.Group.Name := "core";
              database.Group.OrganizationID := scenario.id x0a |}).
  repeat split; (reflexivity || discriminate).
Defined.

Lemma groups_listing_witness :
  ∃ out w',
    groups.groups scenario.RoleByName cases.AuthorizeFilter
      (cases.onAcme "viewer" scenario.noBody) scenario.world = (inr out, w')
    ∧ ∃ org listed cleared rosters,
        httpmw.Value (httpmw.Ctx (cases.onAcme "viewer" scenario.noBody))
          httpmw.organizationParamContextKey
        = Some (httpmw.ValueOrganization org)
        ∧ (groups.GetGroupsByOrganizationID (database.Organization.ID org)
             scenario.store = Ok listed
           ∨ ∃ err, groups.GetGroupsByOrganizationID (database.Organization.ID org)
                      scenario.store = Err err
                    ∧ Is_ErrNoRows err = true ∧ listed = [])
        ∧ cases.AuthorizeFilter (cases.onAcme "viewer" scenario.noBody)
            rbac.ActionRead listed = Ok cleared
        ∧ Forall2 (λ g members,
                     database.GetGroupMembers (database.Group.ID g) scenario.store
                     = Ok members)
                  cleared rosters
        ∧ out = zip_with (coderd.convertGroup scenario.RoleByName) cleared rosters
        ∧ w' = {| db := scenario.store;
                  calls := (calls scenario.world
                            ++ (database.CallGetGroupMembers
                                ∘ database.Group.ID <$> cleared))%list |}.
Proof.
  eexists _, _. split; [lazy; reflexivity|].
  apply (groups_listing (DB := memdb.t) scenario.RoleByName cases.AuthorizeFilter
           (cases.onAcme "viewer" scenario.noBody) scenario.world).
  lazy. reflexivity.
Defined.

Lemma groups_all_or_nothing_witness :
  ∃ resp w',
    groups.groups scenario.RoleByName cases.AuthorizeFilter
      cases.listAsAdmin cases.rosterDown = (inl (Written resp), w')
    ∧ http.StatusCode resp = http.StatusInternalServerError
    ∧ db w' = db cases.rosterDown.
Proof.
  apply (groups_all_or_nothing (DB := memdb.t) scenario.RoleByName
           cases.AuthorizeFilter cases.listAsAdmin cases.rosterDown
           scenario.acme
           [scenario.everyone; scenario.infra; scenario.platform]
           [scenario.everyone; scenario.infra; scenario.platform]
           scenario.platform (errorString "driver: bad connection"));
    [reflexivity | reflexivity | reflexivity | | reflexivity].
  apply elem_of_cons. right. apply elem_of_cons. right. apply elem_of_cons. by left.
Defined.
